(** * health-service: ingestion and aggregation core

    A shallow embedding of [src/health-database.js] (the writer:
    [saveHealthMetric], [saveAutoExportData]) and of
    [src/health-api.js] ([getAppleHealthMetrics], the query path), followed
    by the properties of the specification that concern them.

    Further parts of the code are embedded after these, with properties of
    their own: the audit queries and the Sleep Cycle table of
    [src/health-database.js], the summary path of [src/health-api.js]
    ([getAppleHealthSummary], [getAppleHealthDailyData]), the handler of
    the ingestion webhook, and the one-off migration
    [scripts/convert-energy-units.js].  Where one of these can fail in a
    way of its own (a NOT NULL violation, a TypeError on a missing
    property), its definition says so.

    Conventions of the embedding.
    - A JavaScript number is an exact rational [Q]; a column or field that
      may be NULL or undefined is an [option].  Equalities between computed
      numbers are stated with [==] ([Qeq]).  The code computes on IEEE
      doubles: a statement that relates two computed numbers either names
      the code's own formula on both sides or is restricted to inputs on
      which doubles are exact (whole numbers of bounded size).
    - The SQLite tables are lists of rows in insertion order.  The store is
      assumed initialised and available: [isReady] holds and [runQuery] never
      rejects.  In the writer, the only exceptions that are modelled are the
      [TypeError]s raised by reading a property of a [null] array element of
      the payload.  The query path throws for an unknown metric type or
      aggregation level, for a date range that cannot be computed (the
      RangeError of [toISOString]) and for a limit that SQLite does not
      accept; the summary path throws that RangeError and the [TypeError] of
      its loop.
    - SQL leaves open the order of result rows that tie on the ORDER BY key
      (and of groups when there is no ORDER BY); the model keeps them in the
      order in which the scan meets them, and SQLite may return them in
      another.  The statements on the summary path and on listed samples
      and periods hold for either order.
    - Built-ins of the platform whose result is only stored or grouped on
      ([JSON.stringify] of the metadata object, SQLite's [STRFTIME] week
      key, the wall clock) are parameters.  The writer reads the clock
      several times during a call; every read is given the same value
      [now], and a statement that names [now] is about the one read of the
      line it describes.
    - A payload is typed: [metrics], [workouts] and a metric's [data] are
      absent or arrays, a quantity is absent or a number.  A body that
      puts another JSON value there is outside the model. *)

From Stdlib Require Import List String Ascii Bool Arith ZArith QArith Qround Qabs Lia Lqa.
From Stdlib Require Import Permutation Sorted.
Import ListNotations.
Local Open Scope string_scope.
Local Open Scope Q_scope.

Set Implicit Arguments.

(** ** JavaScript values *)

Module Js.

(** [s || d] on a string that may be undefined: the empty string is falsy. *)
Definition str_or (s : option string) (d : string) : string :=
  match s with
  | Some (String c r) => String c r
  | _ => d
  end.

(** Truthiness of a string operand of [&&]. *)
Definition str_truthy (s : option string) : bool :=
  match s with
  | Some (String _ _) => true
  | _ => false
  end.

(** Truthiness of a number that may be null: null and 0 are falsy. *)
Definition num_truthy (x : option Q) : bool :=
  match x with
  | Some q => negb (Qeq_bool q 0)
  | None => false
  end.

(** [x || 0] on a number that may be undefined. *)
Definition num_or_zero (x : option Q) : Q :=
  match x with
  | Some q => if Qeq_bool q 0 then 0 else q
  | None => 0
  end.

(** A null operand of [*] or [+] converts to 0. *)
Definition to_number (x : option Q) : Q :=
  match x with
  | Some q => q
  | None => 0
  end.

(** [Math.round]: the nearest integer, halves going up. *)
Definition Math_round (x : Q) : Q := inject_Z (Qfloor (x + (1 # 2))).

(** [Math.round(x * 100) / 100]. *)
Definition round2 (x : Q) : Q := Math_round (x * 100) / 100.

(** Outcome of a call that may throw. *)
Inductive outcome (A : Type) : Type :=
| Returned (a : A)
| Thrown (message : string).
Arguments Thrown {A} message.

End Js.

(** ** SQLite expressions *)

Module Sql.

(** Binary collation of TEXT values. *)
Definition text_le (a b : string) : bool := String.leb a b.

(** [col >= lo AND col <= hi] used as a WHERE condition: NULL is not true. *)
Definition between (col : option string) (lo hi : string) : bool :=
  match col with
  | Some d => text_le lo d && text_le d hi
  | None => false
  end.

(** [SUBSTR(col, 1, n)]. *)
Definition substr1 (n : nat) (col : option string) : option string :=
  option_map (substring 0 n) col.

(** [SUM]: NULLs are skipped; NULL when no value is left. *)
Fixpoint sum (xs : list (option Q)) : option Q :=
  match xs with
  | [] => None
  | None :: r => sum r
  | Some q :: r =>
      match sum r with
      | Some s => Some (q + s)
      | None => Some q
      end
  end.

(** Number of non-NULL values. *)
Fixpoint count_values (xs : list (option Q)) : nat :=
  match xs with
  | [] => O
  | None :: r => count_values r
  | Some _ :: r => S (count_values r)
  end.

(** [AVG]: the sum over the number of non-NULL values. *)
Definition avg (xs : list (option Q)) : option Q :=
  match sum xs with
  | Some s => Some (s / inject_Z (Z.of_nat (count_values xs)))
  | None => None
  end.

Definition pick (keep_left : Q -> Q -> bool) (a b : option Q) : option Q :=
  match a, b with
  | Some x, Some y => Some (if keep_left x y then x else y)
  | Some x, None => Some x
  | None, o => o
  end.

(** [MIN] and [MAX] over numbers. *)
Definition min (xs : list (option Q)) : option Q :=
  fold_right (pick Qle_bool) None xs.
Definition max (xs : list (option Q)) : option Q :=
  fold_right (pick (fun x y => Qle_bool y x)) None xs.

(** [MIN] and [MAX] over TEXT. *)
Definition pick_text (keep_left : string -> string -> bool)
    (a b : option string) : option string :=
  match a, b with
  | Some x, Some y => Some (if keep_left x y then x else y)
  | Some x, None => Some x
  | None, o => o
  end.
Definition min_text (xs : list (option string)) : option string :=
  fold_right (pick_text text_le) None xs.
Definition max_text (xs : list (option string)) : option string :=
  fold_right (pick_text (fun x y => text_le y x)) None xs.

(** ASCII case folding, as the LIKE operator does. *)
Definition upper (c : ascii) : ascii :=
  let n := nat_of_ascii c in
  if (97 <=? n)%nat && (n <=? 122)%nat then ascii_of_nat (n - 32) else c.

Fixpoint prefix_nocase (p s : string) : bool :=
  match p, s with
  | EmptyString, _ => true
  | String a p', String b s' => Ascii.eqb (upper a) (upper b) && prefix_nocase p' s'
  | String _ _, EmptyString => false
  end.

(** [s LIKE '%p%'] for a pattern [p] without wildcards. *)
Fixpoint contains_nocase (p s : string) : bool :=
  prefix_nocase p s ||
  match s with
  | EmptyString => false
  | String _ s' => contains_nocase p s'
  end.

(** [col LIKE '%p%'] as a condition: NULL is not true. *)
Definition like_contains (col : option string) (p : string) : bool :=
  match col with
  | Some s => contains_nocase p s
  | None => false
  end.

(** [LIMIT n]: a negative [n] means no limit. *)
Definition limit (A : Type) (n : Z) (l : list A) : list A :=
  if (n <? 0)%Z then l else firstn (Z.to_nat n) l.

(** Whether a number bound to [LIMIT ?] converts to a 64-bit integer
    without loss; when it does not, the statement fails with
    "datatype mismatch". *)
Definition valid_limit (n : Z) : bool := ((- 2 ^ 63 <? n) && (n <? 2 ^ 63))%Z.

(** [ORDER BY key DESC] on a TEXT key, NULL being smallest; rows with
    equal keys keep the order of the scan. *)
Definition key_ge (a b : option string) : bool :=
  match a, b with
  | _, None => true
  | None, Some _ => false
  | Some x, Some y => text_le y x
  end.

Fixpoint insert_desc (A : Type) (key : A -> option string) (x : A) (l : list A) : list A :=
  match l with
  | [] => [x]
  | y :: r => if key_ge (key x) (key y) then x :: y :: r
              else y :: insert_desc key x r
  end.

Definition order_by_desc (A : Type) (key : A -> option string) (l : list A) : list A :=
  fold_right (insert_desc key) [] l.

End Sql.

(** ** The writer: [health-database.js] *)

Module HealthDatabase.
Import Js.

(** A row of [health_metrics], columns as in [createTables]. *)
Record Row : Type := mkRow {
  rowid : nat;
  metric_type : string;
  metric_source : string;
  metric_date : option string;
  metric_value : option Q;
  metric_unit : option string;
  additional_data : option string;
  created_at : string;
  metric_value_converted : option Q
}.

(** JSON values carried through to the metadata column. *)
Local Unset Elimination Schemes.
Inductive json : Type :=
| JNull
| JNum (q : Q)
| JStr (s : string)
| JObj (fields : list (string * json)).
Local Set Elimination Schemes.

(** An object literal: a property whose value is undefined is left out
    when the object is serialised. *)
Definition object (props : list (string * option json)) : json :=
  JObj (flat_map (fun p => match snd p with
                           | Some v => [(fst p, v)]
                           | None => []
                           end) props).

(** One element of [metric.data]. *)
Record DataPoint : Type := mkPoint {
  date : option string;
  qty : option Q;
  source : option string;
  totalSleep : option Q;
  Avg : option Q;
  Min : option json;
  Max : option json;
  deep : option json;
  core : option json;
  rem : option json;
  awake : option json;
  inBed : option json;
  sleepStart : option json;
  sleepEnd : option json;
  inBedStart : option json;
  inBedEnd : option json
}.

(** One element of [payload.data.metrics].  [data] is [None] when the
    property is missing or is not an array; a [None] element of the array
    is a JSON null. *)
Record Metric : Type := mkMetric {
  name : string;
  units : option string;
  data : option (list (option DataPoint))
}.

(** One element of [payload.data.workouts]. *)
Record Workout : Type := mkWorkout {
  workout_name : string;
  start : option string;
  duration : option Q;
  workout_end : option json;
  calories : option json;
  distance : option json;
  workout_source : option string
}.

(** The request body, [payload.data] being present (the route checks it).
    [metrics] and [workouts] are absent or arrays.  The writer iterates any
    truthy value it finds there, and throws "is not iterable" on one that
    is no array: such a body is not a [Payload]. *)
Record Payload : Type := mkPayload {
  metrics : option (list (option Metric));
  workouts : option (list (option Workout))
}.

(** A row of [apple_health_auto_export]; [payload_json] keeps the payload
    itself in place of its text. *)
Record ImportRecord : Type := mkImport {
  import_id : nat;
  import_timestamp : string;
  import_source : string;
  metrics_count : nat;
  workouts_count : nat;
  payload_json : Payload;
  status : string;
  error_message : option string;
  import_created_at : string
}.

(** A row of [health_sync_log]. *)
Record SyncLog : Type := mkSync {
  service : string;
  sync_time : string;
  sync_status : string;
  records_updated : nat;
  sync_error : option string
}.

(** The three tables the ingestion path writes. *)
Record DB : Type := mkDB {
  health_metrics : list Row;
  apple_health_auto_export : list ImportRecord;
  health_sync_log : list SyncLog
}.

Definition empty_db : DB := mkDB [] [] [].

(** A UNIQUE constraint, as the test "these two rows collide on it". *)
Definition Unique : Type := Row -> Row -> bool.

(** The constraints [createTables] declares on [health_metrics]:
    the statement has an AUTOINCREMENT primary key and no UNIQUE clause. *)
Definition createTables_unique : list Unique := [].

Definition same_text (a b : option string) : bool :=
  match a, b with
  | Some x, Some y => String.eqb x y
  | _, _ => false
  end.

Definition same_real (a b : option Q) : bool :=
  match a, b with
  | Some x, Some y => Qeq_bool x y
  | _, _ => false
  end.

(** The constraint the incident analysis in the repository reports for
    the production file:
    UNIQUE(metric_type, metric_source, metric_date, metric_value).
    NULLs never collide. *)
Definition documented_unique : list Unique :=
  [fun a b => String.eqb (metric_type a) (metric_type b)
              && String.eqb (metric_source a) (metric_source b)
              && same_text (metric_date a) (metric_date b)
              && same_real (metric_value a) (metric_value b)].

(** The key of the specification: (metric kind, source, timestamp). *)
Definition same_tuple (a b : Row) : bool :=
  String.eqb (metric_type a) (metric_type b)
  && String.eqb (metric_source a) (metric_source b)
  && same_text (metric_date a) (metric_date b).

Definition next_rowid (tbl : list Row) : nat :=
  S (fold_right Nat.max O (map rowid tbl)).

Definition collides (uniq : list Unique) (tbl : list Row) (r : Row) : bool :=
  existsb (fun u => existsb (u r) tbl) uniq.

(** [INSERT OR IGNORE INTO health_metrics]: the row is dropped when it
    collides with a stored row on one of the table's constraints. *)
Definition insert_or_ignore (uniq : list Unique) (tbl : list Row) (r : Row) : list Row :=
  if collides uniq tbl r then tbl else tbl ++ [r].

Definition is_energy (type : string) : bool :=
  String.eqb type "active_energy" || String.eqb type "basal_energy_burned".

Definition unit_is (u : option string) (s : string) : bool :=
  match u with
  | Some x => String.eqb x s
  | None => false
  end.

Definition kJ_per_kcal : Q := 4184 # 1000.

(** The [convertedValue] computed by [saveHealthMetric].  An absent
    [value] is [undefined]: the division gives NaN, which SQLite stores as
    NULL.  A [null] value, which the division turns into 0, is not told
    apart from it: the statements about the converted column are about
    values that are numbers. *)
Definition convertedValue (type : string) (value : option Q) (unit : option string) : option Q :=
  if is_energy type then
    if unit_is unit "kJ" then option_map (fun v => v / kJ_per_kcal) value
    else value
  else value.

(** State of the store threaded through a call that may throw. *)
Definition M (A : Type) : Type := DB -> DB * outcome A.

Definition ret (A : Type) (a : A) : M A := fun db => (db, Returned a).

Definition throw (A : Type) (msg : string) : M A := fun db => (db, Thrown msg).
Arguments throw {A} msg.

Definition bind (A B : Type) (m : M A) (k : A -> M B) : M B :=
  fun db =>
    match m db with
    | (db', Returned a) => k a db'
    | (db', Thrown e) => (db', Thrown e)
    end.

Notation "x <- m ;; k" := (bind m (fun x => k))
  (at level 100, m at next level, right associativity).

(** A write that cannot throw in this model. *)
Definition update (f : DB -> DB) : M unit := fun db => (f db, Returned tt).

(** [for (const x of xs) { acc = body(x, acc) }], stopping at the first throw. *)
Fixpoint for_of (A S : Type) (xs : list A) (body : A -> S -> M S) (acc : S) : M S :=
  match xs with
  | [] => ret acc
  | x :: r => acc' <- body x acc ;; for_of r body acc'
  end.

(** Reading the property [prop] of an array element: a null element
    throws a TypeError with this message. *)
Definition deref (A : Type) (prop : string) (x : option A) : M A :=
  match x with
  | Some a => ret a
  | None => throw ("Cannot read properties of null (reading '" ++ prop ++ "')")
  end.

(** What [saveAutoExportData] resolves to. *)
Record Result : Type := mkResult {
  importId : nat;
  metricsStored : nat;
  workoutsStored : nat;
  timestamp : string
}.

(** [xs?.length || 0]. *)
Definition length_or_zero (A : Type) (xs : option (list A)) : nat :=
  match xs with
  | Some l => List.length l
  | None => O
  end.

Definition next_import_id (tbl : list ImportRecord) : nat :=
  S (fold_right Nat.max O (map import_id tbl)).

Section Writer.

(** The UNIQUE constraints of [health_metrics] in the opened file
    ([CREATE TABLE IF NOT EXISTS] keeps a table that is already there). *)
Variable uniq : list Unique.

(** [JSON.stringify] on the metadata object. *)
Variable JSON_stringify : json -> string.

(** [new Date().toISOString()] during the call. *)
Variable now : string.

(** The row [saveHealthMetric] binds to its INSERT statement. *)
Definition metric_row (tbl : list Row) (type source : string) (date : option string)
    (value : option Q) (unit : option string) (additionalData : option json) : Row :=
  mkRow (next_rowid tbl) type source date value unit
        (option_map JSON_stringify additionalData) now
        (convertedValue type value unit).

Definition saveHealthMetric (type source : string) (date : option string)
    (value : option Q) (unit : option string) (additionalData : option json) : M Datatypes.unit :=
  update (fun db =>
    let tbl := health_metrics db in
    mkDB (insert_or_ignore uniq tbl
            (metric_row tbl type source date value unit additionalData))
         (apple_health_auto_export db) (health_sync_log db)).

Definition logSync (service status : string) (recordsUpdated : nat)
    (errorMessage : option string) : M unit :=
  update (fun db =>
    mkDB (health_metrics db) (apple_health_auto_export db)
         (health_sync_log db ++ [mkSync service now status recordsUpdated errorMessage])).

(** INSERT INTO apple_health_auto_export, resolving to the new row's id. *)
Definition insert_import (metricsCount workoutsCount : nat) (payload : Payload)
    (status : string) (errorMessage : option string) : M nat :=
  fun db =>
    let i := next_import_id (apple_health_auto_export db) in
    (mkDB (health_metrics db)
          (apple_health_auto_export db ++
             [mkImport i now "health_auto_export" metricsCount workoutsCount
                       payload status errorMessage now])
          (health_sync_log db),
     Returned i).

Definition source_prop (s : option string) : string * option json :=
  ("source", Some (JStr (str_or s "iPhone"))).

(** Body of the loop over [metric.data]. *)
Definition save_point (metric : Metric) (dataPoint : option DataPoint)
    (stored : nat) : M nat :=
  p <- deref "date" dataPoint ;;
  _ <- (if String.eqb (name metric) "sleep_analysis" then
          saveHealthMetric (name metric) "health_auto_export" (date p)
            (Some (num_or_zero (totalSleep p))) (units metric)
            (Some (object [source_prop (source p);
                           ("deep", deep p); ("core", core p); ("rem", rem p);
                           ("awake", awake p); ("inBed", inBed p);
                           ("sleepStart", sleepStart p); ("sleepEnd", sleepEnd p);
                           ("inBedStart", inBedStart p); ("inBedEnd", inBedEnd p)]))
        else if String.eqb (name metric) "heart_rate" then
          saveHealthMetric (name metric) "health_auto_export" (date p)
            (Some (num_or_zero (Avg p))) (units metric)
            (Some (object [source_prop (source p);
                           ("min", Min p); ("max", Max p);
                           ("avg", option_map JNum (Avg p))]))
        else
          saveHealthMetric (name metric) "health_auto_export" (date p)
            (qty p) (units metric)
            (Some (object [source_prop (source p)]))) ;;
  ret (S stored).

(** Body of the loop over [payload.data.metrics]. *)
Definition save_metric (metric : option Metric) (stored : nat) : M nat :=
  m <- deref "data" metric ;;
  match data m with
  | Some points => for_of points (save_point m) stored
  | None => ret stored
  end.

(** Body of the loop over [payload.data.workouts]. *)
Definition save_workout (workout : option Workout) (stored : nat) : M nat :=
  w <- deref "name" workout ;;
  _ <- saveHealthMetric ("workout_" ++ workout_name w) "health_auto_export" (start w)
         (Some (num_or_zero (duration w))) (Some "seconds")
         (Some (object [("end", workout_end w); ("calories", calories w);
                        ("distance", distance w); source_prop (workout_source w)])) ;;
  ret (S stored).

(** The [try] block of [saveAutoExportData]. *)
Definition try_block (payload : Payload) : M Result :=
  let metricsCount := length_or_zero (metrics payload) in
  let workoutsCount := length_or_zero (workouts payload) in
  importResult <- insert_import metricsCount workoutsCount payload "success" None ;;
  stored <- match metrics payload with
            | Some ms => for_of ms save_metric O
            | None => ret O
            end ;;
  wstored <- match workouts payload with
             | Some ws => for_of ws save_workout O
             | None => ret O
             end ;;
  _ <- logSync "health_auto_export" "success" (stored + wstored) None ;;
  ret (mkResult importResult stored wstored now).

(** The [catch] block: log the failed import, log the sync, rethrow. *)
Definition catch_block (payload : Payload) (message : string) : M Result :=
  _ <- insert_import O O payload "error" (Some message) ;;
  _ <- logSync "health_auto_export" "error" O (Some message) ;;
  throw message.

Definition saveAutoExportData (payload : Payload) : M Result :=
  fun db =>
    match try_block payload db with
    | (db', Returned r) => (db', Returned r)
    | (db', Thrown message) => catch_block payload message db'
    end.

End Writer.

End HealthDatabase.

(** ** The query path: [getAppleHealthMetrics] in [health-api.js] *)

Module HealthDataService.
Import Js HealthDatabase.

(** API metric names to internal names: [metricMap[type]].  A name that
    every object inherits ([constructor], [toString], ...) also finds a
    value there; such a [type] is outside the model, and the statements
    below exclude it or do not distinguish it. *)
Definition metricMap (type : string) : option string :=
  if String.eqb type "steps" then Some "step_count"
  else if String.eqb type "heart-rate" then Some "heart_rate"
  else if String.eqb type "active-energy" then Some "active_energy"
  else if String.eqb type "walking-distance" then Some "walking_running_distance"
  else if String.eqb type "body-weight" then Some "weight_body_mass"
  else if String.eqb type "exercise-minutes" then Some "apple_exercise_time"
  else if String.eqb type "flights-climbed" then Some "flights_climbed"
  else if String.eqb type "resting-heart-rate" then Some "resting_heart_rate"
  else if String.eqb type "hrv" then Some "heart_rate_variability_sdnn"
  else if String.eqb type "sleep" then Some "sleep_analysis"
  else None.

Definition cumulativeMetrics : list string :=
  ["step_count"; "active_energy"; "basal_energy_burned";
   "walking_running_distance"; "apple_exercise_time"; "flights_climbed"].

Definition includes (l : list string) (s : string) : bool :=
  existsb (String.eqb s) l.

(** The extra WHERE condition built for [step_count]. *)
Definition deviceFilter (internalType : string) (r : Row) : bool :=
  if String.eqb internalType "step_count" then
    String.eqb (metric_source r) "health_auto_export"
    || (String.eqb (metric_source r) "health_export_complete"
        && Sql.like_contains (additional_data r) "Watch")
  else true.

(** WHERE metric_type = ? AND metric_date >= ? AND metric_date <= ?
    followed by the device filter. *)
Definition where_clause (internalType startDateStr endDateStr : string) (r : Row) : bool :=
  String.eqb (metric_type r) internalType
  && Sql.between (metric_date r) startDateStr endDateStr
  && deviceFilter internalType r.

(** A row of an aggregating SELECT.  [min_max] is [None] when the
    statement has no MIN/MAX column (every level but daily). *)
Record AggRow : Type := mkAgg {
  row_period : option string;
  total_value : option Q;
  total_value_converted : option Q;
  avg_value : option Q;
  min_max : option (option Q * option Q);
  sample_count : nat;
  row_first_sample : option string;
  row_last_sample : option string;
  row_unit : option string
}.

(** GROUP BY key: the period expression and [metric_unit]. *)
Definition GroupKey : Type := (option string * option string)%type.

Definition opt_eqb (a b : option string) : bool :=
  match a, b with
  | Some x, Some y => String.eqb x y
  | None, None => true
  | _, _ => false
  end.

Definition key_eqb (a b : GroupKey) : bool :=
  opt_eqb (fst a) (fst b) && opt_eqb (snd a) (snd b).

(** The distinct keys, in order of first appearance. *)
Fixpoint distinct (ks : list GroupKey) : list GroupKey :=
  match ks with
  | [] => []
  | k :: r => k :: filter (fun k' => negb (key_eqb k' k)) (distinct r)
  end.

Definition group_by (key : Row -> GroupKey) (rows : list Row) : list (GroupKey * list Row) :=
  map (fun k => (k, filter (fun r => key_eqb (key r) k) rows))
      (distinct (map key rows)).

(** The aggregate columns computed over one group. *)
Definition aggregate_row (with_min_max : bool) (g : GroupKey * list Row) : AggRow :=
  let rows := snd g in
  let values := map metric_value rows in
  mkAgg (fst (fst g))
        (Sql.sum values)
        (Sql.sum (map metric_value_converted rows))
        (Sql.avg values)
        (if with_min_max then Some (Sql.min values, Sql.max values) else None)
        (List.length rows)
        (Sql.min_text (map metric_date rows))
        (Sql.max_text (map metric_date rows))
        (snd (fst g)).

(** SELECT ... GROUP BY period, metric_unit ORDER BY period DESC LIMIT ? *)
Definition select_periods (with_min_max : bool) (period_of : Row -> option string)
    (limit : Z) (rows : list Row) : list AggRow :=
  Sql.limit limit
    (Sql.order_by_desc row_period
       (map (aggregate_row with_min_max)
            (group_by (fun r => (period_of r, metric_unit r)) rows))).

(** SELECT 'total' as period ... GROUP BY metric_unit *)
Definition select_total (rows : list Row) : list AggRow :=
  map (aggregate_row false)
      (group_by (fun r => (Some "total", metric_unit r)) rows).

(** SELECT ... ORDER BY metric_date DESC LIMIT ? *)
Definition select_samples (limit : Z) (rows : list Row) : list Row :=
  Sql.limit limit (Sql.order_by_desc metric_date rows).

(** An element of [data] when the aggregation level is none.
    [additional] holds the text of the parsed metadata; it is absent when
    the column is empty or the text does not parse. *)
Record Sample : Type := mkSample {
  recorded_date : option string;
  sample_value : option Q;
  sample_unit : option string;
  device : string;
  additional : option string
}.

(** avg/min/max of a point-in-time period; [None] is NaN (the rounding
    of a column the statement did not select). *)
Record Stats : Type := mkStats {
  avg : Q;
  min : option Q;
  max : option Q
}.

(** An element of [data] for an aggregated level. *)
Record Period : Type := mkPeriod {
  period : option string;
  value : Q;
  unit : option string;
  samples : nat;
  first_sample : option string;
  last_sample : option string;
  stats : option Stats
}.

Record Summary : Type := mkSummary {
  total : Q;
  average_per_period : Q;
  periods : nat;
  date_range : string * string
}.

Inductive Data : Type :=
| Samples (l : list Sample)
| Periods (l : list Period).

Record Response : Type := mkResponse {
  response_metric_type : string;
  aggregation : string;
  days_requested : option Z;
  records_found : option nat;
  data_of : Data;
  summary : option Summary
}.

(** The transform of a row when the level is none; [JSON_parses] tells
    whether [JSON.parse] accepts a text. *)
Definition sample_of (JSON_parses : string -> bool) (internalType : string) (row : Row)
    : Sample :=
  let value :=
    if is_energy internalType && num_truthy (metric_value_converted row)
    then metric_value_converted row
    else metric_value row in
  mkSample (metric_date row) value
           (if is_energy internalType then Some "kcal" else metric_unit row)
           (metric_source row)
           (match additional_data row with
            | Some text => if str_truthy (Some text) && JSON_parses text
                           then Some text else None
            | None => None
            end).

(** [Math.round(x * 100) / 100] on a selected column that may be NULL. *)
Definition round2_column (x : option Q) : Q := round2 (to_number x).

(** The transform of a row of an aggregating SELECT. *)
Definition period_of_row (internalType : string) (isCumulative : bool) (row : AggRow) : Period :=
  let useConverted := is_energy internalType && num_truthy (total_value_converted row) in
  let value := if useConverted then total_value_converted row
               else if isCumulative then total_value row else avg_value row in
  mkPeriod (row_period row)
           (round2_column value)
           (if is_energy internalType then Some "kcal" else row_unit row)
           (sample_count row)
           (row_first_sample row)
           (row_last_sample row)
           (if isCumulative then None
            else Some (mkStats (round2_column (avg_value row))
                               (option_map (fun mm => round2_column (fst mm)) (min_max row))
                               (option_map (fun mm => round2_column (snd mm)) (min_max row)))).

(** [results.reduce((sum, r) => sum + r.value, 0)]. *)
Definition totalValue (results : list Period) : Q :=
  fold_left (fun sum r => sum + value r) results 0.

Definition summary_of (results : list Period) (startDateStr endDateStr : string) : option Summary :=
  match results with
  | [] => None
  | _ :: _ =>
      Some (mkSummary (round2 (totalValue results))
                      (round2 (totalValue results / inject_Z (Z.of_nat (List.length results))))
                      (List.length results)
                      (startDateStr, endDateStr))
  end.

(** The date range: the explicit bounds when both are given, otherwise
    the last [days] days up to today's date. *)
Definition calculate_date_range (today : string) (days_ago : Z -> string) (days : Z)
    (start_date end_date : option string) : string * string :=
  if str_truthy start_date && str_truthy end_date
  then (str_or start_date EmptyString, str_or end_date EmptyString)
  else (days_ago days, today).

(** The keys of [metricMap], joined. *)
Definition supported_types : string :=
  "steps, heart-rate, active-energy, walking-distance, body-weight, exercise-minutes, flights-climbed, resting-heart-rate, hrv, sleep".

Section Query.

(** SQLite's STRFTIME('%Y-W%W', d). *)
Variable week_key : option string -> option string.

(** [new Date().toISOString().split('T')[0]]. *)
Variable today : string.

(** The same for the date [days] days back, ... *)
Variable days_ago : Z -> string.

(** ... and whether that date is outside the range of [Date], so that
    [toISOString] throws a RangeError. *)
Variable invalid_cutoff : Z -> bool.

(** Whether [JSON.parse] accepts a text. *)
Variable JSON_parses : string -> bool.

(** The stored rows of [health_metrics]. *)
Variable table : list Row.

Definition getAppleHealthMetrics (type : string) (days limit : Z)
    (aggregate start_date end_date : option string) : outcome Response :=
  match metricMap type with
  | None => Thrown ("Unknown metric type: " ++ type ++ ". Supported types: "
                    ++ supported_types)
  | Some internalType =>
      let isCumulative := includes cumulativeMetrics internalType in
      let aggregationLevel := str_or aggregate (if isCumulative then "daily" else "none") in
      if negb (str_truthy start_date && str_truthy end_date) && invalid_cutoff days
      then Thrown "Invalid time value"
      else
      let startDateStr := fst (calculate_date_range today days_ago days start_date end_date) in
      let endDateStr := snd (calculate_date_range today days_ago days start_date end_date) in
      let matching := filter (where_clause internalType startDateStr endDateStr) table in
      let limited (answer : outcome Response) :=
        if Sql.valid_limit limit then answer
        else Thrown "SQLITE_MISMATCH: datatype mismatch" in
      let aggregated (rows : list AggRow) :=
        let results := map (period_of_row internalType isCumulative) rows in
        Returned (mkResponse type aggregationLevel None None (Periods results)
                             (summary_of results startDateStr endDateStr)) in
      if String.eqb aggregationLevel "none" then
        let results := map (sample_of JSON_parses internalType)
                           (select_samples limit matching) in
        limited (Returned (mkResponse type aggregationLevel (Some days)
                                      (Some (List.length results)) (Samples results) None))
      else if String.eqb aggregationLevel "daily" then
        limited (aggregated (select_periods true (fun r => Sql.substr1 10 (metric_date r))
                                            limit matching))
      else if String.eqb aggregationLevel "weekly" then
        limited (aggregated (select_periods false
                               (fun r => week_key (Sql.substr1 10 (metric_date r)))
                               limit matching))
      else if String.eqb aggregationLevel "monthly" then
        limited (aggregated (select_periods false (fun r => Sql.substr1 7 (metric_date r))
                                            limit matching))
      else if String.eqb aggregationLevel "yearly" then
        limited (aggregated (select_periods false (fun r => Sql.substr1 4 (metric_date r))
                                            limit matching))
      else if String.eqb aggregationLevel "total" then
        aggregated (select_total matching)
      else Thrown ("Invalid aggregation level: " ++ aggregationLevel
                   ++ ". Supported: daily, weekly, monthly, yearly, total, none")
  end.

End Query.

End HealthDataService.

(** ** The audit queries: [getAutoExportStats], [getRecentAutoExportData] *)

Module AutoExport.
Import Js HealthDatabase.

(** SUM over an INTEGER column that holds no NULL: NULL when there is no row. *)
Definition sum_column (xs : list nat) : option nat :=
  match xs with
  | [] => None
  | _ :: _ => Some (list_sum xs)
  end.

(** The row [getAutoExportStats] resolves to. *)
Record AutoExportStats : Type := mkAutoExportStats {
  total_imports : nat;
  total_metrics : option nat;
  total_workouts : option nat;
  successful_imports : option nat;
  failed_imports : option nat;
  last_import : option string;
  first_import : option string
}.

(** CASE WHEN status = s THEN 1 ELSE 0 END. *)
Definition case_status (s : string) (r : ImportRecord) : nat :=
  if String.eqb (status r) s then 1 else 0.

Definition getAutoExportStats (db : DB) : AutoExportStats :=
  let tbl := apple_health_auto_export db in
  mkAutoExportStats
    (List.length tbl)
    (sum_column (map metrics_count tbl))
    (sum_column (map workouts_count tbl))
    (sum_column (map (case_status "success") tbl))
    (sum_column (map (case_status "error") tbl))
    (Sql.max_text (map (fun r => Some (import_timestamp r)) tbl))
    (Sql.min_text (map (fun r => Some (import_timestamp r)) tbl)).

(** [getRecentAutoExportData]; [cutoffDateStr] is the ISO timestamp of
    the moment [days] days before the call. *)
Definition getRecentAutoExportData (cutoffDateStr : string) (db : DB) : list ImportRecord :=
  Sql.order_by_desc (fun r => Some (import_timestamp r))
    (filter (fun r => Sql.text_le cutoffDateStr (import_timestamp r))
            (apple_health_auto_export db)).

(** A count read by the caller: NULL shows as no imports. *)
Definition count_of (x : option nat) : nat :=
  match x with
  | Some n => n
  | None => O
  end.

End AutoExport.

(** ** The Sleep Cycle table of [health-database.js] *)

Module SleepCycle.
Import Js HealthDatabase.

(** The record handed to [saveSleepCycleData]: the 24 values it binds, an
    absent property binding NULL. *)
Record SleepRecord : Type := mkSleepRecord {
  sleep_date : option string;
  start_time : option string;
  end_time : option string;
  sleep_quality : option Z;
  regularity : option Z;
  time_in_bed_sec : option Q;
  time_asleep_sec : option Q;
  time_before_sleep_sec : option Q;
  awake_sec : option Q;
  dream_sec : option Q;
  light_sec : option Q;
  deep_sec : option Q;
  snore_time_sec : option Q;
  movements_per_hour : option Q;
  heart_rate_bpm : option Q;
  respiratory_rate : option Q;
  breathing_disruptions : option Q;
  coughs_per_hour : option Q;
  ambient_noise_db : option Q;
  weather_temp_c : option Q;
  weather_type : option string;
  city : option string;
  air_pressure_pa : option Q;
  notes : option string
}.

(** A row of [sleep_cycle_data]: the id, the bound values, [created_at]. *)
Record SleepRow : Type := mkSleepRow {
  sleep_id : nat;
  columns : SleepRecord;
  sleep_created_at : string
}.

(** The table, rows in rowid order, with the largest id ever given out
    (AUTOINCREMENT never hands an id out twice). *)
Record SleepTable : Type := mkSleepTable {
  sleep_rows : list SleepRow;
  sleep_sequence : nat
}.

Definition empty_table : SleepTable := mkSleepTable [] O.

(** What [runQuery] resolves to: [{ id: this.lastID, changes: this.changes }]. *)
Record RunResult : Type := mkRunResult {
  run_id : nat;
  changes : nat
}.

Definition on_date (d : string) (r : SleepRow) : bool :=
  match sleep_date (columns r) with
  | Some x => String.eqb x d
  | None => false
  end.

Definition next_sleep_id (t : SleepTable) : nat :=
  S (Nat.max (sleep_sequence t) (fold_right Nat.max O (map sleep_id (sleep_rows t)))).

(** [saveSleepCycleData]: INSERT OR REPLACE under [sleep_date TEXT NOT NULL
    UNIQUE].  A NULL date violates NOT NULL, for which REPLACE aborts; a
    stored row of the same date is deleted before the new one goes in. *)
Definition saveSleepCycleData (now : string) (record : SleepRecord) (t : SleepTable)
    : SleepTable * outcome RunResult :=
  match sleep_date record with
  | None =>
      (t, Thrown "SQLITE_CONSTRAINT: NOT NULL constraint failed: sleep_cycle_data.sleep_date")
  | Some d =>
      let i := next_sleep_id t in
      (mkSleepTable (filter (fun r => negb (on_date d r)) (sleep_rows t)
                     ++ [mkSleepRow i record now])
                    i,
       Returned (mkRunResult i 1))
  end.

(** [getSleepCycleDataByDate]: the first row of the date, if any. *)
Definition getSleepCycleDataByDate (date : string) (t : SleepTable) : option SleepRow :=
  find (on_date date) (sleep_rows t).

(** [getSleepCycleDataRange]: the rows of the range, newest date first. *)
Definition getSleepCycleDataRange (startDate endDate : string) (t : SleepTable)
    : list SleepRow :=
  Sql.order_by_desc (fun r => sleep_date (columns r))
    (filter (fun r => Sql.between (sleep_date (columns r)) startDate endDate)
            (sleep_rows t)).

(** The table holds at most one row per date, and no row without one. *)
Definition one_row_per_date (t : SleepTable) : Prop :=
  NoDup (map (fun r => sleep_date (columns r)) (sleep_rows t))
  /\ Forall (fun r => sleep_date (columns r) <> None) (sleep_rows t).

End SleepCycle.

(** ** The one-off migration: [scripts/convert-energy-units.js] *)

Module ConvertEnergyUnits.
Import Js HealthDatabase HealthDataService.

Definition KJ_TO_KCAL : Q := 4184 # 1000.

(** How the script ends: the transaction is committed, rolled back, or the
    process dies on an uncaught TypeError with the transaction open (which
    leaves the file as it was). *)
Inductive Ending : Type :=
| Committed (table : list Row)
| RolledBack (message : string)
| Crashed (message : string).

(** UPDATE ... SET metric_value_converted = [c]. *)
Definition set_converted (r : Row) (c : option Q) : Row :=
  mkRow (rowid r) (metric_type r) (metric_source r) (metric_date r) (metric_value r)
        (metric_unit r) (additional_data r) (created_at r) c.

Definition is_null (c : option Q) : bool :=
  match c with
  | Some _ => false
  | None => true
  end.

(** WHERE metric_type = 'active_energy' AND metric_unit = [u]
    AND metric_value_converted IS NULL. *)
Definition to_convert (u : string) (r : Row) : bool :=
  String.eqb (metric_type r) "active_energy"
  && unit_is (metric_unit r) u
  && is_null (metric_value_converted r).

(** Step 1: kcal rows copy the value. *)
Definition convert_kcal (r : Row) : Row :=
  if to_convert "kcal" r then set_converted r (metric_value r) else r.

(** Step 2: kJ rows divide it by 4.184. *)
Definition convert_kJ (r : Row) : Row :=
  if to_convert "kJ" r
  then set_converted r (option_map (fun v => v / KJ_TO_KCAL) (metric_value r))
  else r.

Definition active_energy (r : Row) : bool := String.eqb (metric_type r) "active_energy".

Section Script.

(** SQLite's DATE(). *)
Variable DATE : option string -> option string.

(** The groups of the sample verification: active-energy rows of
    10 October 2025, by unit. *)
Definition oct10 (table : list Row) : list (GroupKey * list Row) :=
  group_by (fun r => (Some "2025-10-10", metric_unit r))
           (filter (fun r => active_energy r
                             && opt_eqb (DATE (metric_date r)) (Some "2025-10-10"))
                   table).

(** [runConversion] on the rows of [health_metrics]. *)
Definition runConversion (table : list Row) : Ending :=
  let converted := map convert_kJ (map convert_kcal table) in
  let verified := filter active_energy converted in
  match Sql.min (map metric_value_converted verified) with
  | None => Crashed "Cannot read properties of null (reading 'toFixed')"
  | Some _ =>
      if existsb (fun r => is_null (metric_value_converted r)) verified
      then RolledBack "Conversion incomplete - some NULL values remain"
      else if existsb (fun g => is_null (Sql.sum (map metric_value (snd g)))
                                || is_null (Sql.sum (map metric_value_converted (snd g))))
                      (oct10 converted)
           then Crashed "Cannot read properties of null (reading 'toFixed')"
           else Committed converted
  end.

(** The table the script leaves in the file. *)
Definition table_after (table : list Row) : list Row :=
  match runConversion table with
  | Committed converted => converted
  | _ => table
  end.

End Script.

End ConvertEnergyUnits.

(** ** The summary path: [getAppleHealthSummary], [getAppleHealthDailyData] *)

Module AppleHealthSummary.
Import Js HealthDatabase.

(** An element of [data_points]. *)
Record PointOut : Type := mkPointOut {
  point_value : option Q;
  point_source : string
}.

(** The object kept per metric type inside a day. *)
Record MetricOut : Type := mkMetricOut {
  metric_out_value : option Q;
  metric_out_unit : option string;
  metric_out_source : string;
  data_points : list PointOut;
  metric_out_additional : option string
}.

(** An entry of [dailyDataMap].  [day_metrics] is the object [metrics]
    read as a finite map: only lookups by key are modelled, not the order
    in which its keys are enumerated. *)
Record DayData : Type := mkDayData {
  summary_date : string;
  day_metrics : list (string * MetricOut)
}.

(** What [getAppleHealthSummary] resolves to; [period_days] stands for the
    text made from [days]. *)
Record SummaryOut : Type := mkSummaryOut {
  period_days : Z;
  start_date_out : string;
  end_date_out : string;
  total_days : nat;
  daily_data : list DayData
}.

(** What [getAppleHealthDailyData] resolves to. *)
Inductive DailyOut : Type :=
| Found (day : DayData)
| NoData (date message : string).

Fixpoint lookup (A : Type) (k : string) (m : list (string * A)) : option A :=
  match m with
  | [] => None
  | (k', v) :: r => if String.eqb k' k then Some v else lookup k r
  end.

(** Assignment to an existing key keeps its place; a new key goes last. *)
Fixpoint assign (A : Type) (k : string) (v : A) (m : list (string * A)) : list (string * A) :=
  match m with
  | [] => [(k, v)]
  | (k', v') :: r => if String.eqb k' k then (k', v) :: r else (k', v') :: assign k v r
  end.

(** ORDER BY on a TEXT column that holds no NULL, ascending, ties in scan
    order. *)
Fixpoint insert_asc (A : Type) (key : A -> string) (x : A) (l : list A) : list A :=
  match l with
  | [] => [x]
  | y :: r => if Sql.text_le (key x) (key y) then x :: y :: r
              else y :: insert_asc key x r
  end.

Definition order_by_asc (A : Type) (key : A -> string) (l : list A) : list A :=
  fold_right (insert_asc key) [] l.

Section Engine.

(** Whether [{}[name]] finds a property inherited from Object.prototype. *)
Variable inherited : string -> bool.

(** Whether [JSON.parse] accepts the text. *)
Variable parses : string -> bool.

(** [b.summary_date.localeCompare(a.summary_date) <= 0], i.e. [a] may stay
    before [b]; the sort is stable. *)
Variable stays_before : string -> string -> bool.

(** The date part of the current instant, and of the instant [days] days
    before it; whether that instant is outside the range of [Date], so
    that [toISOString] throws a RangeError. *)
Variable today : string.
Variable days_ago : Z -> string.
Variable invalid_cutoff : Z -> bool.

(** The rows of the SELECT, each with its (non-NULL) date:
    WHERE metric_date >= ? ORDER BY metric_date DESC, metric_type.
    Rows that tie on both keys stay in stored order here; SQLite may
    return them in another order, and no statement depends on it. *)
Definition selected (cutoffDateStr : string) (table : list Row) : list (string * Row) :=
  Sql.order_by_desc (fun x => Some (fst x))
    (order_by_asc (fun x => metric_type (snd x))
       (flat_map (fun r => match metric_date r with
                           | Some d => if Sql.text_le cutoffDateStr d then [(d, r)] else []
                           | None => []
                           end) table)).

(** The body of the loop over the rows. *)
Definition add_row (x : string * Row) (map : list (string * DayData))
    : outcome (list (string * DayData)) :=
  let date := fst x in
  let row := snd x in
  let map1 := match lookup date map with
              | Some _ => map
              | None => (map ++ [(date, mkDayData date [])])%list
              end in
  let dayData := match lookup date map1 with
                 | Some d => d
                 | None => mkDayData date []
                 end in
  let isEnergyMetric := is_energy (metric_type row) in
  let metricValue := if isEnergyMetric && num_truthy (metric_value_converted row)
                     then metric_value_converted row else metric_value row in
  let metricUnit := if isEnergyMetric then Some "kcal" else metric_unit row in
  if inherited (metric_type row)
  then Thrown "Cannot read properties of undefined (reading 'push')"
  else
    let entry := match lookup (metric_type row) (day_metrics dayData) with
                 | Some e => e
                 | None => mkMetricOut metricValue metricUnit (metric_source row) [] None
                 end in
    let pushed := mkMetricOut (metric_out_value entry) (metric_out_unit entry)
                              (metric_out_source entry)
                              (data_points entry
                               ++ [mkPointOut metricValue (metric_source row)])
                              (match additional_data row with
                               | Some text => if str_truthy (Some text) && parses text
                                              then Some text
                                              else metric_out_additional entry
                               | None => metric_out_additional entry
                               end) in
    Returned (assign date
                (mkDayData date (assign (metric_type row) pushed (day_metrics dayData)))
                map1).

Fixpoint add_rows (rows : list (string * Row)) (map : list (string * DayData))
    : outcome (list (string * DayData)) :=
  match rows with
  | [] => Returned map
  | x :: r => match add_row x map with
              | Returned map' => add_rows r map'
              | Thrown e => Thrown e
              end
  end.

Fixpoint insert_day (d : DayData) (l : list DayData) : list DayData :=
  match l with
  | [] => [d]
  | y :: r => if stays_before (summary_date d) (summary_date y) then d :: y :: r
              else y :: insert_day d r
  end.

(** [Array.from(dailyDataMap.values()).sort(...)]. *)
Definition sort_days (l : list DayData) : list DayData := fold_right insert_day [] l.

Definition getAppleHealthSummary (table : list Row) (days : Z) : outcome SummaryOut :=
  if invalid_cutoff days then Thrown "Invalid time value"
  else
    let cutoffDateStr := days_ago days in
    match add_rows (selected cutoffDateStr table) [] with
    | Returned map =>
        let daily := sort_days (List.map snd map) in
        Returned (mkSummaryOut days cutoffDateStr today (List.length daily) daily)
    | Thrown e => Thrown e
    end.

Definition getAppleHealthDailyData (table : list Row) (date : string) : outcome DailyOut :=
  match getAppleHealthSummary table 30 with
  | Returned summary =>
      match find (fun day => str_truthy (Some (summary_date day))
                             && String.prefix date (summary_date day))
                 (daily_data summary) with
      | Some day => Returned (Found day)
      | None => Returned (NoData date "No data available for this date")
      end
  | Thrown e => Thrown e
  end.

End Engine.

End AppleHealthSummary.

(** ** The webhook: POST /api/apple-health/auto-export in [health-api.js] *)

Module AutoExportRoute.
Import Js HealthDatabase.

(** The JSON sent back: the processed counts or an error text, both with
    their [success] flag implied. *)
Inductive ReplyBody : Type :=
| Processed (importId metricsStored workoutsStored : nat) (timestamp : string)
| Failed (error : string).

Record Reply : Type := mkReply {
  status_code : Z;
  reply_body : ReplyBody
}.

Section Handler.

Variable uniq : list Unique.
Variable JSON_stringify : json -> string.
Variable now : string.

(** The handler; [body] is [None] when the request body is missing or has
    no truthy [data]. *)
Definition auto_export (body : option Payload) (db : DB) : DB * Reply :=
  match body with
  | None =>
      (db, mkReply 400 (Failed "Invalid payload structure. Expected { data: { metrics: [], workouts: [] } }"))
  | Some payload =>
      match saveAutoExportData uniq JSON_stringify now payload db with
      | (db', Returned result) =>
          (db', mkReply 200 (Processed (importId result) (metricsStored result)
                                       (workoutsStored result) (timestamp result)))
      | (db', Thrown message) => (db', mkReply 500 (Failed message))
      end
  end.

End Handler.

End AutoExportRoute.

(** ** Concrete parameters for running the model *)

Module Run.
Import Js HealthDatabase HealthDataService.

Definition quote_char : ascii := ascii_of_nat 34.
Definition backslash : ascii := ascii_of_nat 92.

Fixpoint escape (s : string) : string :=
  match s with
  | EmptyString => EmptyString
  | String c r =>
      if Ascii.eqb c quote_char || Ascii.eqb c backslash
      then String backslash (String c (escape r))
      else String c (escape r)
  end.

Definition quoted (s : string) : string :=
  String quote_char (escape s ++ String quote_char EmptyString).

Definition digit (z : Z) : ascii := ascii_of_nat (48 + Z.to_nat z).

Fixpoint digits (fuel : nat) (z : Z) (acc : string) : string :=
  match fuel with
  | O => acc
  | S f => let acc' := String (digit (z mod 10)) acc in
           if (z / 10 =? 0)%Z then acc' else digits f (z / 10) acc'
  end.

Fixpoint fraction (fuel : nat) (r d : Z) : string :=
  match fuel with
  | O => EmptyString
  | S f => if (r =? 0)%Z then EmptyString
           else String (digit (r * 10 / d)) (fraction f (r * 10 mod d) d)
  end.

(** A number as decimal text, cut after 17 fractional digits. *)
Definition number_text (q : Q) : string :=
  let n := Z.abs (Qnum q) in
  let d := Zpos (Qden q) in
  (if (Qnum q <? 0)%Z then "-" else EmptyString)
  ++ digits 400 (n / d) EmptyString
  ++ (if (n mod d =? 0)%Z then EmptyString else "." ++ fraction 17 (n mod d) d).

(** A serialiser for the metadata object, standing for [JSON.stringify]. *)
Fixpoint json_text (j : json) : string :=
  match j with
  | JNull => "null"
  | JNum q => number_text q
  | JStr s => quoted s
  | JObj fields =>
      "{" ++ (fix members (fs : list (string * json)) : string :=
                match fs with
                | [] => EmptyString
                | (k, v) :: r =>
                    quoted k ++ ":" ++ json_text v
                    ++ match r with
                       | [] => EmptyString
                       | _ :: _ => "," ++ members r
                       end
                end) fields ++ "}"
  end.

(** The daily and total levels never evaluate the week key. *)
Definition no_week_key : option string -> option string := fun _ => None.

(** Ingestion into a store created by [createTables]. *)
Definition ingest (now : string) (payload : Payload) : M Result :=
  saveAutoExportData createTables_unique json_text now payload.

(** A query with an explicit date range. *)
Definition query (table : list Row) (type : string) (limit : Z)
    (aggregate : string) (start_date end_date : string) : outcome Response :=
  getAppleHealthMetrics no_week_key EmptyString (fun _ => EmptyString) (fun _ => false)
    (fun _ => true) table
    type 30 limit (Some aggregate) (Some start_date) (Some end_date).

(** A data point of a regular metric. *)
Definition point (date : option string) (qty : Q) (source : string) : option DataPoint :=
  Some (mkPoint date (Some qty) (Some source) None None None None
                None None None None None None None None None).

Definition periods_of (r : outcome Response) : list Period :=
  match r with
  | Returned resp => match data_of resp with
                     | Periods l => l
                     | Samples _ => []
                     end
  | Thrown _ => []
  end.

Definition samples_of (r : outcome Response) : list Sample :=
  match r with
  | Returned resp => match data_of resp with
                     | Samples l => l
                     | Periods _ => []
                     end
  | Thrown _ => []
  end.

Definition summary_total (r : outcome Response) : option Q :=
  match r with
  | Returned resp => option_map total (summary resp)
  | Thrown _ => None
  end.

End Run.

(** * Properties *)

Import Js HealthDatabase HealthDataService.

(** ** Notions used in the statements *)

(** The rows the step-count filter lets through. *)
Definition realtime_or_watch (r : Row) : bool :=
  String.eqb (metric_source r) "health_auto_export"
  || (String.eqb (metric_source r) "health_export_complete"
      && Sql.like_contains (additional_data r) "Watch").

(** What identifies a stored sample for the caller: kind and timestamp
    (the source column is the same constant on every written row). *)
Definition stamp (r : Row) : string * option string := (metric_type r, metric_date r).

(** The stamps of the data points of a metric, nulls left out. *)
Definition point_stamps (m : Metric) : list (string * option string) :=
  match data m with
  | Some points => flat_map (fun p => match p with
                                      | Some p => [(name m, date p)]
                                      | None => []
                                      end) points
  | None => []
  end.

Definition metric_stamps (ms : option (list (option Metric))) : list (string * option string) :=
  match ms with
  | Some l => flat_map (fun m => match m with
                                 | Some m => point_stamps m
                                 | None => []
                                 end) l
  | None => []
  end.

Definition workout_stamps (ws : option (list (option Workout))) : list (string * option string) :=
  match ws with
  | Some l => flat_map (fun w => match w with
                                 | Some w => [("workout_" ++ workout_name w, start w)]
                                 | None => []
                                 end) l
  | None => []
  end.

Definition no_null (A : Type) (l : list (option A)) : Prop := Forall (fun x => x <> None) l.

(** A payload none of whose arrays holds a null. *)
Definition no_nulls (payload : Payload) : Prop :=
  match metrics payload with
  | Some ms => no_null ms
               /\ Forall (fun m => match m with
                                   | Some m => match data m with
                                               | Some points => no_null points
                                               | None => True
                                               end
                                   | None => True
                                   end) ms
  | None => True
  end
  /\ match workouts payload with
     | Some ws => no_null ws
     | None => True
     end.

(** The two other tables as a pair. *)
Definition audit (db : DB) : list ImportRecord * list SyncLog :=
  (apple_health_auto_export db, health_sync_log db).

(** The sum of a list of numbers. *)
Definition qsum (l : list Q) : Q := fold_right Qplus 0 l.





(** Payloads and stores of the examples. *)
Module Scenario.
Import Run.

(** One step-count metric carrying the given data points. *)
Definition steps (points : list (option DataPoint)) : Payload :=
  mkPayload (Some [Some (mkMetric "step_count" (Some "count") (Some points))]) None.

(** The duplicate of the incident analysis: two samples of one source at
    one timestamp, 0.2 and 12.1 steps. *)
Definition clash : Payload :=
  steps [point (Some "2025-10-11 08:14:51 +0100") (2 # 10) "Apple Watch";
         point (Some "2025-10-11 08:14:51 +0100") (121 # 10) "Apple Watch"].

(** A batch of one sample. *)
Definition single : Payload :=
  steps [point (Some "2025-10-11 08:15:00 +0100") 12 "Apple Watch"].

(** Rows of the table on the tuple (step_count, health_auto_export, [t]). *)
Definition rows_at (t : string) (db : DB) : list Row :=
  filter (same_tuple (mkRow 0 "step_count" "health_auto_export" (Some t)
                            None None None EmptyString None))
         (health_metrics db).

(** Ingestion into a file that carries the documented constraint. *)
Definition ingest_documented (now : string) (payload : Payload) : M Result :=
  saveAutoExportData documented_unique json_text now payload.

Definition stored_count (r : outcome Result) : option nat :=
  match r with
  | Returned x => Some (metricsStored x)
  | Thrown _ => None
  end.

End Scenario.

(** The batch of the end-to-end scenario: 100 kJ and 50 kcal of active
    energy from one source.  The unit is a property of the metric, so the
    two samples come as two metrics of the same name. *)
Definition energy_pair (source t1 t2 : string) : Payload :=
  mkPayload
    (Some [Some (mkMetric "active_energy" (Some "kJ") (Some [Run.point (Some t1) 100 source]));
           Some (mkMetric "active_energy" (Some "kcal") (Some [Run.point (Some t2) 50 source]))])
    None.

(** The date range of a request can be computed: both bounds are given,
    or the date [days] days back exists. *)
Definition range_exists (invalid_cutoff : Z -> bool) (days : Z)
    (start_date end_date : option string) : Prop :=
  str_truthy start_date && str_truthy end_date = true \/ invalid_cutoff days = false.


(** ASCII case folding of a text. *)
Fixpoint fold_case (s : string) : string :=
  match s with
  | EmptyString => EmptyString
  | String c s' => String (Sql.upper c) (fold_case s')
  end.

(** The metadata of a row mentions a Watch: its text holds the letters of
    "watch" in a row, in upper or lower case. *)
Definition mentions_watch (text : option string) : Prop :=
  exists s before after, text = Some s /\ fold_case s = before ++ "WATCH" ++ after.

(** The sources a step-count query reads: the real-time export, and the
    complete export of a Watch. *)
Definition from_realtime_or_watch (r : Row) : Prop :=
  metric_source r = "health_auto_export"
  \/ (metric_source r = "health_export_complete" /\ mentions_watch (additional_data r)).

(** ** Further notions *)

(** The ten metric names of the API and the six aggregation levels. *)
Definition api_names : list string :=
  ["steps"; "heart-rate"; "active-energy"; "walking-distance"; "body-weight";
   "exercise-minutes"; "flights-climbed"; "resting-heart-rate"; "hrv"; "sleep"].

Definition levels : list string :=
  ["none"; "daily"; "weekly"; "monthly"; "yearly"; "total"].

(** The API names whose internal kind is cumulative. *)
Definition cumulative_api_names : list string :=
  ["steps"; "active-energy"; "walking-distance"; "exercise-minutes"; "flights-climbed"].

(** The relation "not older than" on keyed rows. *)
Definition not_older (A : Type) (key : A -> option string) (a b : A) : Prop :=
  Sql.key_ge (key a) (key b) = true.

(** The import record a call writes on entry, and the one its catch block
    writes. *)
Definition entry_record (now : string) (payload : Payload) (db : DB) : ImportRecord :=
  mkImport (next_import_id (apple_health_auto_export db)) now "health_auto_export"
           (length_or_zero (metrics payload)) (length_or_zero (workouts payload))
           payload "success" None now.

Definition error_record (now : string) (payload : Payload) (db : DB) (message : string)
    : ImportRecord :=
  mkImport (next_import_id (apple_health_auto_export db ++ [entry_record now payload db]))
           now "health_auto_export" O O payload "error" (Some message) now.

Import AutoExport SleepCycle ConvertEnergyUnits AppleHealthSummary AutoExportRoute.

(** The names every object literal inherits from [Object.prototype]:
    looked up in [{}] or in [metricMap] they find a value. *)
Definition prototype_names (name : string) : bool :=
  existsb (String.eqb name)
    ["constructor"; "toString"; "toLocaleString"; "valueOf"; "hasOwnProperty";
     "isPrototypeOf"; "propertyIsEnumerable"; "__proto__"; "__defineGetter__";
     "__defineSetter__"; "__lookupGetter__"; "__lookupSetter__"].

(** The row's timestamp is exactly [d]. *)
Definition on_timestamp (d : string) (r : Row) : bool :=
  match metric_date r with
  | Some d' => String.eqb d' d
  | None => false
  end.

(** The row is selected by [metric_date >= cutoffDateStr]. *)
Definition in_period (cutoffDateStr : string) (r : Row) : bool :=
  match metric_date r with
  | Some d => Sql.text_le cutoffDateStr d
  | None => false
  end.

(** The value and the unit the summary shows for a row. *)
Definition shown_value (r : Row) : option Q :=
  if is_energy (metric_type r) && num_truthy (metric_value_converted r)
  then metric_value_converted r else metric_value r.

Definition shown_unit (r : Row) : option string :=
  if is_energy (metric_type r) then Some "kcal" else metric_unit r.

Definition point_of (r : Row) : PointOut := mkPointOut (shown_value r) (metric_source r).

(** What a day's entry for one metric type is, given the rows of that type
    and timestamp in the order in which the SELECT returned them: absent
    when there is none, else the value, unit and source of the first with a
    data point for each. *)
Definition built_from (entry : option MetricOut) (rows : list Row) : Prop :=
  match rows with
  | [] => entry = None
  | first :: _ =>
      exists e, entry = Some e
        /\ metric_out_value e = shown_value first
        /\ metric_out_unit e = shown_unit first
        /\ metric_out_source e = metric_source first
        /\ data_points e = List.map point_of rows
  end.

(** The selected rows of one timestamp and type. *)
Definition rows_of (d t : string) (P : list (string * Row)) : list Row :=
  List.map snd (filter (fun x => String.eqb (fst x) d && String.eqb (metric_type (snd x)) t) P).

(** The state of the summary loop after the rows [P]. *)
Definition grouped (P : list (string * Row)) (map : list (string * DayData)) : Prop :=
  NoDup (List.map fst map)
  /\ Forall (fun e => summary_date (snd e) = fst e) map
  /\ (forall d, In d (List.map fst map) <-> In d (List.map fst P))
  /\ (forall d day, lookup d map = Some day ->
        forall t, built_from (lookup t (day_metrics day)) (rows_of d t P)).

(** The row as [saveHealthMetric] would have written it, had it computed
    the converted value the row lacks. *)
Definition as_written (r : Row) : Row :=
  if active_energy r && is_null (metric_value_converted r)
  then set_converted r (convertedValue (metric_type r) (metric_value r) (metric_unit r))
  else r.

(** An array element that is not null. *)
Definition present (A : Type) (x : option A) : bool :=
  match x with
  | Some _ => true
  | None => false
  end.

(** A metric the loop gets through: not null, and no null in its [data]
    when that is an array. *)
Definition complete_metric (m : option Metric) : bool :=
  match m with
  | Some m => match data m with
              | Some points => forallb (@present DataPoint) points
              | None => true
              end
  | None => false
  end.

(** A payload without a null element in the arrays the writer walks. *)
Definition complete (payload : Payload) : bool :=
  match metrics payload with
  | Some ms => forallb complete_metric ms
  | None => true
  end
  && match workouts payload with
     | Some ws => forallb (@present Workout) ws
     | None => true
     end.

(** The message of the TypeError raised on a null element. *)
Definition null_read (prop : string) : string :=
  "Cannot read properties of null (reading '" ++ prop ++ "')".

(** Inputs of the examples. *)
Module Inputs.

(** Two heart-rate readings five minutes apart. *)
Definition two_readings : list Row :=
  [mkRow 1 "heart_rate" "health_auto_export" (Some "2025-10-14 08:00:00 +0100")
         (Some 61) (Some "count/min") None "t" (Some 61);
   mkRow 2 "heart_rate" "health_auto_export" (Some "2025-10-14 08:05:00 +0100")
         (Some 75) (Some "count/min") None "t" (Some 75)].

(** Two heart-rate readings with one timestamp. *)
Definition same_minute : list Row :=
  [mkRow 1 "heart_rate" "health_auto_export" (Some "2025-10-14 08:00:00 +0100")
         (Some 61) (Some "count/min") None "t" (Some 61);
   mkRow 2 "heart_rate" "health_auto_export" (Some "2025-10-14 08:00:00 +0100")
         (Some 75) (Some "count/min") None "t" (Some 75)].

(** A step sample and a heart-rate reading. *)
Definition two_kinds : list Row :=
  [mkRow 1 "step_count" "health_auto_export" (Some "2025-10-14 08:00:00 +0100")
         (Some 120) (Some "count") None "t" (Some 120);
   mkRow 2 "heart_rate" "health_auto_export" (Some "2025-10-14 08:05:00 +0100")
         (Some 75) (Some "count/min") None "t" (Some 75)].

(** Active energy written before the converted column existed: 50 kcal
    and 418.4 kJ. *)
Definition unconverted_energy : list Row :=
  [mkRow 1 "active_energy" "health_auto_export" (Some "2025-10-10 08:00:00 +0100")
         (Some 50) (Some "kcal") None "t" None;
   mkRow 2 "active_energy" "health_auto_export" (Some "2025-10-10 08:01:00 +0100")
         (Some (4184 # 10)) (Some "kJ") None "t" None].

(** Active energy in a unit the migration does not know. *)
Definition foreign_unit : list Row :=
  [mkRow 1 "active_energy" "health_auto_export" (Some "2025-10-10 08:00:00 +0100")
         (Some 50) (Some "Cal") None "t" None].

(** A night of which only the date and the quality are known. *)
Definition night (date : string) (quality : Z) : SleepRecord :=
  mkSleepRecord (Some date) None None (Some quality) None None None None None None None None
                None None None None None None None None None None None None.

(** Step counts of one morning from three sources: the complete export
    of a phone, the real-time export, and the complete export of a Watch. *)
Definition step_sources : list Row :=
  [mkRow 1 "step_count" "health_export_complete" (Some "2025-10-14 08:00:00 +0100")
         (Some 40) (Some "count") (Some "{source: iPhone 14}") "t" (Some 40);
   mkRow 2 "step_count" "health_auto_export" (Some "2025-10-14 08:00:00 +0100")
         (Some 12) (Some "count") None "t" (Some 12);
   mkRow 3 "step_count" "health_export_complete" (Some "2025-10-14 08:01:00 +0100")
         (Some 50) (Some "count") (Some "{source: iPhone 14}") "t" (Some 50);
   mkRow 4 "step_count" "health_auto_export" (Some "2025-10-14 08:01:00 +0100")
         (Some 30) (Some "count") None "t" (Some 30);
   mkRow 5 "step_count" "health_export_complete" (Some "2025-10-14 08:02:00 +0100")
         (Some 20) (Some "count") (Some "{source: Apple Watch}") "t" (Some 20)].

(** SQLite's DATE() on timestamps that start with the date. *)
Definition date_part (d : option string) : option string := Sql.substr1 10 d.

(** [JSON.parse] accepting every text. *)
Definition any_text (text : string) : bool := true.

(** The order of [localeCompare] on timestamps of one format. *)
Definition newer_first (a b : string) : bool := Sql.text_le b a.

End Inputs.

(** ** Shared facts *)

Lemma text_le_refl (s : string) : Sql.text_le s s = true.
Proof.
  unfold Sql.text_le, String.leb.
  assert (H : String.compare s s = Eq).
  { induction s as [|c s IH]; simpl; [reflexivity|].
    unfold Ascii.compare. rewrite N.compare_refl. exact IH. }
  now rewrite H.
Qed.

(** A proper extension of a text sorts after it. *)
Lemma extension_sorts_after (d s : string) :
  s <> EmptyString -> Sql.text_le (d ++ s) d = false.
Proof.
  intros Hs. unfold Sql.text_le, String.leb.
  assert (H : String.compare (d ++ s) d = Gt).
  { induction d as [|c d IH]; simpl.
    - destruct s; [congruence | reflexivity].
    - unfold Ascii.compare. rewrite N.compare_refl. exact IH. }
  now rewrite H.
Qed.

Lemma filter_agree (A : Type) (p q : A -> bool) (l : list A) :
  (forall x, In x l -> p x = q x) -> filter p l = filter q l.
Proof.
  induction l as [|x l IH]; intros H; simpl; [reflexivity|].
  rewrite (H x (or_introl eq_refl)), IH; [reflexivity|].
  intros y Hy. apply H. now right.
Qed.

Lemma filter_twice (A : Type) (p q : A -> bool) (l : list A) :
  (forall x, p x = true -> q x = true) -> filter p (filter q l) = filter p l.
Proof.
  intros H. induction l as [|x l IH]; simpl; [reflexivity|].
  destruct (q x) eqn:Hq; simpl.
  - now rewrite IH.
  - destruct (p x) eqn:Hp; [|exact IH].
    apply H in Hp. congruence.
Qed.

(** The response reads the table only through the WHERE clause. *)
Lemma response_of_matching
    (week_key : option string -> option string) (today : string) (days_ago : Z -> string)
    (invalid_cutoff : Z -> bool) (JSON_parses : string -> bool)
    (table table' : list Row) (type : string) (days limit : Z)
    (aggregate start_date end_date : option string) :
  (forall internalType,
      metricMap type = Some internalType ->
      let range := calculate_date_range today days_ago days start_date end_date in
      filter (where_clause internalType (fst range) (snd range)) table
      = filter (where_clause internalType (fst range) (snd range)) table') ->
  getAppleHealthMetrics week_key today days_ago invalid_cutoff JSON_parses table type days limit
                        aggregate start_date end_date
  = getAppleHealthMetrics week_key today days_ago invalid_cutoff JSON_parses table' type days limit
                          aggregate start_date end_date.
Proof.
  intros H. unfold getAppleHealthMetrics.
  destruct (metricMap type) as [internalType|]; [|reflexivity].
  specialize (H internalType eq_refl). cbv zeta in *.
  now rewrite H.
Qed.

(** ** Unit normalisation on write *)

(** C4.  The row [saveHealthMetric] writes keeps the raw value and the unit
    as they were given; its converted value is the raw value divided by
    4.184 for an energy kind in kJ, the raw value itself for an energy kind
    in kcal, and the raw value for every other kind.  The table after the
    call is the old one, with that row appended unless the insert was
    ignored. *)
Theorem converted_value_on_write
    (uniq : list Unique) (JSON_stringify : json -> string) (now : string) (db : DB)
    (type source : string) (date : option string) (value : Q) (unit : option string)
    (additionalData : option json) :
  let row := metric_row JSON_stringify now (health_metrics db)
                        type source date (Some value) unit additionalData in
  let after := health_metrics (fst (saveHealthMetric uniq JSON_stringify now type source date
                                                     (Some value) unit additionalData db)) in
  (after = health_metrics db \/ after = (health_metrics db ++ [row])%list)
  /\ metric_value row = Some value
  /\ metric_unit row = unit
  /\ (type = "active_energy" \/ type = "basal_energy_burned" ->
      (unit = Some "kJ" -> metric_value_converted row = Some (value / (4184 # 1000)))
      /\ (unit = Some "kcal" -> metric_value_converted row = Some value))
  /\ (type <> "active_energy" -> type <> "basal_energy_burned" ->
      metric_value_converted row = Some value).
Proof.
  cbv zeta. split; [|split; [reflexivity|split; [reflexivity|split]]].
  - unfold saveHealthMetric, update, insert_or_ignore. simpl.
    destruct (collides uniq (health_metrics db) _); [left | right]; reflexivity.
  - intros Henergy.
    assert (He : is_energy type = true) by (destruct Henergy; subst; reflexivity).
    unfold metric_row, convertedValue. simpl. rewrite He.
    split; intros ->; reflexivity.
  - intros H1 H2. unfold metric_row, convertedValue, is_energy. simpl.
    apply String.eqb_neq in H1, H2. now rewrite H1, H2.
Qed.

(** C4 at the sample of the specification: 4.184 kJ of active energy is
    stored as 4.184 kJ raw and 1 kcal converted. *)
Lemma converted_value_on_write_witness :
  let row := metric_row Run.json_text "t" [] "active_energy" "health_auto_export"
                        (Some "2025-10-14 08:00:00 +0100") (Some (4184 # 1000))
                        (Some "kJ") None in
  metric_value row = Some (4184 # 1000)
  /\ metric_unit row = Some "kJ"
  /\ (exists c, metric_value_converted row = Some c /\ c == 1).
Proof.
  destruct (converted_value_on_write [] Run.json_text "t" empty_db "active_energy"
              "health_auto_export" (Some "2025-10-14 08:00:00 +0100") (4184 # 1000)
              (Some "kJ") None) as (_ & Hv & Hu & He & _).
  split; [exact Hv|split; [exact Hu|]].
  destruct (He (or_introl eq_refl)) as [HkJ _].
  eexists. split; [exact (HkJ eq_refl)|]. reflexivity.
Defined.

(** ** Unit resolution on read *)

Lemma falsy_converted (c : option Q) :
  c = None \/ (exists q, c = Some q /\ q == 0) -> num_truthy c = false.
Proof.
  intros [-> | (q & -> & Hq)]; [reflexivity|].
  simpl. apply Qeq_bool_iff in Hq. now rewrite Hq.
Qed.

(** C9.  For an energy kind the query path falls back to the raw column
    when the converted one is falsy.  A group whose summed converted value
    is NULL or 0 reports the (rounded) sum of the raw values, a sample whose
    converted value is NULL or 0 reports its raw value, and both are
    labelled kcal. *)
Theorem energy_falls_back_to_raw
    (JSON_parses : string -> bool)
    (internalType : string) (with_min_max : bool) (group : GroupKey * list Row) (row : Row) :
  internalType = "active_energy" \/ internalType = "basal_energy_burned" ->
  (let converted := Sql.sum (map metric_value_converted (snd group)) in
   converted = None \/ (exists q, converted = Some q /\ q == 0)) ->
  (metric_value_converted row = None
   \/ (exists q, metric_value_converted row = Some q /\ q == 0)) ->
  let reported := period_of_row internalType (includes cumulativeMetrics internalType)
                                (aggregate_row with_min_max group) in
  value reported = round2 (to_number (Sql.sum (map metric_value (snd group))))
  /\ unit reported = Some "kcal"
  /\ sample_value (sample_of JSON_parses internalType row) = metric_value row
  /\ sample_unit (sample_of JSON_parses internalType row) = Some "kcal".
Proof.
  intros Hkind Hgroup Hrow. cbv zeta in *.
  apply falsy_converted in Hgroup. apply falsy_converted in Hrow.
  assert (He : is_energy internalType = true) by (destruct Hkind; subst; reflexivity).
  assert (Hc : includes cumulativeMetrics internalType = true)
    by (destruct Hkind; subst; reflexivity).
  unfold period_of_row, sample_of. rewrite He, Hc, Hrow.
  unfold aggregate_row. cbn [total_value_converted total_value value unit
                             sample_value sample_unit andb].
  rewrite Hgroup. repeat split.
Qed.

(** C9 on two kJ rows left unconverted by an older import (one NULL, one
    zero): the group reports 300, their raw sum, as kcal. *)
Lemma energy_falls_back_to_raw_witness :
  let r1 := mkRow 1 "active_energy" "health_auto_export" (Some "2025-10-14 08:00:00 +0100")
                  (Some 100) (Some "kJ") None "t" None in
  let r2 := mkRow 2 "active_energy" "health_auto_export" (Some "2025-10-14 08:01:00 +0100")
                  (Some 200) (Some "kJ") None "t" (Some 0) in
  let reported := period_of_row "active_energy" true
                    (aggregate_row true ((Some "2025-10-14", Some "kJ"), [r1; r2])) in
  value reported == 300
  /\ unit reported = Some "kcal"
  /\ sample_value (sample_of (fun _ => true) "active_energy" r1) = Some 100
  /\ sample_unit (sample_of (fun _ => true) "active_energy" r1) = Some "kcal".
Proof.
  cbv zeta.
  pose proof (energy_falls_back_to_raw (fun _ => true) (internalType := "active_energy") true
    ((Some "2025-10-14", Some "kJ"),
     [mkRow 1 "active_energy" "health_auto_export" (Some "2025-10-14 08:00:00 +0100")
            (Some 100) (Some "kJ") None "t" None;
      mkRow 2 "active_energy" "health_auto_export" (Some "2025-10-14 08:01:00 +0100")
            (Some 200) (Some "kJ") None "t" (Some 0)])
    (mkRow 1 "active_energy" "health_auto_export" (Some "2025-10-14 08:00:00 +0100")
           (Some 100) (Some "kJ") None "t" None)
    (or_introl eq_refl)
    (or_intror (ex_intro _ 0 (conj eq_refl (Qeq_refl 0))))
    (or_introl eq_refl)) as (Hv & Hu & Hs & Hsu).
  split; [|split; [exact Hu|split; [exact Hs|exact Hsu]]].
  change (includes cumulativeMetrics "active_energy") with true in Hv.
  rewrite Hv. vm_compute. reflexivity.
Defined.

(** ** The end bound of a days-only query *)

(** C10.  With no explicit start and end date the end bound is today's
    date alone.  A stored timestamp that continues that date with a time of
    day sorts after the bound, so the row is outside the WHERE clause:
    the response, at every aggregation level, is the one computed without
    that row. *)
Theorem todays_timed_samples_are_excluded
    (week_key : option string -> option string) (today : string) (days_ago : Z -> string)
    (invalid_cutoff : Z -> bool) (JSON_parses : string -> bool)
    (before after : list Row) (row : Row) (time_of_day : string)
    (type : string) (days limit : Z) (aggregate : option string) :
  metric_date row = Some (today ++ time_of_day) ->
  time_of_day <> EmptyString ->
  Sql.text_le (today ++ time_of_day) today = false
  /\ getAppleHealthMetrics week_key today days_ago invalid_cutoff JSON_parses
      (before ++ row :: after)
                           type days limit aggregate None None
     = getAppleHealthMetrics week_key today days_ago invalid_cutoff JSON_parses (before ++ after)
                             type days limit aggregate None None.
Proof.
  intros Hdate Htime.
  pose proof (extension_sorts_after today Htime) as Hafter.
  split; [exact Hafter|].
  apply response_of_matching. intros internalType _. cbv zeta.
  change (calculate_date_range today days_ago days None None) with (days_ago days, today).
  rewrite !filter_app. simpl.
  assert (Hout : where_clause internalType (days_ago days) today row = false).
  { unfold where_clause, Sql.between. rewrite Hdate, Hafter.
    now rewrite andb_false_r, andb_false_r. }
  now rewrite Hout.
Qed.

(** C10 on a step sample written this morning: neither the raw listing nor
    the daily rollup of a seven-day query sees it. *)
Lemma todays_timed_samples_are_excluded_witness :
  let row := mkRow 1 "step_count" "health_auto_export" (Some "2025-10-14 08:00:00 +0100")
                   (Some 120) (Some "count") None "t" (Some 120) in
  let ask aggregate :=
    getAppleHealthMetrics Run.no_week_key "2025-10-14" (fun _ => "2025-10-07")
                          (fun _ => false) (fun _ => true) [row]
                          "steps" 7 100 (Some aggregate) None None in
  Sql.text_le "2025-10-14 08:00:00 +0100" "2025-10-14" = false
  /\ Run.samples_of (ask "none") = []
  /\ Run.periods_of (ask "daily") = [].
Proof.
  cbv zeta.
  pose (row := mkRow 1 "step_count" "health_auto_export" (Some "2025-10-14 08:00:00 +0100")
                     (Some 120) (Some "count") None "t" (Some 120)).
  assert (H : forall aggregate,
             getAppleHealthMetrics Run.no_week_key "2025-10-14" (fun _ => "2025-10-07")
                                   (fun _ => false) (fun _ => true)
                                   [row] "steps" 7 100 aggregate None None
             = getAppleHealthMetrics Run.no_week_key "2025-10-14" (fun _ => "2025-10-07")
                                     (fun _ => false) (fun _ => true)
                                     [] "steps" 7 100 aggregate None None).
  { intros aggregate.
    change [row] with ([] ++ row :: [])%list.
    change (@nil Row) with (@nil Row ++ [])%list at 3.
    apply (todays_timed_samples_are_excluded Run.no_week_key "2025-10-14"
             (fun _ => "2025-10-07")
             (fun _ => false) (fun _ => true) [] [] row (time_of_day := " 08:00:00 +0100")
             "steps" 7 100 aggregate eq_refl).
    discriminate. }
  subst row.
  split; [reflexivity|].
  split; [rewrite (H (Some "none")) | rewrite (H (Some "daily"))]; reflexivity.
Defined.

(** ** The writer's loops *)

Section WriterFacts.

Variable uniq : list Unique.
Variable JSON_stringify : json -> string.
Variable now : string.

Lemma saveHealthMetric_effect (type source : string) (date : option string)
    (value : option Q) (unit : option string) (additionalData : option json) (db : DB) :
  let db' := fst (saveHealthMetric uniq JSON_stringify now type source date value
                                   unit additionalData db) in
  snd (saveHealthMetric uniq JSON_stringify now type source date value
                        unit additionalData db) = Returned tt
  /\ audit db' = audit db
  /\ (uniq = [] ->
      map stamp (health_metrics db') = (map stamp (health_metrics db) ++ [(type, date)])%list).
Proof.
  cbv zeta. unfold saveHealthMetric, update. simpl.
  split; [reflexivity|split; [reflexivity|]].
  intros ->. unfold insert_or_ignore. simpl. now rewrite map_app.
Qed.

(** One pass of the data-point loop on a non-null element is one
    [saveHealthMetric] for the point's date, then the increment. *)
Lemma save_point_some (m : Metric) (p : DataPoint) (stored : nat) (db : DB) :
  exists value additionalData,
    save_point uniq JSON_stringify now m (Some p) stored db
    = (fst (saveHealthMetric uniq JSON_stringify now (name m) "health_auto_export"
                             (date p) value (units m) additionalData db),
       Returned (S stored)).
Proof.
  unfold save_point, bind, deref, ret.
  destruct (String.eqb (name m) "sleep_analysis");
    [|destruct (String.eqb (name m) "heart_rate")];
    do 2 eexists; reflexivity.
Qed.

Lemma for_of_step (A : Type) (body : A -> nat -> M nat) (x : A) (xs : list A)
    (n n1 : nat) (db db1 : DB) :
  body x n db = (db1, Returned n1) ->
  for_of (x :: xs) body n db = for_of xs body n1 db1.
Proof.
  intros H. simpl. unfold bind. now rewrite H.
Qed.

Lemma save_point_audit (m : Metric) (x : option DataPoint) (stored : nat) (db : DB) :
  audit (fst (save_point uniq JSON_stringify now m x stored db)) = audit db.
Proof.
  destruct x as [p|]; [|reflexivity].
  destruct (save_point_some m p stored db) as (v & a & ->). reflexivity.
Qed.

(** A loop whose body leaves the audit tables alone leaves them alone,
    whether it completes or throws. *)
Lemma for_of_audit (A : Type) (body : A -> nat -> M nat) (xs : list A) :
  (forall x n db, audit (fst (body x n db)) = audit db) ->
  forall n db, audit (fst (for_of xs body n db)) = audit db.
Proof.
  intros Hbody. induction xs as [|x xs IH]; intros n db; [reflexivity|].
  simpl. unfold bind. specialize (Hbody x n db).
  destruct (body x n db) as [db1 [n1|e]]; simpl in *.
  - now rewrite IH.
  - exact Hbody.
Qed.

Lemma save_metric_audit (x : option Metric) (stored : nat) (db : DB) :
  audit (fst (save_metric uniq JSON_stringify now x stored db)) = audit db.
Proof.
  destruct x as [m|]; [|reflexivity].
  unfold save_metric, bind, deref, ret.
  destruct (data m) as [points|]; [|reflexivity].
  apply for_of_audit. intros. apply save_point_audit.
Qed.

Lemma save_workout_audit (x : option Workout) (stored : nat) (db : DB) :
  audit (fst (save_workout uniq JSON_stringify now x stored db)) = audit db.
Proof.
  destruct x as [w|]; reflexivity.
Qed.

(** On an array without nulls the data-point loop completes, counts every
    element, and (in a table without constraints) has appended one row
    per element, stamped with the element's own date. *)
Lemma points_loop (m : Metric) (points : list (option DataPoint)) :
  no_null points ->
  forall stored db,
    let r := for_of points (save_point uniq JSON_stringify now m) stored db in
    snd r = Returned (stored + List.length points)%nat
    /\ (uniq = [] ->
        map stamp (health_metrics (fst r))
        = (map stamp (health_metrics db)
           ++ flat_map (fun p => match p with
                                 | Some p => [(name m, date p)]
                                 | None => []
                                 end) points)%list).
Proof.
  induction 1 as [|x points Hx _ IH]; intros stored db; cbv zeta.
  - simpl. rewrite Nat.add_0_r, app_nil_r. split; [reflexivity|]. now intros _.
  - destruct x as [p|]; [|congruence].
    destruct (save_point_some m p stored db) as (v & a & Hstep).
    rewrite !(@for_of_step _ _ _ _ _ _ _ _ Hstep).
    destruct (saveHealthMetric_effect (name m) "health_auto_export" (date p) v (units m) a db)
      as (_ & _ & Hrows).
    destruct (IH (S stored)
                 (fst (saveHealthMetric uniq JSON_stringify now (name m) "health_auto_export"
                                        (date p) v (units m) a db))) as [Hn Hr].
    split.
    + rewrite Hn. simpl. f_equal. lia.
    + intros Hu. rewrite (Hr Hu), (Hrows Hu). simpl. now rewrite <- app_assoc.
Qed.

Lemma metrics_loop (ms : list (option Metric)) :
  no_null ms ->
  Forall (fun m => match m with
                   | Some m => match data m with
                               | Some points => no_null points
                               | None => True
                               end
                   | None => True
                   end) ms ->
  forall stored db,
    let r := for_of ms (save_metric uniq JSON_stringify now) stored db in
    snd r = Returned (stored + List.length (metric_stamps (Some ms)))%nat
    /\ (uniq = [] ->
        map stamp (health_metrics (fst r))
        = (map stamp (health_metrics db) ++ metric_stamps (Some ms))%list).
Proof.
  induction 1 as [|x ms Hx _ IH]; intros Hpoints stored db; cbv zeta.
  - simpl. rewrite Nat.add_0_r, app_nil_r. split; [reflexivity|]. now intros _.
  - destruct x as [m|]; [|congruence].
    inversion Hpoints as [|? ? Hm Hrest]; subst.
    change (metric_stamps (Some (Some m :: ms)))
      with (point_stamps m ++ metric_stamps (Some ms))%list.
    destruct (data m) as [points|] eqn:Hdata.
    + assert (Hps : point_stamps m
                    = flat_map (fun p => match p with
                                         | Some p => [(name m, date p)]
                                         | None => []
                                         end) points)
        by (unfold point_stamps; now rewrite Hdata).
      rewrite Hps.
      destruct (points_loop m Hm stored db) as [Hn Hr].
      assert (Hstep : save_metric uniq JSON_stringify now (Some m) stored db
                      = (fst (for_of points (save_point uniq JSON_stringify now m) stored db),
                         Returned (stored + List.length points)%nat)).
      { unfold save_metric, bind, deref, ret. rewrite Hdata.
        destruct (for_of points (save_point uniq JSON_stringify now m) stored db).
        simpl in *. now subst. }
      rewrite !(@for_of_step _ _ _ _ _ _ _ _ Hstep).
      destruct (IH Hrest (stored + List.length points)%nat
                   (fst (for_of points (save_point uniq JSON_stringify now m) stored db)))
        as [Hn' Hr'].
      split.
      * rewrite Hn'. f_equal. rewrite length_app.
        assert (Hlen : forall l : list (option DataPoint), no_null l ->
                  List.length (flat_map (fun p => match p with
                                                  | Some p => [(name m, date p)]
                                                  | None => []
                                                  end) l) = List.length l).
        { induction 1 as [|y l Hy _ IHl]; [reflexivity|].
          destruct y; [|congruence]. simpl. now rewrite IHl. }
        rewrite (Hlen points Hm). simpl. lia.
      * intros Hu. rewrite (Hr' Hu), (Hr Hu). simpl. now rewrite <- app_assoc.
    + assert (Hps : point_stamps m = []) by (unfold point_stamps; now rewrite Hdata).
      rewrite Hps.
      assert (Hstep : save_metric uniq JSON_stringify now (Some m) stored db
                      = (db, Returned stored)).
      { unfold save_metric, bind, deref, ret. now rewrite Hdata. }
      rewrite !(@for_of_step _ _ _ _ _ _ _ _ Hstep).
      exact (IH Hrest stored db).
Qed.

Lemma workouts_loop (ws : list (option Workout)) :
  no_null ws ->
  forall stored db,
    let r := for_of ws (save_workout uniq JSON_stringify now) stored db in
    snd r = Returned (stored + List.length (workout_stamps (Some ws)))%nat
    /\ (uniq = [] ->
        map stamp (health_metrics (fst r))
        = (map stamp (health_metrics db) ++ workout_stamps (Some ws))%list).
Proof.
  induction 1 as [|x ws Hx _ IH]; intros stored db; cbv zeta.
  - simpl. rewrite Nat.add_0_r, app_nil_r. split; [reflexivity|]. now intros _.
  - destruct x as [w|]; [|congruence].
    pose (db1 := fst (saveHealthMetric uniq JSON_stringify now
                        ("workout_" ++ workout_name w) "health_auto_export" (start w)
                        (Some (num_or_zero (duration w))) (Some "seconds")
                        (Some (object [("end", workout_end w); ("calories", calories w);
                                       ("distance", distance w);
                                       source_prop (workout_source w)])) db)).
    assert (Hstep : save_workout uniq JSON_stringify now (Some w) stored db
                    = (db1, Returned (S stored))) by reflexivity.
    rewrite !(@for_of_step _ _ _ _ _ _ _ _ Hstep).
    destruct (saveHealthMetric_effect ("workout_" ++ workout_name w) "health_auto_export"
                (start w) (Some (num_or_zero (duration w))) (Some "seconds")
                (Some (object [("end", workout_end w); ("calories", calories w);
                               ("distance", distance w);
                               source_prop (workout_source w)])) db) as (_ & _ & Hrows).
    fold db1 in Hrows.
    destruct (IH (S stored) db1) as [Hn Hr]. split.
    + rewrite Hn. simpl. f_equal. lia.
    + intros Hu. rewrite (Hr Hu), (Hrows Hu). simpl. now rewrite <- app_assoc.
Qed.

End WriterFacts.

(** ** One ingestion call *)

Section IngestFacts.

Variable uniq : list Unique.
Variable JSON_stringify : json -> string.
Variable now : string.

Let call := saveAutoExportData uniq JSON_stringify now.

(** The import records a call leaves behind: the one written on entry,
    and a second one, of status error, when the call throws after that. *)
Lemma import_records_of_call (payload : Payload) (db : DB) :
  map status (apple_health_auto_export (fst (call payload db)))
  = (map status (apple_health_auto_export db)
     ++ match snd (call payload db) with
        | Returned _ => ["success"]
        | Thrown _ => ["success"; "error"]
        end)%list.
Proof.
  unfold call, saveAutoExportData, try_block, bind, insert_import.
  set (db1 := mkDB (health_metrics db) _ (health_sync_log db)).
  set (loop1 := match metrics payload with
                | Some ms => for_of ms (save_metric uniq JSON_stringify now) O
                | None => ret O
                end).
  assert (A1 : audit (fst (loop1 db1)) = audit db1).
  { unfold loop1. destruct (metrics payload); [|reflexivity].
    apply for_of_audit. intros. apply save_metric_audit. }
  destruct (loop1 db1) as [db2 [n|e]]; simpl in A1.
  - set (loop2 := match workouts payload with
                  | Some ws => for_of ws (save_workout uniq JSON_stringify now) O
                  | None => ret O
                  end).
    assert (A2 : audit (fst (loop2 db2)) = audit db2).
    { unfold loop2. destruct (workouts payload); [|reflexivity].
      apply for_of_audit. intros. apply save_workout_audit. }
    destruct (loop2 db2) as [db3 [k|e]]; simpl in A2;
      apply (f_equal fst) in A1, A2; simpl in A1, A2; simpl.
    + rewrite A2, A1, map_app. reflexivity.
    + rewrite map_app, A2, A1, map_app, <- app_assoc. reflexivity.
  - apply (f_equal fst) in A1. simpl in A1. simpl.
    rewrite map_app, A1, map_app, <- app_assoc. reflexivity.
Qed.

(** A call on a payload without nulls returns, reports one stored metric
    per data point and one stored workout per workout, and, in a table
    without constraints, has appended one row per data point and per
    workout, in order, each with the timestamp it came with. *)
Lemma call_without_nulls (payload : Payload) (db : DB) :
  no_nulls payload ->
  (exists r, snd (call payload db) = Returned r
             /\ metricsStored r = List.length (metric_stamps (metrics payload))
             /\ workoutsStored r = List.length (workout_stamps (workouts payload)))
  /\ (uniq = [] ->
      map stamp (health_metrics (fst (call payload db)))
      = (map stamp (health_metrics db)
         ++ metric_stamps (metrics payload) ++ workout_stamps (workouts payload))%list).
Proof.
  intros [Hm Hw].
  unfold call, saveAutoExportData, try_block, bind, insert_import.
  set (db1 := mkDB (health_metrics db) _ (health_sync_log db)).
  set (loop1 := match metrics payload with
                | Some ms => for_of ms (save_metric uniq JSON_stringify now) O
                | None => ret O
                end).
  assert (L1 : snd (loop1 db1) = Returned (List.length (metric_stamps (metrics payload)))
               /\ (uniq = [] ->
                   map stamp (health_metrics (fst (loop1 db1)))
                   = (map stamp (health_metrics db) ++ metric_stamps (metrics payload))%list)).
  { unfold loop1. destruct (metrics payload) as [ms|].
    - destruct Hm as [Hms Hpts]. exact (metrics_loop uniq JSON_stringify now Hms Hpts O db1).
    - simpl. rewrite app_nil_r. split; [reflexivity|now intros _]. }
  destruct (loop1 db1) as [db2 out1]. destruct L1 as [E1 R1]. simpl in E1, R1. subst out1.
  set (loop2 := match workouts payload with
                | Some ws => for_of ws (save_workout uniq JSON_stringify now) O
                | None => ret O
                end).
  assert (L2 : snd (loop2 db2) = Returned (List.length (workout_stamps (workouts payload)))
               /\ (uniq = [] ->
                   map stamp (health_metrics (fst (loop2 db2)))
                   = (map stamp (health_metrics db2) ++ workout_stamps (workouts payload))%list)).
  { unfold loop2. destruct (workouts payload) as [ws|].
    - exact (workouts_loop uniq JSON_stringify now Hw O db2).
    - simpl. rewrite app_nil_r. split; [reflexivity|now intros _]. }
  destruct (loop2 db2) as [db3 out2]. destruct L2 as [E2 R2]. simpl in E2, R2. subst out2.
  simpl. split.
  - eexists. split; [reflexivity|]. split; reflexivity.
  - intros Hu. rewrite (R2 Hu), (R1 Hu), <- app_assoc. reflexivity.
Qed.

End IngestFacts.

(** ** Duplicate delivery *)

(** C1, on the code.  [createTables] declares no UNIQUE constraint on
    [health_metrics], so INSERT OR IGNORE ignores nothing: the two samples
    of one tuple sent in one batch are both stored and the daily total is
    their sum, 12.3; a batch sent twice is stored twice.  With the
    four-column constraint the repository documents for the production
    file, the two samples, differing in value, are still both stored. *)
Theorem duplicate_tuple_is_stored_twice :
  let db1 := fst (Run.ingest "t1" Scenario.clash empty_db) in
  let db2 := fst (Run.ingest "t2" Scenario.single
                    (fst (Run.ingest "t1" Scenario.single empty_db))) in
  let db3 := fst (Scenario.ingest_documented "t1" Scenario.clash empty_db) in
  List.length (Scenario.rows_at "2025-10-11 08:14:51 +0100" db1) = 2%nat
  /\ map (fun p => (samples p, Qeq_bool (value p) (123 # 10)))
         (Run.periods_of (Run.query (health_metrics db1) "steps" 100 "daily"
                                    "2025-10-11" "2025-10-12"))
     = [(2%nat, true)]
  /\ List.length (Scenario.rows_at "2025-10-11 08:15:00 +0100" db2) = 2%nat
  /\ List.length (Scenario.rows_at "2025-10-11 08:14:51 +0100" db3) = 2%nat.
Proof.
  cbv zeta. repeat split; vm_compute; reflexivity.
Qed.

(** C2, on the code.  [metricsStored] is incremented after every
    [saveHealthMetric], whatever the INSERT did.  Sending a batch of one
    sample a second time returns 1, not 0: in the table [createTables]
    makes, because the sample is stored again; in a file with the
    documented constraint, although the insert is ignored and the table
    keeps its single row. *)
Theorem resubmitted_batch_is_counted_again :
  let first := Run.ingest "t1" Scenario.single empty_db in
  let second := Run.ingest "t2" Scenario.single (fst first) in
  let first' := Scenario.ingest_documented "t1" Scenario.single empty_db in
  let second' := Scenario.ingest_documented "t2" Scenario.single (fst first') in
  Scenario.stored_count (snd second) = Some 1%nat
  /\ List.length (health_metrics (fst first)) = 1%nat
  /\ List.length (health_metrics (fst second)) = 2%nat
  /\ Scenario.stored_count (snd second') = Some 1%nat
  /\ health_metrics (fst second') = health_metrics (fst first')
  /\ List.length (health_metrics (fst first')) = 1%nat.
Proof.
  cbv zeta. repeat split; vm_compute; reflexivity.
Qed.

(** ** Timestamps are not validated *)

(** C6 fails on the code: a data point without a timestamp, and one whose
    timestamp is not a date, are both stored (with NULL, resp. the text as
    it came) and both counted, next to the well-formed one. *)
Lemma bad_timestamp_is_stored :
  let batch := Scenario.steps [Run.point None 10 "Apple Watch";
                               Run.point (Some "not a date") 20 "Apple Watch";
                               Run.point (Some "2025-10-11 08:15:00 +0100") 30 "Apple Watch"] in
  let r := Run.ingest "t1" batch empty_db in
  map metric_date (health_metrics (fst r))
  = [None; Some "not a date"; Some "2025-10-11 08:15:00 +0100"]
  /\ Scenario.stored_count (snd r) = Some 3%nat.
Proof.
  cbv zeta. split; vm_compute; reflexivity.
Qed.

(** C6, amended.  The writer has no timestamp check.  For a payload whose
    arrays hold no null, the call returns; every data point and every
    workout, whatever its timestamp, is appended to the table
    [createTables] makes, in order and with the timestamp as received
    (NULL when missing); and [metricsStored] and [workoutsStored] count
    all of them. *)
Theorem every_data_point_is_written
    (JSON_stringify : json -> string) (now : string) (payload : Payload) (db : DB) :
  no_nulls payload ->
  let r := saveAutoExportData createTables_unique JSON_stringify now payload db in
  map stamp (health_metrics (fst r))
  = (map stamp (health_metrics db)
     ++ metric_stamps (metrics payload) ++ workout_stamps (workouts payload))%list
  /\ exists result,
       snd r = Returned result
       /\ metricsStored result = List.length (metric_stamps (metrics payload))
       /\ workoutsStored result = List.length (workout_stamps (workouts payload)).
Proof.
  intros Hnn. cbv zeta.
  destruct (call_without_nulls createTables_unique JSON_stringify now db Hnn) as [Hret Hrows].
  split; [exact (Hrows eq_refl) | exact Hret].
Qed.

(** C6, amended, on a batch of three data points of which one has no
    timestamp and one a malformed one. *)
Lemma every_data_point_is_written_witness :
  let batch := Scenario.steps [Run.point None 10 "Apple Watch";
                               Run.point (Some "not a date") 20 "Apple Watch";
                               Run.point (Some "2025-10-11 08:15:00 +0100") 30 "Apple Watch"] in
  let r := saveAutoExportData createTables_unique Run.json_text "t1" batch empty_db in
  map stamp (health_metrics (fst r))
  = [("step_count", None); ("step_count", Some "not a date");
     ("step_count", Some "2025-10-11 08:15:00 +0100")]
  /\ exists result, snd r = Returned result
                    /\ metricsStored result = 3%nat /\ workoutsStored result = 0%nat.
Proof.
  cbv zeta.
  apply (every_data_point_is_written Run.json_text "t1"
           (payload := Scenario.steps [Run.point None 10 "Apple Watch";
                                       Run.point (Some "not a date") 20 "Apple Watch";
                                       Run.point (Some "2025-10-11 08:15:00 +0100") 30
                                                 "Apple Watch"])
           empty_db).
  split; [|exact I].
  split; repeat constructor; discriminate.
Defined.

(** ** The import record of a failed call *)

(** C7, on the code.  The import record is written, with status success,
    before the samples are processed.  When a later step throws (here the
    second element of [data] is null), the catch block writes a second
    record, of status error: the one call leaves two import records, and
    the first still says success. *)
Theorem failed_call_leaves_two_import_records :
  let batch := Scenario.steps [Run.point (Some "2025-10-11 08:15:00 +0100") 12 "Apple Watch";
                               None] in
  let r := Run.ingest "t1" batch empty_db in
  snd r = Thrown "Cannot read properties of null (reading 'date')"
  /\ map status (apple_health_auto_export (fst r)) = ["success"; "error"]
  /\ List.length (health_metrics (fst r)) = 1%nat.
Proof.
  cbv zeta. repeat split; vm_compute; reflexivity.
Qed.

(** ** Grouping by day and unit *)

Lemma substring_of_prefix (d t : string) :
  substring 0 (String.length d) (d ++ t) = d.
Proof.
  induction d as [|c d IH]; simpl.
  - destruct t; reflexivity.
  - now rewrite IH.
Qed.

Lemma group_by_two_units (key : Row -> GroupKey) (r1 r2 : Row) (p : option string)
    (u1 u2 : string) :
  key r1 = (p, Some u1) -> key r2 = (p, Some u2) -> u1 <> u2 ->
  group_by key [r1; r2] = [((p, Some u1), [r1]); ((p, Some u2), [r2])].
Proof.
  intros K1 K2 Hu. unfold group_by. simpl. rewrite K1, K2.
  assert (Hp : opt_eqb p p = true) by (destruct p; simpl; [apply String.eqb_refl|reflexivity]).
  assert (H12 : String.eqb u1 u2 = false) by now apply String.eqb_neq.
  assert (H21 : String.eqb u2 u1 = false) by (rewrite String.eqb_sym; exact H12).
  unfold key_eqb. simpl.
  repeat (rewrite ?Hp, ?H12, ?H21, ?String.eqb_refl; simpl). reflexivity.
Qed.

Lemma order_two_same_period (a b : AggRow) (d : string) :
  row_period a = Some d -> row_period b = Some d ->
  Sql.order_by_desc row_period [a; b] = [a; b].
Proof.
  intros Ha Hb. unfold Sql.order_by_desc. simpl. rewrite Ha, Hb. simpl.
  now rewrite text_le_refl.
Qed.

(** C3 fails on the code: the daily query over the day of the two samples
    returns two groups of one sample each, not one group of two. *)
Lemma mixed_units_are_not_one_group :
  let db := fst (Run.ingest "t" (energy_pair "Apple Watch" "2025-10-14 08:00:00 +0100"
                                             "2025-10-14 08:01:00 +0100") empty_db) in
  let groups := Run.periods_of (Run.query (health_metrics db) "active-energy" 100 "daily"
                                          "2025-10-14" "2025-10-15") in
  List.length groups = 2%nat
  /\ map samples groups = [1%nat; 1%nat]
  /\ ~ (exists g, groups = [g] /\ samples g = 2%nat).
Proof.
  cbv zeta. split; [reflexivity|]. split; [reflexivity|].
  intros (g & Hg & _). vm_compute in Hg. discriminate Hg.
Qed.

(** C3, amended.  After ingesting, into an empty store, a batch with two
    active-energy samples of one source on one day, 100 kJ and 50 kcal, a
    daily query whose range covers both returns two groups for that day,
    one per stored unit: 23.9 (100 / 4.184, rounded) over one sample and
    50 over one sample, both labelled kcal, in an order SQL leaves open.
    The summary total is 73.9. *)
Theorem mixed_units_split_the_day
    (now source day time1 time2 start_date end_date : string) :
  String.length day = 10%nat ->
  start_date <> EmptyString ->
  end_date <> EmptyString ->
  Sql.between (Some (day ++ time1)) start_date end_date = true ->
  Sql.between (Some (day ++ time2)) start_date end_date = true ->
  let db := fst (Run.ingest now (energy_pair source (day ++ time1) (day ++ time2)) empty_db) in
  let answer := Run.query (health_metrics db) "active-energy" 100 "daily" start_date end_date in
  Permutation (Run.periods_of answer)
    [mkPeriod (Some day) (2390 # 100) (Some "kcal") 1
              (Some (day ++ time1)) (Some (day ++ time1)) None;
     mkPeriod (Some day) (5000 # 100) (Some "kcal") 1
              (Some (day ++ time2)) (Some (day ++ time2)) None]
  /\ Run.summary_total answer = Some (7390 # 100).
Proof.
  intros Hday Hs He H1 H2. cbv zeta.
  destruct start_date as [|cs start_date]; [congruence|].
  destruct end_date as [|ce end_date]; [congruence|].
  unfold Run.ingest, energy_pair.
  unfold Run.query, getAppleHealthMetrics.
  change (metricMap "active-energy") with (Some "active_energy").
  cbv iota beta.
  change (includes cumulativeMetrics "active_energy") with true.
  cbv iota beta zeta.
  change (str_or (Some "daily") "daily") with "daily".
  change (String.eqb "daily" "none") with false.
  change (String.eqb "daily" "daily") with true.
  cbv iota.
  change (calculate_date_range EmptyString (fun _ : Z => EmptyString) 30
            (Some (String cs start_date)) (Some (String ce end_date)))
    with (String cs start_date, String ce end_date).
  cbn [fst snd].
  set (tbl := health_metrics (fst (saveAutoExportData _ _ _ _ _))).
  set (meta := Some (Run.json_text (object [source_prop (Some source)]))).
  assert (Htbl : tbl = [mkRow 1 "active_energy" "health_auto_export" (Some (day ++ time1))
                              (Some 100) (Some "kJ") meta now (Some (100 / kJ_per_kcal));
                        mkRow 2 "active_energy" "health_auto_export" (Some (day ++ time2))
                              (Some 50) (Some "kcal") meta now (Some 50)])
    by reflexivity.
  rewrite Htbl. clear tbl Htbl.
  assert (Hmatch : forall r1 r2 : Row,
            metric_type r1 = "active_energy" -> metric_type r2 = "active_energy" ->
            metric_date r1 = Some (day ++ time1) -> metric_date r2 = Some (day ++ time2) ->
            filter (where_clause "active_energy" (String cs start_date) (String ce end_date))
                   [r1; r2] = [r1; r2]).
  { intros r1 r2 T1 T2 D1 D2. unfold where_clause, deviceFilter. simpl.
    now rewrite T1, T2, D1, D2, H1, H2. }
  rewrite !Hmatch by reflexivity. clear Hmatch.
  unfold select_periods.
  rewrite (@group_by_two_units _ _ _ (Some day) "kJ" "kcal");
    [| unfold Sql.substr1; simpl; now rewrite <- Hday, substring_of_prefix
     | unfold Sql.substr1; simpl; now rewrite <- Hday, substring_of_prefix
     | discriminate].
  cbn [map].
  rewrite (@order_two_same_period _ _ day) by reflexivity.
  split; [|vm_compute; reflexivity].
  match goal with
  | |- Permutation ?l ?r => assert (E : l = r) by (vm_compute; reflexivity)
  end.
  rewrite E. reflexivity.
Qed.

(** C3, amended, one minute apart on 14 October. *)
Lemma mixed_units_split_the_day_witness :
  let db := fst (Run.ingest "t" (energy_pair "Apple Watch" "2025-10-14 08:00:00 +0100"
                                             "2025-10-14 08:01:00 +0100") empty_db) in
  let answer := Run.query (health_metrics db) "active-energy" 100 "daily"
                          "2025-10-14" "2025-10-15" in
  Permutation
    (map (fun g => (period g, value g, unit g, samples g)) (Run.periods_of answer))
    [(Some "2025-10-14", 2390 # 100, Some "kcal", 1%nat);
     (Some "2025-10-14", 5000 # 100, Some "kcal", 1%nat)]
  /\ Run.summary_total answer = Some (7390 # 100).
Proof.
  cbv zeta.
  destruct (@mixed_units_split_the_day "t" "Apple Watch" "2025-10-14"
              " 08:00:00 +0100" " 08:01:00 +0100" "2025-10-14" "2025-10-15"
              eq_refl ltac:(discriminate) ltac:(discriminate) eq_refl eq_refl)
    as [Hgroups Htotal].
  split; [|exact Htotal].
  exact (Permutation_map (fun g => (period g, value g, unit g, samples g)) Hgroups).
Defined.

(** ** Sums and rounding *)

Lemma qsum_app (l l' : list Q) : qsum (l ++ l') == qsum l + qsum l'.
Proof.
  induction l as [|x l IH]; simpl; [ring|]. rewrite IH. ring.
Qed.







#[global] Instance round2_proper : Proper (Qeq ==> Qeq) round2.
Proof.
  intros x y H. unfold round2, Math_round.
  assert (E : Qfloor (x * 100 + (1 # 2)) = Qfloor (y * 100 + (1 # 2)))
    by (apply Qfloor_comp; now rewrite H).
  now rewrite E.
Qed.

(** Rounding moves a number by at most half a cent. *)
Lemma round2_close (x : Q) : Qabs (round2 x - x) <= 1 # 200.
Proof.
  unfold round2, Math_round.
  pose proof (Qfloor_le (x * 100 + (1 # 2))) as Hlo.
  pose proof (Qlt_floor (x * 100 + (1 # 2))) as Hhi.
  set (z := Qfloor (x * 100 + (1 # 2))) in *.
  rewrite inject_Z_plus in Hhi.
  apply Qabs_Qle_condition.
  change (inject_Z 1) with 1 in Hhi.
  assert (E : inject_Z z / 100 == inject_Z z * (1 # 100)) by (field).
  rewrite E. split; lra.
Qed.

(** A sum of rounded numbers is a whole number of cents. *)
Lemma qsum_round2_cents (xs : list Q) :
  exists z, qsum (map round2 xs) == inject_Z z / 100.
Proof.
  induction xs as [|x xs [z Hz]]; simpl.
  - exists 0%Z. reflexivity.
  - exists (Qfloor (x * 100 + (1 # 2)) + z)%Z.
    rewrite Hz. unfold round2, Math_round. rewrite inject_Z_plus. field.
Qed.


Lemma qsum_round2_close (xs : list Q) :
  Qabs (qsum (map round2 xs) - qsum xs) <= inject_Z (Z.of_nat (List.length xs)) * (1 # 200).
Proof.
  induction xs as [|x xs IH].
  - vm_compute. discriminate.
  - cbn [map qsum fold_right List.length].
    rewrite Nat2Z.inj_succ, <- Z.add_1_r, inject_Z_plus.
    pose proof (round2_close x) as Hx.
    apply Qabs_Qle_condition in Hx. apply Qabs_Qle_condition in IH.
    apply Qabs_Qle_condition.
    change (inject_Z 1) with 1.
    fold (qsum (map round2 xs)). fold (qsum xs).
    split; lra.
Qed.

(** ** Groups partition the rows *)

Lemma opt_eqb_eq (a b : option string) : opt_eqb a b = true <-> a = b.
Proof.
  destruct a as [x|], b as [y|]; simpl; try (split; congruence).
  rewrite String.eqb_eq. split; congruence.
Qed.

Lemma key_eqb_eq (a b : GroupKey) : key_eqb a b = true <-> a = b.
Proof.
  destruct a as [a1 a2], b as [b1 b2]. unfold key_eqb. simpl.
  rewrite andb_true_iff, !opt_eqb_eq. split; [intros [-> ->]; reflexivity|].
  intros H. injection H as -> ->. now split.
Qed.

Lemma key_eqb_refl (k : GroupKey) : key_eqb k k = true.
Proof. now apply key_eqb_eq. Qed.

Lemma distinct_In (ks : list GroupKey) (k : GroupKey) : In k (distinct ks) <-> In k ks.
Proof.
  induction ks as [|x ks IH]; simpl; [tauto|].
  rewrite filter_In, IH. split.
  - intros [H|[H _]]; tauto.
  - intros [H|H]; [now left|].
    destruct (key_eqb k x) eqn:E.
    + left. symmetry. now apply key_eqb_eq.
    + right. split; [exact H|reflexivity].
Qed.

Lemma distinct_NoDup (ks : list GroupKey) : NoDup (distinct ks).
Proof.
  induction ks as [|x ks IH]; simpl; constructor.
  - rewrite filter_In. intros [_ H]. cbv beta in H. now rewrite key_eqb_refl in H.
  - now apply NoDup_filter.
Qed.





Lemma insert_desc_perm (A : Type) (key : A -> option string) (x : A) (l : list A) :
  Permutation (Sql.insert_desc key x l) (x :: l).
Proof.
  induction l as [|y l IH]; simpl; [reflexivity|].
  destruct (Sql.key_ge (key x) (key y)); [reflexivity|].
  rewrite IH. apply perm_swap.
Qed.

(** ORDER BY rearranges, and nothing else. *)
Lemma order_by_desc_perm (A : Type) (key : A -> option string) (l : list A) :
  Permutation (Sql.order_by_desc key l) l.
Proof.
  unfold Sql.order_by_desc. induction l as [|x l IH]; simpl; [reflexivity|].
  rewrite insert_desc_perm. now constructor.
Qed.

(** A LIMIT that is negative, or not below the number of rows, keeps all. *)
Lemma limit_all (A : Type) (n : Z) (l : list A) :
  (n < 0 \/ Z.of_nat (List.length l) <= n)%Z -> Sql.limit n l = l.
Proof.
  intros H. unfold Sql.limit. destruct (n <? 0)%Z eqn:E; [reflexivity|].
  apply Z.ltb_ge in E. apply firstn_all2. lia.
Qed.

(** ** Daily rollup against the total *)



Lemma range_guard (invalid_cutoff : Z -> bool) (days : Z) (start_date end_date : option string) :
  range_exists invalid_cutoff days start_date end_date ->
  negb (str_truthy start_date && str_truthy end_date) && invalid_cutoff days = false.
Proof.
  intros [H|H]; rewrite H; [reflexivity|apply andb_false_r].
Qed.








(** ** Order and limit *)

Lemma key_ge_total (a b : option string) : Sql.key_ge a b = false -> Sql.key_ge b a = true.
Proof.
  destruct a as [x|], b as [y|]; simpl; try congruence.
  unfold Sql.text_le. intros H. destruct (String.leb_total x y) as [T|T]; congruence.
Qed.

Lemma insert_desc_sorted (A : Type) (key : A -> option string) (x : A) (l : list A) :
  Sorted (not_older key) l -> Sorted (not_older key) (Sql.insert_desc key x l).
Proof.
  induction 1 as [|y l Hs IH Hhd]; simpl.
  - repeat constructor.
  - destruct (Sql.key_ge (key x) (key y)) eqn:E.
    + constructor; [now constructor|]. constructor. exact E.
    + constructor; [exact IH|].
      destruct l as [|z l]; simpl.
      * constructor. now apply key_ge_total.
      * destruct (Sql.key_ge (key x) (key z)).
        -- constructor. now apply key_ge_total.
        -- constructor. now inversion Hhd.
Qed.

Lemma order_by_desc_sorted (A : Type) (key : A -> option string) (l : list A) :
  Sorted (not_older key) (Sql.order_by_desc key l).
Proof.
  unfold Sql.order_by_desc. induction l as [|x l IH]; simpl; [constructor|].
  now apply insert_desc_sorted.
Qed.

Lemma firstn_sorted (A : Type) (R : A -> A -> Prop) (n : nat) (l : list A) :
  Sorted R l -> Sorted R (firstn n l).
Proof.
  intros H. revert n. induction H as [|x l Hs IH Hhd]; intros [|n]; simpl; try constructor.
  - apply IH.
  - destruct Hhd as [|y l' Hxy]; destruct n; simpl; constructor. exact Hxy.
Qed.

Lemma limit_sorted (A : Type) (R : A -> A -> Prop) (n : Z) (l : list A) :
  Sorted R l -> Sorted R (Sql.limit n l).
Proof.
  intros H. unfold Sql.limit. destruct (n <? 0)%Z; [exact H|]. now apply firstn_sorted.
Qed.

Lemma map_sorted (A B : Type) (R : A -> A -> Prop) (R' : B -> B -> Prop) (f : A -> B)
    (l : list A) :
  (forall a b, R a b -> R' (f a) (f b)) -> Sorted R l -> Sorted R' (map f l).
Proof.
  intros Hf. induction 1 as [|x l Hs IH Hhd]; simpl; constructor; [exact IH|].
  destruct Hhd; simpl; constructor. now apply Hf.
Qed.

Lemma limit_incl (A : Type) (n : Z) (l : list A) (x : A) : In x (Sql.limit n l) -> In x l.
Proof.
  unfold Sql.limit. destruct (n <? 0)%Z; [tauto|].
  intros H. rewrite <- (firstn_skipn (Z.to_nat n) l). apply in_or_app. now left.
Qed.

Lemma limit_length (A : Type) (n : Z) (l : list A) :
  (0 <= n)%Z -> List.length (Sql.limit n l) = Nat.min (Z.to_nat n) (List.length l).
Proof.
  intros H. unfold Sql.limit.
  destruct (n <? 0)%Z eqn:E; [apply Z.ltb_lt in E; lia|]. apply length_firstn.
Qed.

Lemma order_by_desc_In (A : Type) (key : A -> option string) (l : list A) (x : A) :
  In x (Sql.order_by_desc key l) <-> In x l.
Proof.
  split; apply Permutation_in; [|symmetry]; apply order_by_desc_perm.
Qed.

(** ** Groups and counts *)

Lemma filter_keys_cons (key : Row -> GroupKey) (r : Row) (rows : list Row) (ks : list GroupKey) :
  NoDup ks -> In (key r) ks ->
  Permutation
    (List.concat (map (fun k => filter (fun x => key_eqb (key x) k) (r :: rows)) ks))
    (r :: List.concat (map (fun k => filter (fun x => key_eqb (key x) k) rows) ks)).
Proof.
  induction 1 as [|k ks Hk Hnd IH]; intros Hin; [destruct Hin|].
  cbn [map List.concat].
  assert (Fk : filter (fun x => key_eqb (key x) k) (r :: rows)
               = if key_eqb (key r) k
                 then r :: filter (fun x => key_eqb (key x) k) rows
                 else filter (fun x => key_eqb (key x) k) rows) by reflexivity.
  rewrite Fk. clear Fk.
  destruct (key_eqb (key r) k) eqn:E.
  - apply key_eqb_eq in E. subst k.
    assert (Same : map (fun k => filter (fun x => key_eqb (key x) k) (r :: rows)) ks
                   = map (fun k => filter (fun x => key_eqb (key x) k) rows) ks).
    { apply map_ext_in. intros k' Hk'. simpl.
      destruct (key_eqb (key r) k') eqn:E'; [|reflexivity].
      apply key_eqb_eq in E'. subst k'. contradiction. }
    rewrite Same. reflexivity.
  - destruct Hin as [->|Hin]; [now rewrite key_eqb_refl in E|].
    rewrite (IH Hin). symmetry. apply Permutation_middle.
Qed.

(** The groups of a GROUP BY hold every row once. *)
Lemma group_by_partition (key : Row -> GroupKey) (rows : list Row) :
  Permutation (List.concat (map snd (group_by key rows))) rows.
Proof.
  unfold group_by. rewrite map_map. cbn [snd].
  assert (G : forall ks, NoDup ks -> (forall r, In r rows -> In (key r) ks) ->
              Permutation (List.concat (map (fun k => filter (fun x => key_eqb (key x) k) rows) ks))
                          rows).
  { induction rows as [|r rows IH]; intros ks Hnd Hcover.
    - cbn [filter]. clear. induction ks as [|k ks IHk]; [reflexivity|exact IHk].
    - rewrite filter_keys_cons; [|exact Hnd|apply Hcover; now left].
      constructor. apply IH; [exact Hnd|]. intros x Hx. apply Hcover. now right. }
  apply G; [apply distinct_NoDup|].
  intros r Hr. apply distinct_In. now apply in_map.
Qed.

Lemma list_sum_perm (l l' : list nat) : Permutation l l' -> list_sum l = list_sum l'.
Proof.
  induction 1; simpl; lia.
Qed.

Lemma list_sum_firstn (n : nat) (l : list nat) : (list_sum (firstn n l) <= list_sum l)%nat.
Proof.
  revert n. induction l as [|x l IH]; intros [|n]; simpl; try lia.
  specialize (IH n). lia.
Qed.

Lemma list_sum_lengths (A : Type) (ls : list (list A)) :
  list_sum (map (@List.length A) ls) = List.length (List.concat ls).
Proof.
  induction ls as [|l ls IH]; [reflexivity|]. simpl. rewrite length_app. lia.
Qed.

Lemma distinct_length (ks : list GroupKey) : (List.length (distinct ks) <= List.length ks)%nat.
Proof.
  induction ks as [|k ks IH]; simpl; [lia|].
  pose proof (filter_length_le (fun k' => negb (key_eqb k' k)) (distinct ks)). lia.
Qed.

Lemma group_count (key : Row -> GroupKey) (rows : list Row) :
  (List.length (group_by key rows) <= List.length rows)%nat.
Proof.
  unfold group_by. rewrite length_map.
  pose proof (distinct_length (map key rows)) as H. now rewrite length_map in H.
Qed.

(** The sample counts of the groups returned by an aggregating SELECT. *)
Lemma counted_samples (internalType : string) (isCumulative with_min_max : bool)
    (key : Row -> GroupKey) (rows : list Row) (l : list AggRow) :
  Permutation l (map (aggregate_row with_min_max) (group_by key rows)) ->
  list_sum (map samples (map (period_of_row internalType isCumulative) l))
  = List.length rows.
Proof.
  intros Hp. rewrite map_map.
  rewrite (list_sum_perm (Permutation_map _ Hp)).
  rewrite map_map. cbn [samples period_of_row sample_count aggregate_row].
  rewrite <- (Permutation_length (group_by_partition key rows)).
  rewrite <- list_sum_lengths, map_map. reflexivity.
Qed.

(** The counts of the periods an aggregating SELECT with a LIMIT lists. *)
Lemma listed_counts (internalType : string) (with_min_max : bool) (key : Row -> GroupKey)
    (limit : Z) (matching : list Row) :
  let got := map (period_of_row internalType (includes cumulativeMetrics internalType))
                 (Sql.limit limit
                    (Sql.order_by_desc row_period
                       (map (aggregate_row with_min_max) (group_by key matching)))) in
  (list_sum (map samples got) <= List.length matching)%nat
  /\ ((limit < 0 \/ Z.of_nat (List.length matching) <= limit)%Z ->
      list_sum (map samples got) = List.length matching).
Proof.
  cbv zeta.
  set (all := Sql.order_by_desc row_period
                (map (aggregate_row with_min_max) (group_by key matching))).
  assert (Hall : list_sum (map samples
                             (map (period_of_row internalType
                                     (includes cumulativeMetrics internalType)) all))
                 = List.length matching)
    by (apply counted_samples with (with_min_max := with_min_max) (key := key);
        apply order_by_desc_perm).
  split.
  - rewrite <- Hall. unfold Sql.limit.
    destruct (limit <? 0)%Z; [lia|].
    rewrite <- !firstn_map. apply list_sum_firstn.
  - intros Hl. rewrite limit_all; [exact Hall|].
    destruct Hl as [Hl|Hl]; [now left|right].
    unfold all. rewrite (Permutation_length (order_by_desc_perm _ _)), length_map.
    pose proof (group_count key matching). lia.
Qed.

(** The counts of the groups of the total SELECT. *)
Lemma total_counts (internalType : string) (matching : list Row) :
  list_sum (map samples
              (map (period_of_row internalType (includes cumulativeMetrics internalType))
                   (select_total matching)))
  = List.length matching.
Proof.
  unfold select_total.
  apply counted_samples with (with_min_max := false)
                             (key := fun r => (Some "total", metric_unit r)).
  reflexivity.
Qed.

(** ** The device filter of step counts *)

Lemma prefix_nocase_spec (p s : string) :
  Sql.prefix_nocase p s = true <-> exists rest, fold_case s = fold_case p ++ rest.
Proof.
  revert s. induction p as [|a p IH]; intros s.
  - cbn [Sql.prefix_nocase fold_case append].
    split; [intros _; now exists (fold_case s) | reflexivity].
  - destruct s as [|b s]; cbn [Sql.prefix_nocase fold_case append].
    + split; [discriminate | intros [rest H]; discriminate H].
    + rewrite andb_true_iff, Ascii.eqb_eq, IH. split.
      * intros [-> [rest ->]]. now exists rest.
      * intros [rest H]. injection H as H1 H2. split; [now symmetry|now exists rest].
Qed.

Lemma contains_nocase_spec (p s : string) :
  Sql.contains_nocase p s = true
  <-> exists before after, fold_case s = before ++ fold_case p ++ after.
Proof.
  induction s as [|c s IH].
  - cbn [Sql.contains_nocase]. rewrite orb_false_r, prefix_nocase_spec. split.
    + intros [rest H]. now exists EmptyString, rest.
    + intros (before & after & H). destruct before; [now exists after|discriminate H].
  - cbn [Sql.contains_nocase]. rewrite orb_true_iff, prefix_nocase_spec, IH. split.
    + intros [[rest H]|(before & after & H)].
      * now exists EmptyString, rest.
      * exists (String (Sql.upper c) before), after. cbn [fold_case append]. now rewrite H.
    + intros (before & after & H). destruct before as [|x before].
      * left. now exists after.
      * right. cbn [fold_case append] in H. injection H as _ H. now exists before, after.
Qed.

(** [additional_data LIKE '%Watch%'] holds exactly of a text that mentions
    a Watch. *)
Lemma like_watch (text : option string) :
  Sql.like_contains text "Watch" = true <-> mentions_watch text.
Proof.
  unfold mentions_watch. destruct text as [s|]; cbn [Sql.like_contains].
  - rewrite contains_nocase_spec. split.
    + intros (before & after & H). now exists s, before, after.
    + intros (s' & before & after & [= <-] & H). now exists before, after.
  - split; [discriminate|]. intros (s & _ & _ & H & _). discriminate H.
Qed.

(** The condition added for step counts accepts the real-time export and
    the complete export of a Watch, and nothing else. *)
Lemma deviceFilter_steps (r : Row) :
  deviceFilter "step_count" r = true <-> from_realtime_or_watch r.
Proof.
  unfold deviceFilter, from_realtime_or_watch. cbn [String.eqb Ascii.eqb Bool.eqb].
  rewrite orb_true_iff, andb_true_iff, !String.eqb_eq, like_watch. reflexivity.
Qed.

Lemma realtime_or_watch_spec (r : Row) :
  realtime_or_watch r = true <-> from_realtime_or_watch r.
Proof. exact (deviceFilter_steps r). Qed.

(** What a returned answer holds of the rows the WHERE clause matched: at
    level none their samples, at the other levels periods that count each of
    them, as long as the limit cuts nothing. *)
Lemma answer_covers_matching
    (week_key : option string -> option string) (today : string) (days_ago : Z -> string)
    (invalid_cutoff : Z -> bool) (JSON_parses : string -> bool)
    (table : list Row) (type internalType : string) (days limit : Z)
    (aggregate start_date end_date : option string) (response : Response) :
  metricMap type = Some internalType ->
  getAppleHealthMetrics week_key today days_ago invalid_cutoff JSON_parses table
                        type days limit aggregate start_date end_date
  = Returned response ->
  let range := calculate_date_range today days_ago days start_date end_date in
  let matching := filter (where_clause internalType (fst range) (snd range)) table in
  match data_of response with
  | Samples listed =>
      (limit < 0 \/ Z.of_nat (List.length matching) <= limit)%Z ->
      Permutation listed (map (sample_of JSON_parses internalType) matching)
  | Periods listed =>
      (limit < 0 \/ Z.of_nat (List.length matching) <= limit)%Z
      \/ aggregation response = "total" ->
      list_sum (map samples listed) = List.length matching
  end.
Proof.
  intros Hmap. unfold getAppleHealthMetrics. rewrite Hmap. cbv zeta.
  destruct (negb (str_truthy start_date && str_truthy end_date) && invalid_cutoff days);
    [discriminate|].
  set (range := calculate_date_range today days_ago days start_date end_date).
  set (matching := filter (where_clause internalType (fst range) (snd range)) table).
  set (level := str_or aggregate
                  (if includes cumulativeMetrics internalType then "daily" else "none")).
  destruct (String.eqb_spec level "none") as [E|_].
  { destruct (Sql.valid_limit limit); [|discriminate].
    intros [= <-]. cbn [data_of]. intros Hl. unfold select_samples.
    rewrite limit_all.
    - apply Permutation_map, order_by_desc_perm.
    - now rewrite (Permutation_length (order_by_desc_perm metric_date matching)). }
  assert (Hlisted : forall with_min_max key response,
             (if Sql.valid_limit limit
              then Returned
                     (mkResponse type level None None
                        (Periods (map (period_of_row internalType
                                         (includes cumulativeMetrics internalType))
                                      (select_periods with_min_max key limit matching)))
                        (summary_of
                           (map (period_of_row internalType
                                   (includes cumulativeMetrics internalType))
                                (select_periods with_min_max key limit matching))
                           (fst range) (snd range)))
              else Thrown "SQLITE_MISMATCH: datatype mismatch") = Returned response ->
             level <> "total" ->
             match data_of response with
             | Samples listed =>
                 (limit < 0 \/ Z.of_nat (List.length matching) <= limit)%Z ->
                 Permutation listed (map (sample_of JSON_parses internalType) matching)
             | Periods listed =>
                 (limit < 0 \/ Z.of_nat (List.length matching) <= limit)%Z
                 \/ aggregation response = "total" ->
                 list_sum (map samples listed) = List.length matching
             end).
  { intros with_min_max key response' H N.
    destruct (Sql.valid_limit limit); [|discriminate].
    injection H as <-. cbn [data_of aggregation].
    intros [Hl|Ht]; [|contradiction].
    exact (proj2 (listed_counts internalType with_min_max
                    (fun r => (key r, metric_unit r)) limit matching) Hl). }
  destruct (String.eqb_spec level "daily") as [E|_].
  { intros H. apply (Hlisted _ _ _ H). rewrite E. discriminate. }
  destruct (String.eqb_spec level "weekly") as [E|_].
  { intros H. apply (Hlisted _ _ _ H). rewrite E. discriminate. }
  destruct (String.eqb_spec level "monthly") as [E|_].
  { intros H. apply (Hlisted _ _ _ H). rewrite E. discriminate. }
  destruct (String.eqb_spec level "yearly") as [E|_].
  { intros H. apply (Hlisted _ _ _ H). rewrite E. discriminate. }
  destruct (String.eqb_spec level "total") as [E|_]; [|discriminate].
  intros [= <-]. cbn [data_of]. intros _. apply total_counts.
Qed.

(** C8.  A step-count query, at every aggregation level, is answered from
    the rows of the requested range whose source is the real-time export,
    or the complete export with metadata that mentions a Watch.  No other
    row reaches the grouping: the answer is the one the kept rows alone
    give.  Every kept row does reach it: a returned answer lists the sample
    of each at level none, and counts each in its periods at the other
    levels, whenever the limit cuts nothing. *)
Theorem step_count_device_filter
    (week_key : option string -> option string) (today : string) (days_ago : Z -> string)
    (invalid_cutoff : Z -> bool) (JSON_parses : string -> bool)
    (accepted : Row -> bool) (table : list Row) (days limit : Z)
    (aggregate start_date end_date : option string) :
  (forall r, accepted r = true <-> from_realtime_or_watch r) ->
  let ask rows := getAppleHealthMetrics week_key today days_ago invalid_cutoff JSON_parses
                    rows "steps" days limit aggregate start_date end_date in
  let range := calculate_date_range today days_ago days start_date end_date in
  let kept := filter (fun r => String.eqb (metric_type r) "step_count"
                               && Sql.between (metric_date r) (fst range) (snd range)
                               && accepted r) table in
  ask table = ask kept
  /\ forall response,
       ask table = Returned response ->
       match data_of response with
       | Samples listed =>
           (limit < 0 \/ Z.of_nat (List.length kept) <= limit)%Z ->
           Permutation listed (map (sample_of JSON_parses "step_count") kept)
       | Periods listed =>
           (limit < 0 \/ Z.of_nat (List.length kept) <= limit)%Z
           \/ aggregation response = "total" ->
           list_sum (map samples listed) = List.length kept
       end.
Proof.
  intros Haccepted ask range kept.
  assert (Hkept : filter (where_clause "step_count" (fst range) (snd range)) table = kept).
  { apply filter_agree. intros r _. unfold where_clause. f_equal.
    apply eq_true_iff_eq. rewrite Haccepted. apply deviceFilter_steps. }
  split.
  - apply response_of_matching. intros internalType Hmap. cbv zeta.
    change (metricMap "steps") with (Some "step_count") in Hmap.
    injection Hmap as <-. fold range.
    symmetry. rewrite <- Hkept. apply filter_twice. tauto.
  - intros response H.
    pose proof (@answer_covers_matching week_key today days_ago invalid_cutoff JSON_parses
                  table "steps" "step_count" days limit aggregate start_date end_date
                  response eq_refl H) as C.
    cbv zeta in C. fold range in C. rewrite Hkept in C. exact C.
Qed.

(** C8 on the scenario of the specification, with a Watch added: the
    complete export of a phone and the real-time export report the same two
    minutes, the complete export of a Watch a third.  The daily total
    counts the two real-time samples and the Watch sample. *)
Lemma step_count_device_filter_witness :
  exists response listed,
    Run.query Inputs.step_sources "steps" 100 "daily" "2025-10-14" "2025-10-15"
    = Returned response
    /\ data_of response = Periods listed
    /\ list_sum (map samples listed) = 3%nat
    /\ map (fun p => (period p, Qeq_bool (value p) 62)) listed = [(Some "2025-10-14", true)].
Proof.
  destruct (Run.query Inputs.step_sources "steps" 100 "daily" "2025-10-14" "2025-10-15")
    as [response|message] eqn:E; [|vm_compute in E; discriminate E].
  destruct (@step_count_device_filter Run.no_week_key EmptyString (fun _ => EmptyString)
              (fun _ => false) (fun _ => true) realtime_or_watch Inputs.step_sources
              30 100 (Some "daily") (Some "2025-10-14") (Some "2025-10-15")
              realtime_or_watch_spec) as [_ T].
  specialize (T response E).
  pose proof E as E'. vm_compute in E'. injection E' as <-.
  cbn [data_of aggregation] in T.
  do 2 eexists. split; [reflexivity|]. split; [reflexivity|]. split.
  - etransitivity; [apply T; left; right; vm_compute; discriminate|].
    vm_compute. reflexivity.
  - vm_compute. reflexivity.
Defined.

(** * Further properties *)

(** ** Requests *)

Lemma metricMap_known (type : string) :
  In type api_names <-> exists internalType, metricMap type = Some internalType.
Proof.
  split.
  - intros H. repeat (destruct H as [<-|H]; [eexists; reflexivity|]). destruct H.
  - intros [k Hk]. unfold metricMap in Hk. unfold api_names.
    repeat match type of Hk with
           | (if String.eqb ?a ?b then _ else _) = _ =>
               destruct (String.eqb_spec a b) as [->|_]; [simpl; tauto|]
           end.
    discriminate.
Qed.

Lemma str_or_some (s d : string) : s <> EmptyString -> str_or (Some s) d = s.
Proof. destruct s; [congruence|reflexivity]. Qed.

Section Requests.

Variable week_key : option string -> option string.
Variable today : string.
Variable days_ago : Z -> string.
Variable invalid_cutoff : Z -> bool.
Variable JSON_parses : string -> bool.
Variable table : list Row.

Let ask := getAppleHealthMetrics week_key today days_ago invalid_cutoff JSON_parses table.

(** X1. A metric type that is none of the ten API names makes
    [getAppleHealthMetrics] throw instead of answering.  (A name inherited
    from [Object.prototype] is found in [metricMap] and takes another path;
    it is left out.) *)
Theorem unknown_metric_type_throws (type : string) (days limit : Z)
    (aggregate start_date end_date : option string) :
  ~ In type api_names ->
  prototype_names type = false ->
  exists message, ask type days limit aggregate start_date end_date = Thrown message.
Proof.
  intros H _. unfold ask, getAppleHealthMetrics.
  destruct (metricMap type) as [k|] eqn:E.
  - exfalso. apply H. apply metricMap_known. now exists k.
  - eexists. reflexivity.
Qed.

(** X2. For a known metric type, a non-empty [aggregate] parameter, a
    range that can be computed and a limit SQLite accepts,
    [getAppleHealthMetrics] answers exactly when the parameter is one of
    none, daily, weekly, monthly, yearly and total; the answer then names
    the requested type and level. *)
Theorem request_returns_iff_level_is_known (type level : string) (days limit : Z)
    (start_date end_date : option string) :
  In type api_names ->
  level <> EmptyString ->
  range_exists invalid_cutoff days start_date end_date ->
  Sql.valid_limit limit = true ->
  (exists response,
      ask type days limit (Some level) start_date end_date = Returned response
      /\ response_metric_type response = type
      /\ aggregation response = level)
  <-> In level levels.
Proof.
  intros Ht Hl Hrange Hvalid. apply metricMap_known in Ht. destruct Ht as [k Hk].
  apply range_guard in Hrange.
  unfold ask, getAppleHealthMetrics. rewrite Hk. cbv zeta.
  rewrite (str_or_some _ Hl), Hrange, Hvalid. unfold levels.
  destruct (String.eqb_spec level "none") as [->|N1];
    [split; [intros _; simpl; tauto | intros _; eexists; repeat split]|].
  destruct (String.eqb_spec level "daily") as [->|N2];
    [split; [intros _; simpl; tauto | intros _; eexists; repeat split]|].
  destruct (String.eqb_spec level "weekly") as [->|N3];
    [split; [intros _; simpl; tauto | intros _; eexists; repeat split]|].
  destruct (String.eqb_spec level "monthly") as [->|N4];
    [split; [intros _; simpl; tauto | intros _; eexists; repeat split]|].
  destruct (String.eqb_spec level "yearly") as [->|N5];
    [split; [intros _; simpl; tauto | intros _; eexists; repeat split]|].
  destruct (String.eqb_spec level "total") as [->|N6];
    [split; [intros _; simpl; tauto | intros _; eexists; repeat split]|].
  split.
  - intros (r & Hr & _). discriminate Hr.
  - simpl. intros H. repeat (destruct H as [H|H]; [congruence|]). destruct H.
Qed.

(** X3. Without an [aggregate] parameter (absent or empty), a request for
    a known metric type whose range can be computed and whose limit SQLite
    accepts is answered at the level daily for the five cumulative kinds
    and at the level none for the others. *)
Theorem default_level_by_kind (type : string) (days limit : Z)
    (aggregate start_date end_date : option string) :
  In type api_names ->
  str_truthy aggregate = false ->
  range_exists invalid_cutoff days start_date end_date ->
  Sql.valid_limit limit = true ->
  exists response,
    ask type days limit aggregate start_date end_date = Returned response
    /\ aggregation response
       = if includes cumulative_api_names type then "daily" else "none".
Proof.
  intros Ht Ha Hrange Hvalid. apply range_guard in Hrange.
  assert (Hagg : forall d, str_or aggregate d = d)
    by (intros d; destruct aggregate as [[|c s]|]; [reflexivity|discriminate|reflexivity]).
  unfold ask, getAppleHealthMetrics.
  repeat (destruct Ht as [<-|Ht];
          [cbn [metricMap String.eqb Ascii.eqb Bool.eqb]; cbv zeta;
           rewrite Hagg, Hrange, Hvalid; eexists; split; reflexivity|]).
  destruct Ht.
Qed.

(** X4. The shape of every answer of [getAppleHealthMetrics]: raw samples
    come at level none with their count and the requested days and without
    a summary; aggregated periods come at another level without those two
    fields, and with a summary exactly when there is a period, whose total
    and average are those of the reported values, rounded to cents. *)
Theorem response_is_well_formed (type : string) (days limit : Z)
    (aggregate start_date end_date : option string) (response : Response) :
  ask type days limit aggregate start_date end_date = Returned response ->
  match data_of response with
  | Samples l =>
      aggregation response = "none"
      /\ summary response = None
      /\ records_found response = Some (List.length l)
      /\ days_requested response = Some days
  | Periods l =>
      aggregation response <> "none"
      /\ records_found response = None
      /\ days_requested response = None
      /\ match l with
         | [] => summary response = None
         | _ :: _ =>
             summary response
             = Some (mkSummary (round2 (totalValue l))
                               (round2 (totalValue l / inject_Z (Z.of_nat (List.length l))))
                               (List.length l)
                               (calculate_date_range today days_ago days start_date end_date))
         end
  end.
Proof.
  unfold ask, getAppleHealthMetrics.
  destruct (metricMap type) as [k|]; [|discriminate]. cbv zeta.
  destruct (negb (str_truthy start_date && str_truthy end_date) && invalid_cutoff days);
    [discriminate|].
  set (level := str_or aggregate _).
  set (rg := calculate_date_range today days_ago days start_date end_date).
  assert (Hrg : (fst rg, snd rg) = rg) by (destruct rg; reflexivity).
  assert (Hsum : forall l : list Period,
             match l with
             | [] => summary_of l (fst rg) (snd rg) = None
             | _ :: _ =>
                 summary_of l (fst rg) (snd rg)
                 = Some (mkSummary (round2 (totalValue l))
                                   (round2 (totalValue l / inject_Z (Z.of_nat (List.length l))))
                                   (List.length l) rg)
             end).
  { intros [|p l]; [reflexivity|]. unfold summary_of. now rewrite Hrg. }
  destruct (String.eqb_spec level "none") as [E|N].
  - destruct (Sql.valid_limit limit); [|discriminate].
    intros H. injection H as <-. cbn. rewrite length_map. repeat split; try reflexivity. exact E.
  - repeat match goal with
           | |- (if String.eqb level ?x then _ else _) = _ -> _ =>
               destruct (String.eqb level x);
               [try (destruct (Sql.valid_limit limit); [|discriminate]);
                intros H; injection H as <-; cbn;
                repeat split; try reflexivity; try exact N; apply Hsum|]
           end.
    discriminate.
Qed.

(** X5. At level none, a request whose range can be computed and whose
    limit is a non-negative number SQLite accepts is answered with the
    matching rows up to [limit], newest first, each a stored row of the
    requested kind inside the requested range. *)
Theorem raw_samples_are_newest_first (type internalType : string) (days limit : Z)
    (start_date end_date : option string) :
  metricMap type = Some internalType ->
  range_exists invalid_cutoff days start_date end_date ->
  (0 <= limit)%Z ->
  Sql.valid_limit limit = true ->
  let range := calculate_date_range today days_ago days start_date end_date in
  let matching := filter (where_clause internalType (fst range) (snd range)) table in
  exists response samples,
    ask type days limit (Some "none") start_date end_date = Returned response
    /\ data_of response = Samples samples
    /\ List.length samples = Nat.min (Z.to_nat limit) (List.length matching)
    /\ Sorted (not_older recorded_date) samples
    /\ Forall (fun s => exists row, In row matching
                                    /\ recorded_date s = metric_date row
                                    /\ device s = metric_source row
                                    /\ Sql.between (recorded_date s) (fst range) (snd range) = true)
              samples.
Proof.
  intros Hmap Hrange Hlimit Hvalid range matching. apply range_guard in Hrange.
  unfold ask, getAppleHealthMetrics. rewrite Hmap. cbv zeta. rewrite Hrange, Hvalid.
  cbn [str_or String.eqb Ascii.eqb Bool.eqb]. fold range. fold matching.
  do 2 eexists. split; [reflexivity|]. split; [reflexivity|].
  unfold select_samples. split; [|split].
  - rewrite length_map, limit_length by exact Hlimit.
    now rewrite (Permutation_length (order_by_desc_perm metric_date matching)).
  - apply map_sorted with (R := not_older metric_date); [intros a b H; exact H|].
    apply limit_sorted, order_by_desc_sorted.
  - apply Forall_forall. intros s Hs. apply in_map_iff in Hs.
    destruct Hs as (row & <- & Hrow).
    apply limit_incl, order_by_desc_In in Hrow.
    exists row. split; [exact Hrow|]. split; [reflexivity|]. split; [reflexivity|].
    apply filter_In in Hrow. destruct Hrow as [_ Hw].
    unfold where_clause in Hw. apply andb_prop in Hw. destruct Hw as [Hw _].
    apply andb_prop in Hw. exact (proj2 Hw).
Qed.

(** X6. For every aggregation level other than none, a request whose range
    can be computed and whose limit SQLite accepts (the level total takes
    no limit) is answered with periods whose [samples] counts never add up
    to more than the matching rows: no row is counted twice.  They add up
    to exactly that number when the limit does not cut the period list, and
    always at level total. *)
Theorem periods_count_every_row_once (type internalType level : string) (days limit : Z)
    (start_date end_date : option string) :
  metricMap type = Some internalType ->
  In level ["daily"; "weekly"; "monthly"; "yearly"; "total"] ->
  range_exists invalid_cutoff days start_date end_date ->
  Sql.valid_limit limit = true \/ level = "total" ->
  let range := calculate_date_range today days_ago days start_date end_date in
  let matching := filter (where_clause internalType (fst range) (snd range)) table in
  exists response periods,
    ask type days limit (Some level) start_date end_date = Returned response
    /\ data_of response = Periods periods
    /\ (list_sum (map samples periods) <= List.length matching)%nat
    /\ ((limit < 0 \/ Z.of_nat (List.length matching) <= limit)%Z \/ level = "total" ->
        list_sum (map samples periods) = List.length matching).
Proof.
  intros Hmap Hlevel Hrange Hvalid range matching. apply range_guard in Hrange.
  unfold ask, getAppleHealthMetrics. rewrite Hmap. cbv zeta. rewrite Hrange.
  fold range. fold matching.
  simpl in Hlevel.
  destruct Hlevel as [<-|[<-|[<-|[<-|[<-|[]]]]]];
    try (destruct Hvalid as [Hvalid|Hvalid]; [rewrite Hvalid|discriminate Hvalid]);
    cbn [str_or String.eqb Ascii.eqb Bool.eqb];
    do 2 eexists; (split; [reflexivity|]); (split; [reflexivity|]).
  - destruct (listed_counts internalType true
                (fun r => (Sql.substr1 10 (metric_date r), metric_unit r)) limit matching)
      as [P1 P2].
    split; [exact P1 | intros [H|H]; [exact (P2 H) | discriminate H]].
  - destruct (listed_counts internalType false
                (fun r => (week_key (Sql.substr1 10 (metric_date r)), metric_unit r))
                limit matching) as [P1 P2].
    split; [exact P1 | intros [H|H]; [exact (P2 H) | discriminate H]].
  - destruct (listed_counts internalType false
                (fun r => (Sql.substr1 7 (metric_date r), metric_unit r)) limit matching)
      as [P1 P2].
    split; [exact P1 | intros [H|H]; [exact (P2 H) | discriminate H]].
  - destruct (listed_counts internalType false
                (fun r => (Sql.substr1 4 (metric_date r), metric_unit r)) limit matching)
      as [P1 P2].
    split; [exact P1 | intros [H|H]; [exact (P2 H) | discriminate H]].
  - pose proof (total_counts internalType matching) as T.
    split; [rewrite T; lia | intros _; exact T].
Qed.

(** X7. An answer of [getAppleHealthMetrics] depends on the stored rows of
    the requested kind only: deleting every other row changes nothing. *)
Theorem query_reads_its_own_kind (type internalType : string) (days limit : Z)
    (aggregate start_date end_date : option string) :
  metricMap type = Some internalType ->
  ask type days limit aggregate start_date end_date
  = getAppleHealthMetrics week_key today days_ago invalid_cutoff JSON_parses
      (filter (fun r => String.eqb (metric_type r) internalType) table)
      type days limit aggregate start_date end_date.
Proof.
  intros Hmap. apply response_of_matching. intros k Hk. cbv zeta.
  rewrite Hmap in Hk. injection Hk as <-.
  symmetry. apply filter_twice. intros r Hr.
  unfold where_clause in Hr. apply andb_prop in Hr. destruct Hr as [Hr _].
  apply andb_prop in Hr. exact (proj1 Hr).
Qed.

End Requests.

(** X1 on a request for blood-pressure. *)
Lemma unknown_metric_type_throws_witness :
  exists message,
    getAppleHealthMetrics Run.no_week_key "2025-10-14" (fun _ => "2025-10-07")
      (fun _ => false) (fun _ => true)
      Inputs.two_readings "blood-pressure" 7 100 None None None = Thrown message.
Proof.
  refine (@unknown_metric_type_throws Run.no_week_key "2025-10-14" (fun _ => "2025-10-07")
            (fun _ => false) (fun _ => true)
            Inputs.two_readings "blood-pressure" 7 100 None None None _ _);
    [|reflexivity].
  unfold api_names. simpl. intuition discriminate.
Defined.

(** X2 on a monthly request for the heart rate. *)
Lemma request_returns_iff_level_is_known_witness :
  exists response,
    getAppleHealthMetrics Run.no_week_key "2025-10-14" (fun _ => "2025-10-07")
      (fun _ => false) (fun _ => true)
      Inputs.two_readings "heart-rate" 7 100 (Some "monthly") None None = Returned response
    /\ response_metric_type response = "heart-rate"
    /\ aggregation response = "monthly".
Proof.
  refine (proj2 (@request_returns_iff_level_is_known Run.no_week_key "2025-10-14"
                   (fun _ => "2025-10-07")
                   (fun _ => false) (fun _ => true) Inputs.two_readings "heart-rate" "monthly"
                   7 100 None None _ _ _ _) _).
  - simpl. tauto.
  - discriminate.
  - right. reflexivity.
  - reflexivity.
  - simpl. tauto.
Defined.

(** X3 on a heart-rate request with an empty [aggregate]. *)
Lemma default_level_by_kind_witness :
  exists response,
    getAppleHealthMetrics Run.no_week_key "2025-10-14" (fun _ => "2025-10-07")
      (fun _ => false) (fun _ => true)
      Inputs.two_readings "heart-rate" 7 100 (Some EmptyString) None None = Returned response
    /\ aggregation response = "none".
Proof.
  refine (@default_level_by_kind Run.no_week_key "2025-10-14" (fun _ => "2025-10-07")
            (fun _ => false) (fun _ => true)
            Inputs.two_readings "heart-rate" 7 100 (Some EmptyString) None None _ _ _ _).
  - simpl. tauto.
  - reflexivity.
  - right. reflexivity.
  - reflexivity.
Defined.

(** X4 on the raw listing of two readings. *)
Lemma response_is_well_formed_witness :
  exists response,
    getAppleHealthMetrics Run.no_week_key "2025-10-15" (fun _ => "2025-10-08")
      (fun _ => false) (fun _ => true)
      Inputs.two_readings "heart-rate" 7 100 (Some "none") None None = Returned response
    /\ records_found response = Some 2%nat
    /\ days_requested response = Some 7%Z.
Proof.
  eexists. split; [reflexivity|].
  pose proof (@response_is_well_formed Run.no_week_key "2025-10-15" (fun _ => "2025-10-08")
                (fun _ => false) (fun _ => true)
                Inputs.two_readings "heart-rate" 7 100 (Some "none") None None _ eq_refl)
    as H.
  cbv in H. destruct H as (_ & _ & H3 & H4). split; [exact H3|exact H4].
Defined.

(** X5 on two readings and a limit of one: the later one is listed. *)
Lemma raw_samples_are_newest_first_witness :
  exists response samples,
    getAppleHealthMetrics Run.no_week_key "2025-10-15" (fun _ => "2025-10-08")
      (fun _ => false) (fun _ => true)
      Inputs.two_readings "heart-rate" 7 1 (Some "none") None None = Returned response
    /\ data_of response = Samples samples
    /\ List.map recorded_date samples = [Some "2025-10-14 08:05:00 +0100"].
Proof.
  pose proof (@raw_samples_are_newest_first Run.no_week_key "2025-10-15"
                (fun _ => "2025-10-08")
                (fun _ => false) (fun _ => true) Inputs.two_readings "heart-rate" "heart_rate"
                7 1 None None eq_refl (or_intror eq_refl)) as H.
  cbv zeta in H.
  destruct H as (response & samples & H1 & H2 & _); [discriminate|reflexivity|].
  exists response, samples. split; [exact H1|]. split; [exact H2|].
  cbv in H1. injection H1 as <-. cbv in H2. injection H2 as <-. reflexivity.
Defined.

(** X6 on the daily rollup of two readings. *)
Lemma periods_count_every_row_once_witness :
  exists response periods,
    getAppleHealthMetrics Run.no_week_key "2025-10-15" (fun _ => "2025-10-08")
      (fun _ => false) (fun _ => true)
      Inputs.two_readings "heart-rate" 7 100 (Some "daily") None None = Returned response
    /\ data_of response = Periods periods
    /\ list_sum (List.map samples periods) = 2%nat.
Proof.
  pose proof (@periods_count_every_row_once Run.no_week_key "2025-10-15"
                (fun _ => "2025-10-08")
                (fun _ => false) (fun _ => true) Inputs.two_readings "heart-rate" "heart_rate"
                "daily" 7 100 None None eq_refl (or_introl eq_refl) (or_intror eq_refl)
                (or_introl eq_refl)) as H.
  cbv zeta in H. destruct H as (response & periods & H1 & H2 & _ & H4).
  exists response, periods. split; [exact H1|]. split; [exact H2|].
  apply H4. left. right. vm_compute. discriminate.
Defined.

(** X7 on a table with a step sample and a heart-rate reading. *)
Lemma query_reads_its_own_kind_witness :
  getAppleHealthMetrics Run.no_week_key "2025-10-15" (fun _ => "2025-10-08")
    (fun _ => false) (fun _ => true)
    Inputs.two_kinds "steps" 7 100 None None None
  = getAppleHealthMetrics Run.no_week_key "2025-10-15" (fun _ => "2025-10-08")
      (fun _ => false) (fun _ => true)
      [mkRow 1 "step_count" "health_auto_export" (Some "2025-10-14 08:00:00 +0100")
             (Some 120) (Some "count") None "t" (Some 120)]
      "steps" 7 100 None None None.
Proof.
  exact (@query_reads_its_own_kind Run.no_week_key "2025-10-15" (fun _ => "2025-10-08")
           (fun _ => false) (fun _ => true)
           Inputs.two_kinds "steps" "step_count" 7 100 None None None eq_refl).
Defined.

(** ** What a call may do to the sample table *)

Section WriterInvariants.

Variable uniq : list Unique.
Variable JSON_stringify : json -> string.
Variable now : string.

(** A property of the sample table that every write of the ingestion path
    keeps. *)
Variable Inv : list Row -> Prop.

(** The kinds the payload at hand can write. *)
Variable Written : string -> Prop.

Hypothesis Inv_write :
  forall tbl type date value unit additionalData,
    Written type ->
    Inv tbl ->
    Inv (insert_or_ignore uniq tbl
           (metric_row JSON_stringify now tbl type "health_auto_export"
                       date value unit additionalData)).

Lemma for_of_keeps (A : Type) (body : A -> nat -> M nat) (xs : list A) :
  (forall x n db, In x xs ->
                  Inv (health_metrics db) -> Inv (health_metrics (fst (body x n db)))) ->
  forall n db, Inv (health_metrics db) -> Inv (health_metrics (fst (for_of xs body n db))).
Proof.
  induction xs as [|x xs IH]; intros Hbody n db H; [exact H|].
  simpl. unfold bind. pose proof (Hbody x n db (or_introl eq_refl) H) as Hx.
  destruct (body x n db) as [db1 [n1|e]]; simpl in *.
  - apply IH; [|exact Hx]. intros y k d Hy. apply Hbody. now right.
  - exact Hx.
Qed.

Lemma save_point_keeps (m : Metric) (x : option DataPoint) (n : nat) (db : DB) :
  Written (name m) ->
  Inv (health_metrics db) ->
  Inv (health_metrics (fst (save_point uniq JSON_stringify now m x n db))).
Proof.
  intros Hm H. destruct x as [p|]; [|exact H].
  destruct (save_point_some uniq JSON_stringify now m p n db) as (v & a & ->).
  simpl. now apply Inv_write.
Qed.

Lemma save_metric_keeps (x : option Metric) (n : nat) (db : DB) :
  (forall m, x = Some m -> Written (name m)) ->
  Inv (health_metrics db) ->
  Inv (health_metrics (fst (save_metric uniq JSON_stringify now x n db))).
Proof.
  intros Hm H. destruct x as [m|]; [|exact H].
  unfold save_metric, bind, deref, ret.
  destruct (data m) as [points|]; [|exact H].
  apply for_of_keeps; [|exact H]. intros. apply save_point_keeps; [now apply Hm|assumption].
Qed.

Lemma save_workout_keeps (x : option Workout) (n : nat) (db : DB) :
  (forall w, x = Some w -> Written ("workout_" ++ workout_name w)) ->
  Inv (health_metrics db) ->
  Inv (health_metrics (fst (save_workout uniq JSON_stringify now x n db))).
Proof.
  intros Hw H. destruct x as [w|]; [|exact H]. simpl. apply Inv_write; [now apply Hw|exact H].
Qed.

(** The whole call keeps it, whether it returns or throws. *)
Lemma call_keeps (payload : Payload) (db : DB) :
  (forall ms m, metrics payload = Some ms -> In (Some m) ms -> Written (name m)) ->
  (forall ws w, workouts payload = Some ws -> In (Some w) ws ->
                Written ("workout_" ++ workout_name w)) ->
  Inv (health_metrics db) ->
  Inv (health_metrics (fst (saveAutoExportData uniq JSON_stringify now payload db))).
Proof.
  intros Hms Hws H.
  unfold saveAutoExportData, try_block, bind, insert_import.
  set (db1 := mkDB (health_metrics db) _ (health_sync_log db)).
  assert (H1 : Inv (health_metrics db1)) by exact H.
  set (loop1 := match metrics payload with
                | Some ms => for_of ms (save_metric uniq JSON_stringify now) O
                | None => ret O
                end).
  assert (K1 : Inv (health_metrics (fst (loop1 db1)))).
  { unfold loop1. destruct (metrics payload) as [ms|]; [|exact H1].
    apply for_of_keeps; [|exact H1]. intros x k d Hx Hd.
    apply save_metric_keeps; [|exact Hd]. intros m ->. exact (Hms ms m eq_refl Hx). }
  destruct (loop1 db1) as [db2 [n|e]]; simpl in K1; [|exact K1].
  set (loop2 := match workouts payload with
                | Some ws => for_of ws (save_workout uniq JSON_stringify now) O
                | None => ret O
                end).
  assert (K2 : Inv (health_metrics (fst (loop2 db2)))).
  { unfold loop2. destruct (workouts payload) as [ws|]; [|exact K1].
    apply for_of_keeps; [|exact K1]. intros x k d Hx Hd.
    apply save_workout_keeps; [|exact Hd]. intros w ->. exact (Hws ws w eq_refl Hx). }
  destruct (loop2 db2) as [db3 [k|e]]; simpl in K2; exact K2.
Qed.

End WriterInvariants.

Lemma rowid_below_next (tbl : list Row) (r : Row) :
  In r tbl -> (rowid r < next_rowid tbl)%nat.
Proof.
  unfold next_rowid. induction tbl as [|x tbl IH]; [intros []|].
  simpl. intros [->|H]; [lia|]. specialize (IH H). lia.
Qed.

(** X8. [saveAutoExportData] only appends to [health_metrics], whether it
    returns or throws, and whatever UNIQUE constraints the table has: the
    rows it found are still there, unchanged and in place, and each added
    row has the source health_auto_export and, when its value is a number,
    the converted value [saveHealthMetric] computes from that number. *)
Theorem ingestion_only_appends
    (uniq : list Unique) (JSON_stringify : json -> string) (now : string)
    (payload : Payload) (db : DB) :
  exists added,
    health_metrics (fst (saveAutoExportData uniq JSON_stringify now payload db))
    = (health_metrics db ++ added)%list
    /\ Forall (fun r => metric_source r = "health_auto_export"
                        /\ forall v, metric_value r = Some v ->
                                     metric_value_converted r
                                     = convertedValue (metric_type r) (Some v) (metric_unit r))
              added.
Proof.
  apply (@call_keeps uniq JSON_stringify now
           (fun tbl => exists added,
                tbl = (health_metrics db ++ added)%list
                /\ Forall (fun r => metric_source r = "health_auto_export"
                                    /\ forall v, metric_value r = Some v ->
                                                 metric_value_converted r
                                                 = convertedValue (metric_type r) (Some v)
                                                                  (metric_unit r)) added)
           (fun _ => True)).
  - intros tbl type date value unit a _ (added & -> & Hall).
    unfold insert_or_ignore. destruct (collides uniq _ _).
    + now exists added.
    + eexists. rewrite <- app_assoc. split; [reflexivity|].
      apply Forall_app. split; [exact Hall|]. constructor; [|constructor].
      split; [reflexivity|]. intros v Hv. cbn in Hv |- *. now rewrite Hv.
  - intros; exact I.
  - intros; exact I.
  - exists []. rewrite app_nil_r. split; [reflexivity|constructor].
Qed.

(** X9. The row ids of [health_metrics] stay pairwise distinct through a
    call of [saveAutoExportData]. *)
Theorem row_ids_stay_distinct
    (uniq : list Unique) (JSON_stringify : json -> string) (now : string)
    (payload : Payload) (db : DB) :
  NoDup (map rowid (health_metrics db)) ->
  NoDup (map rowid (health_metrics
                      (fst (saveAutoExportData uniq JSON_stringify now payload db)))).
Proof.
  apply (@call_keeps uniq JSON_stringify now (fun tbl => NoDup (map rowid tbl))
                     (fun _ => True)); try (intros; exact I).
  intros tbl type date value unit a _ Hnd.
  unfold insert_or_ignore. destruct (collides uniq _ _); [exact Hnd|].
  rewrite map_app. simpl. apply NoDup_app; [exact Hnd|repeat constructor; intros []|].
  intros x Hx [<-|[]]. apply in_map_iff in Hx. destruct Hx as (r & Hr & Hin).
  apply rowid_below_next in Hin. unfold metric_row in Hr. simpl in Hr. lia.
Qed.

(** X9 on the batch with two samples of one timestamp. *)
Lemma row_ids_stay_distinct_witness :
  NoDup (List.map rowid (health_metrics (fst (Run.ingest "t" Scenario.clash empty_db)))).
Proof.
  unfold Run.ingest. apply row_ids_stay_distinct. constructor.
Defined.

(** ** The audit tables *)

Section AuditFacts.

Variable uniq : list Unique.
Variable JSON_stringify : json -> string.
Variable now : string.

Let call := saveAutoExportData uniq JSON_stringify now.

(** The audit tables after a call, in full. *)
Lemma audit_after_call (payload : Payload) (db : DB) :
  match snd (call payload db) with
  | Returned result =>
      audit (fst (call payload db))
      = ((apple_health_auto_export db ++ [entry_record now payload db])%list,
         (health_sync_log db
          ++ [mkSync "health_auto_export" now "success"
                     (metricsStored result + workoutsStored result) None])%list)
      /\ importId result = next_import_id (apple_health_auto_export db)
      /\ timestamp result = now
  | Thrown message =>
      audit (fst (call payload db))
      = ((apple_health_auto_export db
          ++ [entry_record now payload db; error_record now payload db message])%list,
         (health_sync_log db
          ++ [mkSync "health_auto_export" now "error" O (Some message)])%list)
  end.
Proof.
  unfold call, saveAutoExportData, try_block, bind, insert_import.
  fold (entry_record now payload db).
  set (db1 := mkDB (health_metrics db) _ (health_sync_log db)).
  set (loop1 := match metrics payload with
                | Some ms => for_of ms (save_metric uniq JSON_stringify now) O
                | None => ret O
                end).
  assert (A1 : audit (fst (loop1 db1)) = audit db1).
  { unfold loop1. destruct (metrics payload); [|reflexivity].
    apply for_of_audit. intros. apply save_metric_audit. }
  destruct (loop1 db1) as [db2 [n|e]]; simpl in A1.
  - set (loop2 := match workouts payload with
                  | Some ws => for_of ws (save_workout uniq JSON_stringify now) O
                  | None => ret O
                  end).
    assert (A2 : audit (fst (loop2 db2)) = audit db2).
    { unfold loop2. destruct (workouts payload); [|reflexivity].
      apply for_of_audit. intros. apply save_workout_audit. }
    destruct (loop2 db2) as [db3 [k|e]]; simpl in A2;
      unfold audit in A1, A2; injection A1 as I1 S1; injection A2 as I2 S2; simpl.
    + unfold audit. simpl. rewrite I2, I1, S2, S1. repeat split.
    + unfold audit, error_record. simpl. rewrite I2, I1, S2, S1, <- app_assoc. reflexivity.
  - unfold audit in A1. injection A1 as I1 S1.
    unfold audit, error_record. simpl. rewrite I1, S1, <- app_assoc. reflexivity.
Qed.

End AuditFacts.

Lemma import_id_below_next (tbl : list ImportRecord) (r : ImportRecord) :
  In r tbl -> (import_id r < next_import_id tbl)%nat.
Proof.
  unfold next_import_id. induction tbl as [|x tbl IH]; [intros []|].
  simpl. intros [->|H]; [lia|]. specialize (IH H). lia.
Qed.

(** X10. The [importId] a successful call returns is the id of the one
    import record the call added; it is larger than every id the table
    held, and the record holds the payload and the lengths of its two
    arrays. *)
Theorem returned_import_id_names_the_new_record
    (uniq : list Unique) (JSON_stringify : json -> string) (now : string)
    (payload : Payload) (db : DB) (result : Result) :
  snd (saveAutoExportData uniq JSON_stringify now payload db) = Returned result ->
  exists record,
    apple_health_auto_export (fst (saveAutoExportData uniq JSON_stringify now payload db))
    = (apple_health_auto_export db ++ [record])%list
    /\ import_id record = importId result
    /\ (forall old, In old (apple_health_auto_export db) ->
                    (import_id old < importId result)%nat)
    /\ status record = "success"
    /\ payload_json record = payload
    /\ metrics_count record = length_or_zero (metrics payload)
    /\ workouts_count record = length_or_zero (workouts payload).
Proof.
  intros H. pose proof (audit_after_call uniq JSON_stringify now payload db) as A.
  cbv zeta in A. rewrite H in A. destruct A as (Ha & Hid & _).
  apply (f_equal fst) in Ha. simpl in Ha.
  exists (entry_record now payload db). split; [exact Ha|].
  split; [now rewrite Hid|]. split; [|repeat split].
  intros old Hold. rewrite Hid. now apply import_id_below_next.
Qed.

(** X10 on the first call into an empty store. *)
Lemma returned_import_id_names_the_new_record_witness :
  exists record,
    apple_health_auto_export (fst (Run.ingest "t" Scenario.single empty_db)) = [record]
    /\ import_id record = 1%nat
    /\ status record = "success".
Proof.
  unfold Run.ingest.
  destruct (@returned_import_id_names_the_new_record createTables_unique Run.json_text "t"
              Scenario.single empty_db _ eq_refl) as (record & H1 & H2 & _ & H4 & _).
  exists record. split; [exact H1|]. split; [exact H2|exact H4].
Defined.

(** X11. Every call of [saveAutoExportData] adds exactly one line to
    [health_sync_log]: success with the number of stored samples when it
    returns, error with the message when it throws. *)
Theorem every_call_logs_one_sync
    (uniq : list Unique) (JSON_stringify : json -> string) (now : string)
    (payload : Payload) (db : DB) :
  let after := saveAutoExportData uniq JSON_stringify now payload db in
  health_sync_log (fst after)
  = (health_sync_log db
     ++ [match snd after with
         | Returned result =>
             mkSync "health_auto_export" now "success"
                    (metricsStored result + workoutsStored result) None
         | Thrown message =>
             mkSync "health_auto_export" now "error" O (Some message)
         end])%list.
Proof.
  cbv zeta. pose proof (audit_after_call uniq JSON_stringify now payload db) as A.
  cbv zeta in A.
  destruct (snd (saveAutoExportData uniq JSON_stringify now payload db)) as [r|e].
  - destruct A as (Ha & _). exact (f_equal snd Ha).
  - exact (f_equal snd A).
Qed.

(** ** Partial writes *)

Lemma for_of_app (A : Type) (body : A -> nat -> M nat) (l1 l2 : list A) (n : nat) (db : DB) :
  for_of (l1 ++ l2) body n db
  = match for_of l1 body n db with
    | (db', Returned n') => for_of l2 body n' db'
    | (db', Thrown e) => (db', Thrown e)
    end.
Proof.
  revert n db. induction l1 as [|x l1 IH]; intros n db; [reflexivity|].
  simpl. unfold bind. destruct (body x n db) as [db1 [n1|e]]; [apply IH|reflexivity].
Qed.

Lemma no_null_map_Some (A : Type) (l : list A) : no_null (map Some l).
Proof.
  induction l; constructor; [discriminate|assumption].
Qed.

Lemma flat_map_present (A B : Type) (f : A -> B) (l : list A) :
  flat_map (fun x => match x with
                     | Some a => [f a]
                     | None => []
                     end) (map Some l)
  = map f l.
Proof.
  induction l as [|a l IH]; [reflexivity|]. simpl. now rewrite IH.
Qed.

(** X12. The first null data point of a payload stops the call where it
    stands, in whichever metric it is: when the metrics before it hold no
    null, the call throws the TypeError of reading [date], the data points
    of those metrics and the ones before the null in its own metric stay
    stored, and nothing after it (the rest of the metric, the later
    metrics, the workouts) is written. *)
Theorem rows_before_a_null_are_kept
    (JSON_stringify : json -> string) (now : string)
    (earlier : list (option Metric)) (kind : string) (units : option string)
    (before : list DataPoint) (after : list (option DataPoint))
    (others : list (option Metric)) (wks : option (list (option Workout))) (db : DB) :
  no_nulls (mkPayload (Some earlier) None) ->
  let metric := mkMetric kind units (Some (map Some before ++ None :: after)%list) in
  let payload := mkPayload (Some (earlier ++ Some metric :: others)%list) wks in
  let result := saveAutoExportData createTables_unique JSON_stringify now payload db in
  snd result = Thrown "Cannot read properties of null (reading 'date')"
  /\ map stamp (health_metrics (fst result))
     = (map stamp (health_metrics db) ++ metric_stamps (Some earlier)
        ++ map (fun p => (kind, date p)) before)%list.
Proof.
  intros [[Hnull Hpoints] _]. cbn [metrics] in Hnull, Hpoints. cbv zeta.
  unfold saveAutoExportData, try_block, bind, insert_import.
  cbn [metrics workouts].
  set (db1 := mkDB (health_metrics db) _ (health_sync_log db)).
  set (metric := mkMetric kind units (Some (map Some before ++ None :: after)%list)).
  assert (Hmetric : forall n d,
             save_metric createTables_unique JSON_stringify now (Some metric) n d
             = (fst (for_of (map Some before)
                            (save_point createTables_unique JSON_stringify now metric) n d),
                Thrown "Cannot read properties of null (reading 'date')")).
  { intros n d. unfold save_metric, bind, deref, ret. cbn [data metric].
    rewrite for_of_app.
    destruct (points_loop createTables_unique JSON_stringify now metric
                          (no_null_map_Some before) n d) as [Hn _].
    destruct (for_of (map Some before) _ n d) as [d' out]. simpl in Hn. subst out.
    reflexivity. }
  destruct (metrics_loop createTables_unique JSON_stringify now Hnull Hpoints O db1)
    as [Hn1 Hr1].
  cbv zeta in Hn1, Hr1. rewrite for_of_app.
  destruct (for_of earlier (save_metric createTables_unique JSON_stringify now) O db1)
    as [db2 out].
  cbn [fst snd] in Hn1, Hr1. subst out.
  cbn [for_of]. unfold bind. rewrite Hmetric. cbn [fst snd catch_block].
  split; [reflexivity|].
  destruct (points_loop createTables_unique JSON_stringify now metric
                        (no_null_map_Some before)
                        (0 + List.length (metric_stamps (Some earlier)))%nat db2) as [_ Hr].
  cbv zeta in Hr. unfold catch_block, bind, insert_import, logSync, update, throw.
  cbn [fst snd health_metrics].
  rewrite (Hr eq_refl), (Hr1 eq_refl), <- app_assoc. do 2 f_equal.
  apply (flat_map_present (fun p => (kind, date p))).
Qed.

(** X12 on a batch of two metrics, the null in the second: the heart-rate
    reading and the first step sample are stored, the sample after the null
    and the workout are not. *)
Lemma rows_before_a_null_are_kept_witness :
  let result :=
    Run.ingest "t"
      (mkPayload
         (Some [Some (mkMetric "heart_rate" (Some "count/min")
                               (Some [Run.point (Some "2025-10-11 08:00:00 +0100") 61
                                                "Apple Watch"]));
                Some (mkMetric "step_count" (Some "count")
                               (Some [Run.point (Some "2025-10-11 08:14:00 +0100") 12
                                                "Apple Watch";
                                      None;
                                      Run.point (Some "2025-10-11 08:15:00 +0100") 30
                                                "Apple Watch"]))])
         (Some [Some (mkWorkout "Running" (Some "2025-10-11 09:00:00 +0100") None None
                                None None None)]))
      empty_db in
  snd result = Thrown "Cannot read properties of null (reading 'date')"
  /\ map stamp (health_metrics (fst result))
     = [("heart_rate", Some "2025-10-11 08:00:00 +0100");
        ("step_count", Some "2025-10-11 08:14:00 +0100")].
Proof.
  cbv zeta. unfold Run.ingest, Run.point.
  apply (@rows_before_a_null_are_kept Run.json_text "t"
           [Some (mkMetric "heart_rate" (Some "count/min")
                           (Some [Some (mkPoint (Some "2025-10-11 08:00:00 +0100") (Some 61)
                                                (Some "Apple Watch") None None None None
                                                None None None None None None None None
                                                None)]))]
           "step_count" (Some "count")
           [mkPoint (Some "2025-10-11 08:14:00 +0100") (Some 12) (Some "Apple Watch")
                    None None None None None None None None None None None None None]
           [Some (mkPoint (Some "2025-10-11 08:15:00 +0100") (Some 30) (Some "Apple Watch")
                          None None None None None None None None None None None None None)]
           [] _ empty_db).
  split; [|exact I].
  split; repeat constructor; discriminate.
Defined.

(** ** Ingestion against queries *)

Section OtherKinds.

Variable week_key : option string -> option string.
Variable today : string.
Variable days_ago : Z -> string.
Variable invalid_cutoff : Z -> bool.
Variable JSON_parses : string -> bool.

(** X13. Ingesting a payload that has no metric of the queried kind leaves
    every answer for that kind as it was, whether the call returns or
    throws. *)
Theorem ingesting_other_kinds_changes_no_answer
    (uniq : list Unique) (JSON_stringify : json -> string) (now : string)
    (payload : Payload) (db : DB)
    (type internalType : string) (days limit : Z)
    (aggregate start_date end_date : option string) :
  metricMap type = Some internalType ->
  (forall ms m, metrics payload = Some ms -> In (Some m) ms -> name m <> internalType) ->
  getAppleHealthMetrics week_key today days_ago invalid_cutoff JSON_parses
    (health_metrics (fst (saveAutoExportData uniq JSON_stringify now payload db)))
    type days limit aggregate start_date end_date
  = getAppleHealthMetrics week_key today days_ago invalid_cutoff JSON_parses (health_metrics db)
      type days limit aggregate start_date end_date.
Proof.
  intros Hmap Hnames. apply response_of_matching. intros k Hk. cbv zeta.
  rewrite Hmap in Hk. injection Hk as <-.
  set (s := fst _). set (e := snd _).
  apply (@call_keeps uniq JSON_stringify now
           (fun tbl => filter (where_clause internalType s e) tbl
                       = filter (where_clause internalType s e) (health_metrics db))
           (fun t => t <> internalType)).
  - intros tbl t d v u a Ht Hinv. unfold insert_or_ignore.
    destruct (collides uniq _ _); [exact Hinv|].
    rewrite filter_app, Hinv. simpl.
    unfold where_clause at 2. cbn [metric_type metric_row].
    apply String.eqb_neq in Ht. rewrite Ht. simpl. apply app_nil_r.
  - exact Hnames.
  - intros ws w _ _.
    revert Hmap. unfold metricMap.
    repeat match goal with
           | |- (if ?c then _ else _) = _ -> _ => destruct c
           end; intros H; try discriminate H; injection H as <-; discriminate.
  - reflexivity.
Qed.

End OtherKinds.

(** X13 on a step batch and a heart-rate query. *)
Lemma ingesting_other_kinds_changes_no_answer_witness :
  getAppleHealthMetrics Run.no_week_key "2025-10-14" (fun _ => "2025-10-07")
    (fun _ => false) (fun _ => true)
    (health_metrics (fst (Run.ingest "t" Scenario.single empty_db)))
    "heart-rate" 7 100 None None None
  = getAppleHealthMetrics Run.no_week_key "2025-10-14" (fun _ => "2025-10-07")
      (fun _ => false) (fun _ => true)
      (health_metrics empty_db) "heart-rate" 7 100 None None None.
Proof.
  unfold Run.ingest.
  apply ingesting_other_kinds_changes_no_answer with (internalType := "heart_rate");
    [reflexivity|].
  intros ms m Hms Hin. unfold Scenario.single, Scenario.steps in Hms. simpl in Hms.
  injection Hms as <-. destruct Hin as [H|[]]. injection H as <-. discriminate.
Defined.

(** ** The audit queries *)

Lemma sum_column_app (xs ys : list nat) :
  ys <> [] ->
  sum_column (xs ++ ys) = Some (count_of (sum_column xs) + list_sum ys)%nat.
Proof.
  intros Hy. destruct xs as [|x xs].
  - destruct ys; [congruence|reflexivity].
  - simpl. f_equal. rewrite list_sum_app. lia.
Qed.

(** X14. What a call of [saveAutoExportData] does to the statistics of
    [getAutoExportStats]: one more successful import and the payload's
    array lengths added to the totals, in every case; when the call throws,
    one failed import besides, so that the failed call counts as two
    imports, one of them successful. *)
Theorem stats_after_a_call
    (uniq : list Unique) (JSON_stringify : json -> string) (now : string)
    (payload : Payload) (db : DB) :
  let result := saveAutoExportData uniq JSON_stringify now payload db in
  let before := getAutoExportStats db in
  let after := getAutoExportStats (fst result) in
  let failed := match snd result with
                | Returned _ => O
                | Thrown _ => 1%nat
                end in
  total_imports after = (total_imports before + 1 + failed)%nat
  /\ successful_imports after = Some (count_of (successful_imports before) + 1)%nat
  /\ failed_imports after = Some (count_of (failed_imports before) + failed)%nat
  /\ total_metrics after
     = Some (count_of (total_metrics before) + length_or_zero (metrics payload))%nat
  /\ total_workouts after
     = Some (count_of (total_workouts before) + length_or_zero (workouts payload))%nat.
Proof.
  cbv zeta. pose proof (audit_after_call uniq JSON_stringify now payload db) as A.
  cbv zeta in A. unfold getAutoExportStats.
  destruct (snd (saveAutoExportData uniq JSON_stringify now payload db)) as [r|e].
  - destruct A as (Ha & _). apply (f_equal fst) in Ha. simpl in Ha. rewrite Ha.
    cbn [total_imports successful_imports failed_imports total_metrics total_workouts].
    rewrite !map_app, !sum_column_app by discriminate. rewrite length_app.
    unfold entry_record, error_record, case_status. simpl. repeat split; try lia; f_equal; lia.
  - apply (f_equal fst) in A. simpl in A. rewrite A.
    cbn [total_imports successful_imports failed_imports total_metrics total_workouts].
    rewrite !map_app, !sum_column_app by discriminate. rewrite length_app.
    unfold entry_record, error_record, case_status. simpl. repeat split; try lia; f_equal; lia.
Qed.

(** X15. [getRecentAutoExportData] lists the import records whose
    timestamp is not before the cutoff, each once, newest first. *)
Theorem recent_imports_are_newest_first (cutoffDateStr : string) (db : DB) :
  let listed := getRecentAutoExportData cutoffDateStr db in
  Sorted (not_older (fun r => Some (import_timestamp r))) listed
  /\ Permutation listed
       (filter (fun r => Sql.text_le cutoffDateStr (import_timestamp r))
               (apple_health_auto_export db)).
Proof.
  cbv zeta. split; [apply order_by_desc_sorted | apply order_by_desc_perm].
Qed.

(** X16. After a call of [saveAutoExportData], returned or thrown, the
    listing of recent imports holds a record of that call with its payload
    and the status success, for every cutoff not after the call. *)
Theorem a_call_is_listed_as_recent
    (uniq : list Unique) (JSON_stringify : json -> string) (now cutoffDateStr : string)
    (payload : Payload) (db : DB) :
  Sql.text_le cutoffDateStr now = true ->
  exists record,
    In record (getRecentAutoExportData cutoffDateStr
                 (fst (saveAutoExportData uniq JSON_stringify now payload db)))
    /\ import_timestamp record = now
    /\ payload_json record = payload
    /\ status record = "success".
Proof.
  intros Hc. exists (entry_record now payload db). split; [|repeat split].
  unfold getRecentAutoExportData. apply order_by_desc_In. apply filter_In.
  split; [|exact Hc].
  pose proof (audit_after_call uniq JSON_stringify now payload db) as A. cbv zeta in A.
  destruct (snd (saveAutoExportData uniq JSON_stringify now payload db)) as [r|e].
  - destruct A as (Ha & _). apply (f_equal fst) in Ha. simpl in Ha. rewrite Ha.
    apply in_or_app. right. now left.
  - apply (f_equal fst) in A. simpl in A. rewrite A.
    apply in_or_app. right. now left.
Qed.

(** X16 on a call a week after the cutoff. *)
Lemma a_call_is_listed_as_recent_witness :
  exists record,
    In record (getRecentAutoExportData "2025-10-07T08:00:00.000Z"
                 (fst (Run.ingest "2025-10-14T08:00:00.000Z" Scenario.single empty_db)))
    /\ import_timestamp record = "2025-10-14T08:00:00.000Z"
    /\ status record = "success".
Proof.
  unfold Run.ingest.
  destruct (@a_call_is_listed_as_recent createTables_unique Run.json_text
              "2025-10-14T08:00:00.000Z" "2025-10-07T08:00:00.000Z" Scenario.single
              empty_db eq_refl) as (record & H1 & H2 & _ & H4).
  exists record. split; [exact H1|]. split; [exact H2|exact H4].
Defined.

(** ** The Sleep Cycle table *)

Lemma on_date_iff (d : string) (r : SleepRow) :
  on_date d r = true <-> sleep_date (columns r) = Some d.
Proof.
  unfold on_date. destruct (sleep_date (columns r)) as [x|]; [|split; discriminate].
  rewrite String.eqb_eq. split; congruence.
Qed.

Lemma find_filter_other (d d' : string) (rows : list SleepRow) :
  d' <> d ->
  find (on_date d') (filter (fun r => negb (on_date d r)) rows) = find (on_date d') rows.
Proof.
  intros Hd. induction rows as [|r rows IH]; [reflexivity|]. simpl.
  destruct (on_date d r) eqn:E; simpl.
  - destruct (on_date d' r) eqn:E'; [|exact IH].
    apply on_date_iff in E, E'. congruence.
  - now rewrite IH.
Qed.

Lemma find_filter_same (d : string) (rows : list SleepRow) :
  find (on_date d) (filter (fun r => negb (on_date d r)) rows) = None.
Proof.
  induction rows as [|r rows IH]; [reflexivity|]. simpl.
  destruct (on_date d r) eqn:E; simpl; [exact IH|]. now rewrite E.
Qed.

Lemma find_app_none (A : Type) (p : A -> bool) (l l' : list A) :
  find p l = None -> find p (l ++ l') = find p l'.
Proof.
  induction l as [|x l IH]; [reflexivity|]. simpl.
  destruct (p x); [discriminate|exact IH].
Qed.

Lemma find_app_some (A : Type) (p : A -> bool) (l l' : list A) (x : A) :
  find p l = Some x -> find p (l ++ l') = Some x.
Proof.
  induction l as [|y l IH]; [discriminate|]. simpl.
  destruct (p y); [tauto|exact IH].
Qed.

(** X17. A record saved with [saveSleepCycleData] is what
    [getSleepCycleDataByDate] finds for its date, under the id the save
    returned, whatever the table held for that date; the lookup of every
    other date is as before. *)
Theorem saved_night_is_found (now d : string) (record : SleepRecord) (t : SleepTable) :
  sleep_date record = Some d ->
  let after := fst (saveSleepCycleData now record t) in
  (exists result, snd (saveSleepCycleData now record t) = Returned result
                  /\ changes result = 1%nat
                  /\ getSleepCycleDataByDate d after
                     = Some (mkSleepRow (run_id result) record now))
  /\ (forall other, other <> d ->
                    getSleepCycleDataByDate other after = getSleepCycleDataByDate other t).
Proof.
  intros Hd. cbv zeta. unfold saveSleepCycleData. rewrite Hd. cbn [fst snd]. split.
  - eexists. split; [reflexivity|]. split; [reflexivity|].
    unfold getSleepCycleDataByDate. cbn [sleep_rows run_id].
    rewrite find_app_none by apply find_filter_same.
    simpl. unfold on_date. cbn [columns]. now rewrite Hd, String.eqb_refl.
  - intros other Ho. unfold getSleepCycleDataByDate. cbn [sleep_rows].
    destruct (find (on_date other) (sleep_rows t)) as [x|] eqn:F.
    + apply find_app_some. now rewrite find_filter_other.
    + rewrite find_app_none by now rewrite find_filter_other.
      simpl. unfold on_date. cbn [columns]. rewrite Hd.
      apply String.eqb_neq in Ho. rewrite String.eqb_sym in Ho. now rewrite Ho.
Qed.

(** X17 on the first night saved. *)
Lemma saved_night_is_found_witness :
  getSleepCycleDataByDate "2025-10-14"
    (fst (saveSleepCycleData "t" (Inputs.night "2025-10-14" 80) empty_table))
  = Some (mkSleepRow 1 (Inputs.night "2025-10-14" 80) "t").
Proof.
  destruct (@saved_night_is_found "t" "2025-10-14" (Inputs.night "2025-10-14" 80)
              empty_table eq_refl) as [(result & Hr & _ & Hf) _].
  cbn in Hr. injection Hr as <-. exact Hf.
Defined.

Lemma sleep_id_below_next (t : SleepTable) (r : SleepRow) :
  In r (sleep_rows t) -> (sleep_id r < next_sleep_id t)%nat.
Proof.
  unfold next_sleep_id. generalize (sleep_sequence t). intros s.
  induction (sleep_rows t) as [|x l IH]; [intros []|].
  simpl. intros [->|H]; [lia|]. specialize (IH H). lia.
Qed.

(** X18. [saveSleepCycleData] keeps the table at one row per date and
    without a dateless row, and never hands out an id again: every row of
    the table afterwards is a row of before or has an id above the sequence
    and above every id of before. *)
Theorem one_row_per_date_is_kept (now : string) (record : SleepRecord) (t : SleepTable) :
  one_row_per_date t ->
  let after := fst (saveSleepCycleData now record t) in
  one_row_per_date after
  /\ (sleep_sequence t <= sleep_sequence after)%nat
  /\ (forall r, In r (sleep_rows after) ->
                In r (sleep_rows t) \/ (sleep_sequence t < sleep_id r
                                        /\ forall old, In old (sleep_rows t) ->
                                                       sleep_id old < sleep_id r))%nat.
Proof.
  intros [Hnd Hall]. cbv zeta. unfold saveSleepCycleData.
  destruct (sleep_date record) as [d|] eqn:Hd; cbn [fst].
  - split; [split|split].
    + cbn [sleep_rows]. rewrite map_app. simpl. rewrite Hd.
      apply NoDup_app.
      * clear Hall. induction (sleep_rows t) as [|x l IH]; [constructor|].
        simpl. inversion Hnd as [|? ? Hx Hl]; subst.
        destruct (on_date d x); simpl; [now apply IH|].
        constructor; [|now apply IH].
        intros Hin. apply Hx. apply in_map_iff in Hin. destruct Hin as (y & Hy & Hin).
        apply filter_In in Hin. apply in_map_iff. exists y. tauto.
      * repeat constructor. intros [].
      * intros x Hx [<-|[]]. apply in_map_iff in Hx. destruct Hx as (y & Hy & Hin).
        apply filter_In in Hin. destruct Hin as [_ Hn].
        apply on_date_iff in Hy. now rewrite Hy in Hn.
    + cbn [sleep_rows]. apply Forall_app. split.
      * apply Forall_forall. intros x Hx. apply filter_In in Hx.
        rewrite Forall_forall in Hall. now apply Hall.
      * repeat constructor. cbn [columns]. congruence.
    + cbn [sleep_sequence]. unfold next_sleep_id. lia.
    + cbn [sleep_rows]. intros r Hr. apply in_app_or in Hr. destruct Hr as [Hr|[<-|[]]].
      * left. apply filter_In in Hr. tauto.
      * right. cbn [sleep_id]. split; [unfold next_sleep_id; lia|].
        intros old Hold. now apply sleep_id_below_next.
  - split; [now split|]. split; [lia|]. intros r Hr. now left.
Qed.

Lemma NoDup_map_filter (A B : Type) (f : A -> B) (p : A -> bool) (l : list A) :
  NoDup (List.map f l) -> NoDup (List.map f (filter p l)).
Proof.
  induction l as [|x l IH]; simpl; [constructor|].
  intros H. inversion H as [|? ? Hx Hl]; subst.
  destruct (p x); simpl; [|now apply IH].
  constructor; [|now apply IH].
  intros Hin. apply Hx. apply in_map_iff in Hin. destruct Hin as (y & Hy & Hin).
  apply filter_In in Hin. apply in_map_iff. exists y. tauto.
Qed.

(** X18 on the first night saved. *)
Lemma one_row_per_date_is_kept_witness :
  one_row_per_date
    (fst (saveSleepCycleData "t" (Inputs.night "2025-10-14" 80) empty_table)).
Proof.
  apply (@one_row_per_date_is_kept "t" (Inputs.night "2025-10-14" 80) empty_table).
  split; constructor.
Defined.

(** X19. On a table with one row per date, [getSleepCycleDataRange] lists
    exactly the rows whose date lies in the closed range, newest date
    first, and no two listed rows share a date: the order of the listing is
    fully determined. *)
Theorem nights_of_a_range_are_newest_first (startDate endDate : string) (t : SleepTable) :
  one_row_per_date t ->
  let listed := getSleepCycleDataRange startDate endDate t in
  Sorted (not_older (fun r => sleep_date (columns r))) listed
  /\ NoDup (List.map (fun r => sleep_date (columns r)) listed)
  /\ (forall r, In r listed
                <-> In r (sleep_rows t)
                    /\ Sql.between (sleep_date (columns r)) startDate endDate = true).
Proof.
  intros [Hnd _]. cbv zeta. unfold getSleepCycleDataRange.
  split; [apply order_by_desc_sorted|]. split.
  - apply (Permutation_NoDup
             (Permutation_map _ (Permutation_sym (order_by_desc_perm _ _)))).
    now apply NoDup_map_filter.
  - intros r. rewrite order_by_desc_In. apply filter_In.
Qed.

(** X19 on two nights saved in date order. *)
Lemma nights_of_a_range_are_newest_first_witness :
  let t := fst (saveSleepCycleData "t2" (Inputs.night "2025-10-15" 70)
                  (fst (saveSleepCycleData "t1" (Inputs.night "2025-10-14" 80)
                          empty_table))) in
  List.map (fun r => sleep_date (columns r))
           (getSleepCycleDataRange "2025-10-01" "2025-10-31" t)
  = [Some "2025-10-15"; Some "2025-10-14"]
  /\ NoDup (List.map (fun r => sleep_date (columns r))
                     (getSleepCycleDataRange "2025-10-01" "2025-10-31" t)).
Proof.
  cbv zeta. split; [reflexivity|].
  apply (@nights_of_a_range_are_newest_first "2025-10-01" "2025-10-31").
  split; repeat constructor; simpl; intuition discriminate.
Defined.

(** X20. Saving the same record a second time leaves the stored values of
    every row as after the first save; only the id and [created_at] of the
    replaced row are new. *)
Theorem saving_twice_is_saving_once (now later : string) (record : SleepRecord)
    (t : SleepTable) :
  let once := fst (saveSleepCycleData now record t) in
  let twice := fst (saveSleepCycleData later record once) in
  map columns (sleep_rows twice) = map columns (sleep_rows once).
Proof.
  cbv zeta. unfold saveSleepCycleData.
  destruct (sleep_date record) as [d|] eqn:Hd; cbn [fst sleep_rows]; [|reflexivity].
  rewrite filter_app. simpl.
  assert (E : on_date d (mkSleepRow (next_sleep_id t) record now) = true)
    by now apply on_date_iff.
  rewrite E. simpl. rewrite app_nil_r, !map_app. f_equal. f_equal.
  clear. induction (sleep_rows t) as [|x l IH]; [reflexivity|].
  simpl. destruct (on_date d x) eqn:E; simpl; [exact IH|]. rewrite E. simpl. now rewrite IH.
Qed.

(** ** The energy migration *)

Lemma set_converted_same (r : Row) : set_converted r (metric_value_converted r) = r.
Proof. destruct r; reflexivity. Qed.

Ltac finish :=
  repeat split; intros; simpl in *;
  try discriminate; try congruence; try assumption; try reflexivity.

Lemma converted_row (r : Row) :
  let r' := convert_kJ (convert_kcal r) in
  (active_energy r' = true -> metric_value_converted r' <> None -> r' = as_written r)
  /\ (active_energy r' = false -> r' = as_written r)
  /\ active_energy r' = active_energy r.
Proof.
  cbv zeta. destruct r as [i t s d v u a cr c].
  unfold convert_kcal, convert_kJ, as_written, to_convert, active_energy, convertedValue,
    is_energy, set_converted, unit_is.
  simpl.
  destruct (String.eqb t "active_energy") eqn:T; destruct c as [c|];
    destruct u as [u|];
    try (destruct (String.eqb_spec u "kcal") as [->|Nk]);
    try (destruct (String.eqb u "kJ") eqn:J);
    simpl; rewrite ?T, ?J; simpl; rewrite ?T, ?J; simpl; finish.
Qed.

Section ScriptFacts.

Variable DATE : option string -> option string.

(** What a commit guarantees. *)
Lemma committed_table (table converted : list Row) :
  runConversion DATE table = Committed converted ->
  converted = map convert_kJ (map convert_kcal table)
  /\ (forall r, In r converted -> active_energy r = true ->
                 metric_value_converted r <> None)
  /\ Sql.min (map metric_value_converted (filter active_energy converted)) <> None
  /\ existsb (fun g => is_null (Sql.sum (map metric_value (snd g)))
                        || is_null (Sql.sum (map metric_value_converted (snd g))))
             (oct10 DATE converted) = false.
Proof.
  unfold runConversion.
  set (t' := map convert_kJ (map convert_kcal table)).
  destruct (Sql.min (map metric_value_converted (filter active_energy t'))) eqn:M;
    [|discriminate].
  destruct (existsb (fun r => is_null (metric_value_converted r))
                    (filter active_energy t')) eqn:N; [discriminate|].
  destruct (existsb _ (oct10 DATE t')) eqn:O; [discriminate|].
  intros H. injection H as <-. split; [reflexivity|]. split; [|split; [|exact O]].
  - intros r Hr Ha Hc.
    assert (Hex : existsb (fun r => is_null (metric_value_converted r))
                          (filter active_energy t') = true).
    { apply existsb_exists. exists r. split; [apply filter_In; now split|].
      now rewrite Hc. }
    congruence.
  - rewrite M. discriminate.
Qed.

(** X21. When the migration commits, the table it leaves is the table in
    which every active-energy row that lacked a converted value has the one
    [saveHealthMetric] computes for it; every other row and column is
    untouched. *)
Theorem conversion_agrees_with_the_writer (table converted : list Row) :
  runConversion DATE table = Committed converted ->
  converted = map as_written table.
Proof.
  intros H. destruct (committed_table _ H) as (-> & Hall & _).
  rewrite map_map. apply map_ext_in. intros r Hr.
  destruct (converted_row r) as (Ha & Hn & _). cbv zeta in Ha, Hn.
  destruct (active_energy (convert_kJ (convert_kcal r))) eqn:A.
  - apply Ha; [reflexivity|]. apply Hall; [|exact A].
    apply (in_map convert_kJ), (in_map convert_kcal), Hr.
  - now apply Hn.
Qed.

Lemma conversion_is_stable (r : Row) :
  (active_energy r = true -> metric_value_converted r <> None) ->
  convert_kJ (convert_kcal r) = r.
Proof.
  intros H. unfold convert_kJ, convert_kcal, to_convert.
  destruct (active_energy r) eqn:A; unfold active_energy in A; rewrite A; cbn [andb].
  - destruct (metric_value_converted r) eqn:C; [|now specialize (H eq_refl)].
    cbn [is_null]. rewrite !andb_false_r, A, C. cbn [is_null]. now rewrite !andb_false_r.
  - now rewrite A.
Qed.

(** X22. The migration is idempotent: run on a table it has committed, it
    commits that same table. *)
Theorem conversion_is_idempotent (table converted : list Row) :
  runConversion DATE table = Committed converted ->
  runConversion DATE converted = Committed converted.
Proof.
  intros H. destruct (committed_table _ H) as (_ & Hall & Hmin & Hoct).
  assert (Same : map convert_kJ (map convert_kcal converted) = converted).
  { rewrite map_map. rewrite <- (map_id converted) at 2. apply map_ext_in.
    intros r Hr. apply conversion_is_stable. now apply Hall. }
  unfold runConversion. rewrite Same.
  destruct (Sql.min (map metric_value_converted (filter active_energy converted)));
    [|congruence].
  assert (N : existsb (fun r => is_null (metric_value_converted r))
                      (filter active_energy converted) = false).
  { destruct (existsb _ (filter active_energy converted)) eqn:E; [|reflexivity].
    apply existsb_exists in E. destruct E as (r & Hr & Hn).
    apply filter_In in Hr. destruct Hr as [Hr Ha].
    specialize (Hall r Hr Ha). destruct (metric_value_converted r); [discriminate|congruence]. }
  now rewrite N, Hoct.
Qed.

(** X23. One active-energy row without a converted value that the
    migration cannot convert (its unit is neither kcal nor kJ, or its value
    is NULL) keeps the whole run from committing: the table stays as it
    was, also for the rows that could be converted. *)
Theorem unconvertible_row_blocks_the_commit (table : list Row) (r : Row) :
  In r table ->
  metric_type r = "active_energy" ->
  metric_value_converted r = None ->
  (metric_unit r <> Some "kcal" /\ metric_unit r <> Some "kJ") \/ metric_value r = None ->
  table_after DATE table = table
  /\ forall converted, runConversion DATE table <> Committed converted.
Proof.
  intros Hin Ht Hc Hbad.
  assert (No : forall converted, runConversion DATE table <> Committed converted).
  { intros converted H. destruct (committed_table _ H) as (-> & Hall & _).
    assert (Hr : convert_kJ (convert_kcal r) = r).
    { unfold convert_kJ, convert_kcal, to_convert.
      rewrite Ht, Hc. cbn [String.eqb Ascii.eqb Bool.eqb andb is_null].
      destruct Hbad as [[Hk HJ]|Hv].
      - assert (K : unit_is (metric_unit r) "kcal" = false).
        { destruct (metric_unit r) as [u|]; [|reflexivity]. simpl.
          apply String.eqb_neq. congruence. }
        assert (J : unit_is (metric_unit r) "kJ" = false).
        { destruct (metric_unit r) as [u|]; [|reflexivity]. simpl.
          apply String.eqb_neq. congruence. }
        rewrite K. cbn [andb]. rewrite Ht, Hc, J. reflexivity.
      - rewrite Hv.
        destruct (unit_is (metric_unit r) "kcal") eqn:K; cbn [andb].
        + cbn [set_converted metric_type metric_unit metric_value_converted metric_value].
          rewrite Ht. cbn [String.eqb Ascii.eqb Bool.eqb andb is_null].
          destruct (unit_is (metric_unit r) "kJ"); cbn [andb option_map];
            destruct r; simpl in *; subst; reflexivity.
        + rewrite Ht, Hc, Hv. cbn [String.eqb Ascii.eqb Bool.eqb andb is_null].
          destruct (unit_is (metric_unit r) "kJ"); cbn [andb option_map];
            destruct r; simpl in *; subst; reflexivity. }
    apply (Hall r).
    - rewrite <- Hr. apply (in_map convert_kJ), (in_map convert_kcal), Hin.
    - unfold active_energy. now rewrite Ht.
    - exact Hc. }
  split; [|exact No].
  unfold table_after. destruct (runConversion DATE table) eqn:E; try reflexivity.
  exfalso. exact (No _ eq_refl).
Qed.

End ScriptFacts.

(** X21 on 50 kcal and 418.4 kJ written without converted values. *)
Lemma conversion_agrees_with_the_writer_witness :
  exists converted,
    runConversion Inputs.date_part Inputs.unconverted_energy = Committed converted
    /\ converted = List.map as_written Inputs.unconverted_energy.
Proof.
  eexists. split; [vm_compute; reflexivity|].
  apply (@conversion_agrees_with_the_writer Inputs.date_part). vm_compute. reflexivity.
Defined.

(** X22 on the same two rows. *)
Lemma conversion_is_idempotent_witness :
  exists converted,
    runConversion Inputs.date_part Inputs.unconverted_energy = Committed converted
    /\ runConversion Inputs.date_part converted = Committed converted.
Proof.
  eexists. split; [vm_compute; reflexivity|].
  apply (@conversion_is_idempotent Inputs.date_part Inputs.unconverted_energy).
  vm_compute. reflexivity.
Defined.

(** X23 on the same two rows and one in a unit the script does not know. *)
Lemma unconvertible_row_blocks_the_commit_witness :
  table_after Inputs.date_part
    (Inputs.unconverted_energy ++ Inputs.foreign_unit)%list
  = (Inputs.unconverted_energy ++ Inputs.foreign_unit)%list.
Proof.
  refine (proj1 (@unconvertible_row_blocks_the_commit Inputs.date_part
                   (Inputs.unconverted_energy ++ Inputs.foreign_unit)%list
                   (mkRow 1 "active_energy" "health_auto_export"
                          (Some "2025-10-10 08:00:00 +0100") (Some 50) (Some "Cal")
                          None "t" None) _ eq_refl eq_refl _)).
  - simpl. tauto.
  - left. split; discriminate.
Defined.

(** ** The summary path *)

Lemma lookup_assign_same (A : Type) (k : string) (v : A) (m : list (string * A)) :
  lookup k (assign k v m) = Some v.
Proof.
  induction m as [|[k' v'] m IH]; simpl.
  - now rewrite String.eqb_refl.
  - destruct (String.eqb k' k) eqn:E; simpl; rewrite E; [reflexivity|exact IH].
Qed.

Lemma lookup_assign_other (A : Type) (k k2 : string) (v : A) (m : list (string * A)) :
  k <> k2 -> lookup k2 (assign k v m) = lookup k2 m.
Proof.
  intros Hne. induction m as [|[k' v'] m IH]; simpl.
  - apply String.eqb_neq in Hne. now rewrite Hne.
  - destruct (String.eqb k' k) eqn:E; simpl.
    + apply String.eqb_eq in E. subst k'.
      apply String.eqb_neq in Hne. now rewrite Hne.
    + now rewrite IH.
Qed.

Lemma assign_keys (A : Type) (k : string) (v : A) (m : list (string * A)) :
  lookup k m <> None -> List.map fst (assign k v m) = List.map fst m.
Proof.
  induction m as [|[k' v'] m IH]; simpl; [congruence|].
  destruct (String.eqb k' k) eqn:E; simpl; [reflexivity|].
  intros H. now rewrite IH.
Qed.

Lemma lookup_app (A : Type) (k k2 : string) (v : A) (m : list (string * A)) :
  lookup k2 (m ++ [(k, v)]) =
  match lookup k2 m with
  | Some x => Some x
  | None => if String.eqb k k2 then Some v else None
  end.
Proof.
  induction m as [|[k' v'] m IH]; simpl; [reflexivity|].
  destruct (String.eqb k' k2); [reflexivity|exact IH].
Qed.

Lemma lookup_keys (A : Type) (k : string) (m : list (string * A)) :
  lookup k m <> None <-> In k (List.map fst m).
Proof.
  induction m as [|[k' v'] m IH]; simpl; [tauto|].
  destruct (String.eqb k' k) eqn:E.
  - apply String.eqb_eq in E. split; [now left|congruence].
  - apply String.eqb_neq in E. rewrite IH. tauto.
Qed.

Lemma lookup_In (A : Type) (k : string) (v : A) (m : list (string * A)) :
  lookup k m = Some v -> In (k, v) m.
Proof.
  induction m as [|[k' v'] m IH]; simpl; [congruence|].
  destruct (String.eqb k' k) eqn:E.
  - apply String.eqb_eq in E. intros [= ->]. left. now subst.
  - intros H. right. now apply IH.
Qed.

Lemma In_lookup (A : Type) (k : string) (v : A) (m : list (string * A)) :
  NoDup (List.map fst m) -> In (k, v) m -> lookup k m = Some v.
Proof.
  induction m as [|[k' v'] m IH]; simpl; [tauto|].
  intros Hnd [H|H].
  - injection H as -> ->. now rewrite String.eqb_refl.
  - inversion Hnd as [|? ? Hnot Hnd']; subst.
    destruct (String.eqb k' k) eqn:E.
    + apply String.eqb_eq in E. subst k'. exfalso. apply Hnot.
      change k with (fst (k, v)). now apply in_map.
    + now apply IH.
Qed.

Lemma assign_entries (A : Type) (Q : string * A -> Prop) (k : string) (v : A)
    (m : list (string * A)) :
  Q (k, v) -> Forall Q m -> Forall Q (assign k v m).
Proof.
  intros Hq. induction 1 as [|[k' v'] m Hx Hm IH]; simpl.
  - now repeat constructor.
  - destruct (String.eqb k' k) eqn:E.
    + apply String.eqb_eq in E. subst k'. now constructor.
    + now constructor.
Qed.

Lemma rows_of_app (d t : string) (P : list (string * Row)) (x : string * Row) :
  rows_of d t (P ++ [x]) =
  (rows_of d t P ++
   if String.eqb (fst x) d && String.eqb (metric_type (snd x)) t then [snd x] else [])%list.
Proof.
  unfold rows_of. rewrite filter_app, map_app. simpl.
  now destruct (String.eqb (fst x) d && String.eqb (metric_type (snd x)) t).
Qed.

Lemma rows_of_absent (d t : string) (P : list (string * Row)) :
  ~ In d (List.map fst P) -> rows_of d t P = [].
Proof.
  unfold rows_of. induction P as [|x P IH]; simpl; [reflexivity|].
  intros H. destruct (String.eqb (fst x) d) eqn:E.
  - apply String.eqb_eq in E. tauto.
  - simpl. apply IH. tauto.
Qed.

Lemma built_from_push (entry : option MetricOut) (rows : list Row) (row : Row)
    (additional : option string) :
  built_from entry rows ->
  let e := match entry with
           | Some e => e
           | None => mkMetricOut (shown_value row) (shown_unit row) (metric_source row) [] None
           end in
  built_from
    (Some (mkMetricOut (metric_out_value e) (metric_out_unit e) (metric_out_source e)
             (data_points e ++ [point_of row])
             additional))
    (rows ++ [row]).
Proof.
  destruct rows as [|first rest]; simpl.
  - intros ->. eexists. repeat split.
  - intros (e & -> & Hv & Hu & Hs & Hp). eexists. split; [reflexivity|].
    simpl. repeat split; try assumption.
    rewrite Hp. simpl. now rewrite map_app.
Qed.

Section Loop.
Variable inherited : string -> bool.
Variable parses : string -> bool.

Lemma add_row_grouped (P : list (string * Row)) (map : list (string * DayData))
    (x : string * Row) :
  grouped P map ->
  if inherited (metric_type (snd x))
  then add_row inherited parses x map
       = Thrown "Cannot read properties of undefined (reading 'push')"
  else exists map', add_row inherited parses x map = Returned map'
                    /\ grouped (P ++ [x]) map'.
Proof.
  intros (Hnd & Hsd & Hkeys & Hday).
  destruct x as [date row]. unfold add_row. cbn [fst snd].
  destruct (inherited (metric_type row)); [reflexivity|].
  eexists. split; [reflexivity|].
  set (map1 := match lookup date map with
               | Some _ => map
               | None => (map ++ [(date, mkDayData date [])])%list
               end).
  set (dayData := match lookup date map1 with
                  | Some d => d
                  | None => mkDayData date []
                  end).
  assert (H1 : lookup date map1 = Some dayData
               /\ NoDup (List.map fst map1)
               /\ Forall (fun e => summary_date (snd e) = fst e) map1
               /\ (forall d, In d (List.map fst map1) <-> d = date \/ In d (List.map fst P))
               /\ (forall d, d <> date -> lookup d map1 = lookup d map)
               /\ (forall t, built_from (lookup t (day_metrics dayData)) (rows_of date t P))).
  { subst dayData map1. destruct (lookup date map) as [day0|] eqn:E.
    - rewrite E. repeat split; try assumption.
      + intros H. right. now apply Hkeys.
      + intros [->|H]; [|now apply Hkeys].
        apply lookup_keys. congruence.
      + intros t. now apply Hday.
    - assert (Hno : ~ In date (List.map fst map)).
      { intros H. apply lookup_keys in H. congruence. }
      rewrite lookup_app, E, String.eqb_refl. repeat split.
      + rewrite map_app. simpl.
        apply NoDup_app; repeat split; try assumption.
        * repeat constructor. simpl. tauto.
        * intros a Ha [<-|[]]. tauto.
      + apply Forall_app. split; [assumption|]. now repeat constructor.
      + rewrite map_app, in_app_iff. simpl. rewrite Hkeys. intuition.
      + rewrite map_app, in_app_iff. simpl. rewrite Hkeys. intuition.
      + intros d Hd. rewrite lookup_app.
        apply not_eq_sym, String.eqb_neq in Hd. rewrite Hd.
        now destruct (lookup d map).
      + intros t. simpl. rewrite rows_of_absent; [reflexivity|].
        intros H. apply Hno. now apply Hkeys. }
  clearbody dayData map1.
  destruct H1 as (Hl & Hnd1 & Hsd1 & Hkeys1 & Hother & Hbuilt).
  repeat split.
  - rewrite assign_keys; [assumption|congruence].
  - apply assign_entries; [reflexivity|assumption].
  - rewrite assign_keys by congruence. rewrite Hkeys1, map_app, in_app_iff. simpl.
    intuition.
  - rewrite assign_keys by congruence. rewrite Hkeys1, map_app, in_app_iff. simpl.
    intuition.
  - intros d day Hd t. rewrite rows_of_app. cbn [fst snd].
    destruct (String.eqb date d) eqn:Ed.
    + apply String.eqb_eq in Ed. subst d.
      rewrite lookup_assign_same in Hd. injection Hd as <-. cbn [day_metrics].
      destruct (String.eqb (metric_type row) t) eqn:Et; cbn [andb].
      * apply String.eqb_eq in Et. subst t. rewrite lookup_assign_same.
        specialize (Hbuilt (metric_type row)).
        unfold point_of, shown_value, shown_unit in *.
        apply (@built_from_push _ _ row _ Hbuilt).
      * apply String.eqb_neq in Et. rewrite lookup_assign_other by assumption.
        rewrite app_nil_r. apply Hbuilt.
    + apply String.eqb_neq in Ed. rewrite lookup_assign_other in Hd by assumption.
      rewrite Hother in Hd by congruence. cbn [andb]. rewrite app_nil_r.
      now apply Hday.
Qed.

Lemma add_rows_grouped (rows P : list (string * Row)) (map : list (string * DayData)) :
  grouped P map ->
  if existsb (fun x => inherited (metric_type (snd x))) rows
  then add_rows inherited parses rows map
       = Thrown "Cannot read properties of undefined (reading 'push')"
  else exists map', add_rows inherited parses rows map = Returned map'
                    /\ grouped (P ++ rows) map'.
Proof.
  revert P map. induction rows as [|x rows IH]; intros P map Hg; simpl.
  - exists map. now rewrite app_nil_r.
  - pose proof (add_row_grouped x Hg) as Hx.
    destruct (inherited (metric_type (snd x))); simpl.
    + now rewrite Hx.
    + destruct Hx as (map' & -> & Hg').
      specialize (IH _ _ Hg').
      destruct (existsb _ rows); [exact IH|].
      destruct IH as (map2 & E & G). exists map2. split; [exact E|].
      now rewrite <- app_assoc in G.
Qed.

End Loop.

Lemma grouped_start : grouped [] [].
Proof.
  repeat split; simpl; try tauto; try constructor.
  intros d day H. discriminate.
Qed.

Lemma insert_asc_perm (A : Type) (key : A -> string) (x : A) (l : list A) :
  Permutation (insert_asc key x l) (x :: l).
Proof.
  induction l as [|y l IH]; simpl; [reflexivity|].
  destruct (Sql.text_le (key x) (key y)); [reflexivity|].
  rewrite IH. apply perm_swap.
Qed.

Lemma order_by_asc_perm (A : Type) (key : A -> string) (l : list A) :
  Permutation (order_by_asc key l) l.
Proof.
  unfold order_by_asc. induction l as [|x l IH]; simpl; [reflexivity|].
  rewrite insert_asc_perm. now constructor.
Qed.

Lemma sort_days_perm (stays_before : string -> string -> bool) (l : list DayData) :
  Permutation (sort_days stays_before l) l.
Proof.
  unfold sort_days. induction l as [|x l IH]; simpl; [reflexivity|].
  transitivity (x :: fold_right (insert_day stays_before) [] l); [|now constructor].
  generalize (fold_right (insert_day stays_before) [] l). clear.
  intros l. induction l as [|y l IH]; simpl; [reflexivity|].
  destruct (stays_before (summary_date x) (summary_date y)); [reflexivity|].
  rewrite IH. apply perm_swap.
Qed.

(** Rows that share their sort key come out of a stable sort in the order
    they went in. *)
Lemma filter_order_by_desc (A : Type) (key : A -> option string) (p : A -> bool)
    (k : string) (l : list A) :
  (forall x, p x = true -> key x = Some k) ->
  filter p (Sql.order_by_desc key l) = filter p l.
Proof.
  intros Hk. unfold Sql.order_by_desc.
  induction l as [|x l IH]; simpl; [reflexivity|].
  rewrite <- IH. generalize (fold_right (Sql.insert_desc key) [] l). clear IH.
  intros s. induction s as [|y s IH]; simpl; [reflexivity|].
  destruct (Sql.key_ge (key x) (key y)) eqn:E; [reflexivity|].
  simpl. rewrite IH.
  destruct (p x) eqn:Px, (p y) eqn:Py; try reflexivity.
  rewrite (Hk _ Px), (Hk _ Py) in E. simpl in E. rewrite text_le_refl in E. discriminate.
Qed.

Lemma filter_order_by_asc (A : Type) (key : A -> string) (p : A -> bool)
    (k : string) (l : list A) :
  (forall x, p x = true -> key x = k) ->
  filter p (order_by_asc key l) = filter p l.
Proof.
  intros Hk. unfold order_by_asc.
  induction l as [|x l IH]; simpl; [reflexivity|].
  rewrite <- IH. generalize (fold_right (insert_asc key) [] l). clear IH.
  intros s. induction s as [|y s IH]; simpl; [reflexivity|].
  destruct (Sql.text_le (key x) (key y)) eqn:E; [reflexivity|].
  simpl. rewrite IH.
  destruct (p x) eqn:Px, (p y) eqn:Py; try reflexivity.
  rewrite (Hk _ Px), (Hk _ Py), text_le_refl in E. discriminate.
Qed.

Lemma selected_In (c : string) (table : list Row) (d : string) (r : Row) :
  In (d, r) (selected c table)
  <-> In r table /\ metric_date r = Some d /\ Sql.text_le c d = true.
Proof.
  unfold selected. rewrite order_by_desc_In.
  split.
  - intros H. apply (Permutation_in _ (order_by_asc_perm _ _)) in H.
    apply in_flat_map in H. destruct H as (r' & Hin & H).
    destruct (metric_date r') as [d'|] eqn:E; [|destruct H].
    destruct (Sql.text_le c d') eqn:L; [|destruct H].
    destruct H as [[= <- <-]|[]]. auto.
  - intros (Hin & E & L).
    apply (Permutation_in _ (Permutation_sym (order_by_asc_perm _ _))).
    apply in_flat_map. exists r. split; [exact Hin|].
    rewrite E, L. now left.
Qed.

Lemma selected_dates (c : string) (table : list Row) (d : string) :
  In d (List.map fst (selected c table))
  <-> exists r, In r table /\ metric_date r = Some d /\ Sql.text_le c d = true.
Proof.
  rewrite in_map_iff. split.
  - intros ([d' r] & <- & H). exists r. now apply selected_In.
  - intros (r & H). exists (d, r). split; [reflexivity|]. now apply selected_In.
Qed.

Lemma rows_of_selected (c : string) (table : list Row) (d t : string) :
  Sql.text_le c d = true ->
  rows_of d t (selected c table)
  = filter (fun r => on_timestamp d r && String.eqb (metric_type r) t) table.
Proof.
  intros L. unfold rows_of, selected.
  rewrite (@filter_order_by_desc _ _ _ d).
  2:{ intros x H. apply andb_prop in H. destruct H as [H _].
      apply String.eqb_eq in H. now rewrite H. }
  rewrite (@filter_order_by_asc _ _ _ t).
  2:{ intros x H. apply andb_prop in H. destruct H as [_ H].
      now apply String.eqb_eq in H. }
  induction table as [|r table IH]; simpl; [reflexivity|].
  rewrite filter_app, map_app, IH. unfold on_timestamp.
  destruct (metric_date r) as [d'|]; simpl; [|reflexivity].
  destruct (String.eqb d' d) eqn:E.
  - apply String.eqb_eq in E. subst d'. rewrite L. simpl.
    rewrite String.eqb_refl. now destruct (String.eqb (metric_type r) t).
  - destruct (Sql.text_le c d'); simpl; [|reflexivity].
    now rewrite E.
Qed.

Section SummaryFacts.
Variable inherited : string -> bool.
Variable parses : string -> bool.
Variable stays_before : string -> string -> bool.
Variable today : string.
Variable days_ago : Z -> string.
Variable invalid_cutoff : Z -> bool.
Variable table : list Row.

Let summary_of_days := getAppleHealthSummary inherited parses stays_before today days_ago
                         invalid_cutoff table.

Lemma summary_outcome (days : Z) :
  invalid_cutoff days = false ->
  if existsb (fun r => in_period (days_ago days) r && inherited (metric_type r)) table
  then summary_of_days days
       = Thrown "Cannot read properties of undefined (reading 'push')"
  else exists map,
         grouped (selected (days_ago days) table) map
         /\ summary_of_days days
            = Returned (mkSummaryOut days (days_ago days) today
                          (List.length (sort_days stays_before (List.map snd map)))
                          (sort_days stays_before (List.map snd map))).
Proof.
  intros Hvalid. unfold summary_of_days, getAppleHealthSummary. rewrite Hvalid. cbv zeta.
  pose proof (@add_rows_grouped inherited parses (selected (days_ago days) table) [] []
                grouped_start) as H.
  assert (E : existsb (fun x => inherited (metric_type (snd x))) (selected (days_ago days) table)
              = existsb (fun r => in_period (days_ago days) r && inherited (metric_type r)) table).
  { apply eq_true_iff_eq. rewrite !existsb_exists. split.
    - intros ([d r] & Hin & Hi). apply selected_In in Hin.
      destruct Hin as (Hin & Ed & L). exists r. split; [exact Hin|].
      unfold in_period. rewrite Ed, L. exact Hi.
    - intros (r & Hin & Hi). apply andb_prop in Hi. destruct Hi as [Hp Hi].
      unfold in_period in Hp. destruct (metric_date r) as [d|] eqn:Ed; [|discriminate].
      exists (d, r). split; [|exact Hi]. now apply selected_In. }
  rewrite <- E.
  destruct (existsb _ (selected (days_ago days) table)).
  - now rewrite H.
  - destruct H as (map & -> & G). exists map. now split.
Qed.

Lemma summary_days (days : Z) (summary : SummaryOut) :
  summary_of_days days = Returned summary ->
  period_days summary = days
  /\ total_days summary = List.length (daily_data summary)
  /\ NoDup (List.map summary_date (daily_data summary))
  /\ (forall d, In d (List.map summary_date (daily_data summary))
                <-> exists r, In r table /\ metric_date r = Some d
                              /\ Sql.text_le (days_ago days) d = true)
  /\ (forall day, In day (daily_data summary) ->
        forall t, built_from (lookup t (day_metrics day))
                    (filter (fun r => on_timestamp (summary_date day) r
                                      && String.eqb (metric_type r) t) table)).
Proof.
  intros H.
  assert (Hvalid : invalid_cutoff days = false).
  { unfold summary_of_days, getAppleHealthSummary in H.
    destruct (invalid_cutoff days); [discriminate H|reflexivity]. }
  pose proof (@summary_outcome days Hvalid) as O.
  destruct (existsb _ table); [congruence|].
  destruct O as (map & (Hnd & Hsd & Hkeys & Hday) & E).
  rewrite E in H. injection H as <-. cbn [period_days total_days daily_data].
  assert (Hdates : List.map summary_date (List.map snd map) = List.map fst map).
  { clear -Hsd. induction Hsd as [|e m He Hm IH]; simpl; [reflexivity|].
    now rewrite He, IH. }
  assert (Hperm : Permutation (List.map summary_date (sort_days stays_before (List.map snd map)))
                              (List.map fst map)).
  { rewrite <- Hdates. apply Permutation_map, sort_days_perm. }
  repeat split.
  - apply (Permutation_NoDup (Permutation_sym Hperm) Hnd).
  - intros Hd. apply (Permutation_in _ Hperm) in Hd.
    apply Hkeys in Hd. now apply selected_dates.
  - intros Hd. apply (Permutation_in _ (Permutation_sym Hperm)).
    apply Hkeys. now apply selected_dates.
  - intros day Hin t.
    apply (Permutation_in _ (sort_days_perm _ _)) in Hin.
    apply in_map_iff in Hin. destruct Hin as ([k day'] & Ek & Hin). simpl in Ek. subst day'.
    pose proof (proj1 (Forall_forall _ _) Hsd _ Hin) as Hk. simpl in Hk.
    assert (Hl : lookup k map = Some day) by now apply In_lookup.
    specialize (Hday _ _ Hl t).
    assert (Hin' : In k (List.map fst map)).
    { change k with (fst (k, day)). now apply in_map. }
    apply Hkeys, selected_dates in Hin'. destruct Hin' as (r & _ & _ & L).
    rewrite rows_of_selected in Hday by assumption. now rewrite Hk.
Qed.

End SummaryFacts.

(** X24. [getAppleHealthSummary] ends in one of three ways.  It throws the
    RangeError of [toISOString] when the date [days] days back does not
    exist.  Otherwise it throws the TypeError of [undefined.push] exactly
    when a row of the period has a metric type that names a property every
    object inherits, and returns in every other case. *)
Theorem summary_fails_on_inherited_names (inherited parses : string -> bool)
    (stays_before : string -> string -> bool) (today : string)
    (days_ago : Z -> string) (invalid_cutoff : Z -> bool) (table : list Row) (days : Z) :
  let answer := getAppleHealthSummary inherited parses stays_before today days_ago
                  invalid_cutoff table days in
  if invalid_cutoff days
  then answer = Thrown "Invalid time value"
  else (answer = Thrown "Cannot read properties of undefined (reading 'push')"
        <-> exists r, In r table /\ in_period (days_ago days) r = true
                      /\ inherited (metric_type r) = true)
       /\ (answer = Thrown "Cannot read properties of undefined (reading 'push')"
           \/ exists summary, answer = Returned summary).
Proof.
  cbv zeta.
  destruct (invalid_cutoff days) eqn:Hvalid.
  { unfold getAppleHealthSummary. now rewrite Hvalid. }
  pose proof (summary_outcome inherited parses stays_before today days_ago invalid_cutoff
                table days Hvalid) as O.
  destruct (existsb _ table) eqn:E.
  - split; [|now left]. split; [|intros _; exact O].
    intros _. apply existsb_exists in E. destruct E as (r & Hin & H).
    apply andb_prop in H. exists r. tauto.
  - destruct O as (map & _ & O). split; [|right; eauto].
    split; [congruence|].
    intros (r & Hin & Hp & Hi). exfalso.
    assert (T : existsb (fun r => in_period (days_ago days) r && inherited (metric_type r)) table
                = true).
    { apply existsb_exists. exists r. now rewrite Hp, Hi. }
    congruence.
Qed.

(** X25. A summary has one entry per distinct stored timestamp of the
    period: the entries carry pairwise different [summary_date]s, these are
    exactly the [metric_date] values not before the cutoff, and
    [total_days] counts them. *)
Theorem summary_has_one_entry_per_timestamp (inherited parses : string -> bool)
    (stays_before : string -> string -> bool) (today : string)
    (days_ago : Z -> string) (invalid_cutoff : Z -> bool) (table : list Row)
        (days : Z) (summary : SummaryOut) :
  getAppleHealthSummary inherited parses stays_before today days_ago invalid_cutoff table days
  = Returned summary ->
  total_days summary = List.length (daily_data summary)
  /\ NoDup (List.map summary_date (daily_data summary))
  /\ (forall d, In d (List.map summary_date (daily_data summary))
                <-> exists r, In r table /\ metric_date r = Some d
                              /\ Sql.text_le (days_ago days) d = true).
Proof.
  intros H. apply summary_days in H. tauto.
Qed.

(** X25 on two readings five minutes apart: two entries. *)
Lemma summary_has_one_entry_per_timestamp_witness :
  exists summary,
    getAppleHealthSummary prototype_names Inputs.any_text Inputs.newer_first "2025-10-14"
      (fun _ => "2025-10-07") (fun _ => false) Inputs.two_readings 7 = Returned summary
    /\ total_days summary = 2%nat
    /\ In "2025-10-14 08:05:00 +0100" (List.map summary_date (daily_data summary)).
Proof.
  destruct (getAppleHealthSummary prototype_names Inputs.any_text Inputs.newer_first "2025-10-14"
              (fun _ => "2025-10-07") (fun _ => false) Inputs.two_readings 7)
    as [summary|message] eqn:E; [|vm_compute in E; discriminate E].
  destruct (@summary_has_one_entry_per_timestamp prototype_names Inputs.any_text Inputs.newer_first
              "2025-10-14" (fun _ => "2025-10-07")
                (fun _ => false) Inputs.two_readings 7 _ E) as (Hn & _ & Hd).
  pose proof E as E'. vm_compute in E'. injection E' as <-.
  eexists. split; [reflexivity|]. split; [exact Hn|].
  apply Hd. eexists. split; [right; left; reflexivity|]. split; reflexivity.
Defined.

(** X26. Inside a summary entry, a metric type is present exactly when the
    table holds rows of that type at the entry's timestamp.  Its value, unit
    and source are those of one of these rows, the one the SELECT returned
    first (energy shown in kcal, the converted column when it is set): they
    are not a sum.  [data_points] holds one point per such row, in the
    order of the SELECT. *)
Theorem summary_metric_shows_one_row (inherited parses : string -> bool)
    (stays_before : string -> string -> bool) (today : string)
    (days_ago : Z -> string) (invalid_cutoff : Z -> bool) (table : list Row) (days : Z)
    (summary : SummaryOut) (day : DayData) (t : string) :
  getAppleHealthSummary inherited parses stays_before today days_ago invalid_cutoff table days
  = Returned summary ->
  In day (daily_data summary) ->
  exists returned,
    Permutation returned
      (filter (fun r => on_timestamp (summary_date day) r && String.eqb (metric_type r) t)
              table)
    /\ built_from (lookup t (day_metrics day)) returned.
Proof.
  intros H Hin. apply summary_days in H. destruct H as (_ & _ & _ & _ & H).
  eexists. split; [reflexivity|]. now apply H.
Qed.

(** X26 on two readings of one timestamp: one of the two values, two data
    points. *)
Lemma summary_metric_shows_one_row_witness :
  exists summary day,
    getAppleHealthSummary prototype_names Inputs.any_text Inputs.newer_first "2025-10-14"
      (fun _ => "2025-10-07") (fun _ => false) Inputs.same_minute 7 = Returned summary
    /\ In day (daily_data summary)
    /\ exists e, lookup "heart_rate" (day_metrics day) = Some e
                 /\ (metric_out_value e = Some 61 \/ metric_out_value e = Some 75)
                 /\ List.length (data_points e) = 2%nat.
Proof.
  destruct (getAppleHealthSummary prototype_names Inputs.any_text Inputs.newer_first
              "2025-10-14" (fun _ => "2025-10-07") (fun _ => false) Inputs.same_minute 7)
    as [summary|message] eqn:E; [|vm_compute in E; discriminate E].
  pose proof E as E'. vm_compute in E'. injection E' as <-.
  do 2 eexists. split; [reflexivity|]. split; [left; reflexivity|].
  destruct (@summary_metric_shows_one_row prototype_names Inputs.any_text
              Inputs.newer_first "2025-10-14" (fun _ => "2025-10-07") (fun _ => false)
              Inputs.same_minute 7 _ _ "heart_rate" E (or_introl eq_refl))
    as (returned & Hperm & Hbuilt).
  change (filter _ Inputs.same_minute) with Inputs.same_minute in Hperm.
  pose proof (Permutation_length Hperm) as Hlen.
  destruct returned as [|first rest]; [discriminate Hlen|].
  destruct Hbuilt as (e & He & Hv & _ & _ & Hp).
  exists e. split; [exact He|]. split.
  - rewrite Hv.
    assert (Hin : In first Inputs.same_minute)
      by (apply (Permutation_in _ Hperm); now left).
    destruct Hin as [<-|[<-|[]]]; [left|right]; reflexivity.
  - rewrite Hp, length_map. exact Hlen.
Defined.

(** X27. [getAppleHealthDailyData] answers with the entry of one stored
    timestamp that starts with the requested date, built from the rows of
    exactly that timestamp (in the order of the SELECT); it answers with
    the placeholder only when no timestamp of the last 30 days starts with
    the date. *)
Theorem daily_data_is_one_timestamp (inherited parses : string -> bool)
    (stays_before : string -> string -> bool) (today : string)
    (days_ago : Z -> string) (invalid_cutoff : Z -> bool) (table : list Row)
    (date : string) (out : DailyOut) :
  getAppleHealthDailyData inherited parses stays_before today days_ago invalid_cutoff table date
  = Returned out ->
  match out with
  | Found day =>
      String.prefix date (summary_date day) = true
      /\ (exists r, In r table /\ metric_date r = Some (summary_date day)
                    /\ Sql.text_le (days_ago 30%Z) (summary_date day) = true)
      /\ (forall t, exists returned,
             Permutation returned
               (filter (fun r => on_timestamp (summary_date day) r
                                 && String.eqb (metric_type r) t) table)
             /\ built_from (lookup t (day_metrics day)) returned)
  | NoData d message =>
      d = date
      /\ message = "No data available for this date"
      /\ (forall r d', In r table -> metric_date r = Some d' ->
                       Sql.text_le (days_ago 30%Z) d' = true ->
                       d' = EmptyString \/ String.prefix date d' = false)
  end.
Proof.
  unfold getAppleHealthDailyData.
  destruct (getAppleHealthSummary inherited parses stays_before today days_ago invalid_cutoff
              table 30) as [summary|e] eqn:E; [|discriminate].
  apply summary_days in E. destruct E as (_ & _ & _ & Hd & Hb).
  destruct (find _ (daily_data summary)) as [day|] eqn:F; intros [= <-].
  - apply find_some in F. destruct F as [Hin Hp].
    apply andb_prop in Hp. destruct Hp as [_ Hp].
    split; [exact Hp|]. split.
    + apply Hd. now apply in_map.
    + intros t. eexists. split; [reflexivity|]. now apply Hb.
  - split; [reflexivity|]. split; [reflexivity|].
    intros r d' Hin Ed L.
    assert (Hday : In d' (List.map summary_date (daily_data summary))).
    { apply Hd. eauto. }
    apply in_map_iff in Hday. destruct Hday as (day & <- & Hday).
    pose proof (find_none _ _ F _ Hday) as N. simpl in N.
    destruct (summary_date day); [now left|right]. exact N.
Qed.

(** X27 on two readings of one day: the entry of the later timestamp, with
    one data point. *)
Lemma daily_data_is_one_timestamp_witness :
  exists day,
    getAppleHealthDailyData prototype_names Inputs.any_text Inputs.newer_first "2025-10-14"
      (fun _ => "2025-09-14") (fun _ => false) Inputs.two_readings "2025-10-14"
    = Returned (Found day)
    /\ summary_date day = "2025-10-14 08:05:00 +0100"
    /\ exists e, lookup "heart_rate" (day_metrics day) = Some e
                 /\ List.length (data_points e) = 1%nat.
Proof.
  destruct (getAppleHealthDailyData prototype_names Inputs.any_text Inputs.newer_first
              "2025-10-14" (fun _ => "2025-09-14") (fun _ => false) Inputs.two_readings
              "2025-10-14")
    as [out|message] eqn:E; [|vm_compute in E; discriminate E].
  pose proof E as E'. vm_compute in E'. injection E' as <-.
  eexists. split; [reflexivity|]. split; [reflexivity|].
  pose proof (@daily_data_is_one_timestamp prototype_names Inputs.any_text
                Inputs.newer_first "2025-10-14" (fun _ => "2025-09-14") (fun _ => false)
                Inputs.two_readings "2025-10-14" (Found _) E) as T.
  destruct T as (_ & _ & T). destruct (T "heart_rate") as (returned & Hperm & Hbuilt).
  cbv in Hperm.
  pose proof (Permutation_length Hperm) as Hlen.
  destruct returned as [|first rest]; [discriminate Hlen|].
  destruct Hbuilt as (e & He & _ & _ & _ & Hp).
  exists e. split; [exact He|]. rewrite Hp, length_map. exact Hlen.
Defined.

(** ** The webhook *)

Lemma for_of_outcome (A : Type) (ok : A -> bool) (P : string -> Prop)
    (body : A -> nat -> M nat) (xs : list A) :
  (forall x n db, match snd (body x n db) with
                  | Returned _ => ok x = true
                  | Thrown m => ok x = false /\ P m
                  end) ->
  forall n db, match snd (for_of xs body n db) with
               | Returned _ => forallb ok xs = true
               | Thrown m => forallb ok xs = false /\ P m
               end.
Proof.
  intros Hbody. induction xs as [|x xs IH]; intros n db; [reflexivity|].
  simpl. unfold bind. specialize (Hbody x n db).
  destruct (body x n db) as [db1 [n1|e]]; simpl in Hbody.
  - rewrite Hbody. exact (IH n1 db1).
  - destruct Hbody as [-> Hp]. simpl. now split.
Qed.

Lemma present_no_null (A : Type) (l : list (option A)) :
  forallb (@present A) l = true -> no_null l.
Proof.
  induction l as [|x l IH]; simpl; [constructor|].
  intros H. apply andb_prop in H. destruct H as [Hx Hl].
  constructor; [destruct x; [discriminate|discriminate Hx]|now apply IH].
Qed.

Lemma complete_no_nulls (payload : Payload) : complete payload = true -> no_nulls payload.
Proof.
  unfold complete, no_nulls. intros H. apply andb_prop in H. destruct H as [Hm Hw]. split.
  - destruct (metrics payload) as [ms|]; [|exact I].
    induction ms as [|m ms IH]; simpl in *; [split; constructor|].
    apply andb_prop in Hm. destruct Hm as [Hx Hms]. destruct (IH Hms) as [I1 I2].
    split; constructor; try assumption.
    + destruct m; [discriminate|discriminate Hx].
    + destruct m as [m|]; [|exact I]. simpl in Hx.
      destruct (data m); [now apply present_no_null|exact I].
  - destruct (workouts payload) as [ws|]; [|exact I]. now apply present_no_null.
Qed.

Section RouteFacts.

Variable uniq : list Unique.
Variable JSON_stringify : json -> string.
Variable now : string.

Lemma save_point_outcome (m : Metric) (x : option DataPoint) (n : nat) (db : DB) :
  match snd (save_point uniq JSON_stringify now m x n db) with
  | Returned _ => present x = true
  | Thrown e => present x = false /\ e = null_read "date"
  end.
Proof.
  destruct x as [p|].
  - destruct (save_point_some uniq JSON_stringify now m p n db) as (v & a & ->).
    reflexivity.
  - simpl. now split.
Qed.

Lemma save_metric_outcome (x : option Metric) (n : nat) (db : DB) :
  match snd (save_metric uniq JSON_stringify now x n db) with
  | Returned _ => complete_metric x = true
  | Thrown e => complete_metric x = false /\ (e = null_read "data" \/ e = null_read "date")
  end.
Proof.
  destruct x as [m|]; [|simpl; now split; [|left]].
  unfold save_metric, bind, deref, ret. simpl.
  destruct (data m) as [points|]; [|reflexivity].
  pose proof (@for_of_outcome _ (@present DataPoint) (fun e => e = null_read "date")
                (save_point uniq JSON_stringify now m) points
                (save_point_outcome m) n db) as H.
  destruct (snd (for_of points _ n db)); [exact H|].
  destruct H as [H1 H2]. split; [exact H1|now right].
Qed.

Lemma save_workout_outcome (x : option Workout) (n : nat) (db : DB) :
  match snd (save_workout uniq JSON_stringify now x n db) with
  | Returned _ => present x = true
  | Thrown e => present x = false /\ e = null_read "name"
  end.
Proof.
  destruct x as [w|]; [reflexivity|]. simpl. now split.
Qed.

(** A call returns exactly on the complete payloads; otherwise it throws
    one of three TypeErrors. *)
Lemma call_outcome (payload : Payload) (db : DB) :
  match snd (saveAutoExportData uniq JSON_stringify now payload db) with
  | Returned _ => complete payload = true
  | Thrown e => complete payload = false
                /\ In e [null_read "data"; null_read "date"; null_read "name"]
  end.
Proof.
  unfold saveAutoExportData, try_block, bind, insert_import, complete.
  set (db1 := mkDB (health_metrics db) _ (health_sync_log db)).
  set (loop1 := match metrics payload with
                | Some ms => for_of ms (save_metric uniq JSON_stringify now) O
                | None => ret O
                end).
  assert (L1 : match snd (loop1 db1) with
               | Returned _ => match metrics payload with
                               | Some ms => forallb complete_metric ms
                               | None => true
                               end = true
               | Thrown e => match metrics payload with
                             | Some ms => forallb complete_metric ms
                             | None => true
                             end = false
                             /\ (e = null_read "data" \/ e = null_read "date")
               end).
  { unfold loop1. destruct (metrics payload) as [ms|]; [|reflexivity].
    apply for_of_outcome. apply save_metric_outcome. }
  destruct (loop1 db1) as [db2 [n|e]]; simpl in L1.
  - rewrite L1. cbn [andb].
    set (loop2 := match workouts payload with
                  | Some ws => for_of ws (save_workout uniq JSON_stringify now) O
                  | None => ret O
                  end).
    assert (L2 : match snd (loop2 db2) with
                 | Returned _ => match workouts payload with
                                 | Some ws => forallb (@present Workout) ws
                                 | None => true
                                 end = true
                 | Thrown e => match workouts payload with
                               | Some ws => forallb (@present Workout) ws
                               | None => true
                               end = false
                               /\ e = null_read "name"
                 end).
    { unfold loop2. destruct (workouts payload) as [ws|]; [|reflexivity].
      apply for_of_outcome. apply save_workout_outcome. }
    destruct (loop2 db2) as [db3 [k|e]]; simpl in L2.
    + exact L2.
    + destruct L2 as [L2 ->]. simpl. split; [exact L2|]. right. right. now left.
  - destruct L1 as [L1 He]. simpl. rewrite L1. split; [reflexivity|].
    destruct He as [->| ->]; [now left|right; now left].
Qed.

(** X28. The webhook on a body without data, and on a body whose
    [metrics] and [workouts] are absent or arrays of objects and nulls (a
    [Payload]; a body with another value there, which can fail with "is not
    iterable", is not covered).  The status of the reply tells what
    happened: 400 without any write when the body has no data; 200 exactly
    when no array the writer walks holds a null, with the new import id,
    the number of data points and the number of workouts; 500 otherwise,
    with the message of the TypeError on the first null. *)
Theorem webhook_status_tells_the_outcome (body : option Payload) (db : DB) :
  let after := auto_export uniq JSON_stringify now body db in
  match body with
  | None => fst after = db /\ status_code (snd after) = 400%Z
  | Some payload =>
      if complete payload
      then snd after
           = mkReply 200 (Processed (next_import_id (apple_health_auto_export db))
                                    (List.length (metric_stamps (metrics payload)))
                                    (List.length (workout_stamps (workouts payload)))
                                    now)
      else status_code (snd after) = 500%Z
           /\ exists prop, In prop ["data"; "date"; "name"]
                           /\ reply_body (snd after) = Failed (null_read prop)
  end.
Proof.
  cbv zeta. destruct body as [payload|]; [|split; reflexivity].
  unfold auto_export.
  pose proof (call_outcome payload db) as O.
  pose proof (audit_after_call uniq JSON_stringify now payload db) as A. cbv zeta in A.
  destruct (complete payload) eqn:C.
  - destruct (call_without_nulls uniq JSON_stringify now db (complete_no_nulls _ C))
      as [(r & Hr & Hm & Hw) _].
    rewrite Hr in A. destruct A as (_ & Hid & Ht).
    destruct (saveAutoExportData uniq JSON_stringify now payload db) as [db' out].
    simpl in Hr. subst out. simpl. now rewrite Hid, Hm, Hw, Ht.
  - destruct (saveAutoExportData uniq JSON_stringify now payload db) as [db' [r|e]];
      simpl in O; [discriminate O|].
    destruct O as [_ O]. simpl. split; [reflexivity|].
    destruct O as [<-|[<-|[<-|[]]]]; eexists; (split; [|reflexivity]); simpl; tauto.
Qed.

End RouteFacts.
